(** * Crypto-Trading-Bot: the decision-and-execution engine of [src/app.py]

    A shallow embedding of [calculate_RSI], the buy/sell admission rules,
    the order polling loop [get_order], the [buy]/[sell] operations, the
    per-market strategies, the main loop's exception handlers and the
    start of the program with [get_markets], followed by the properties
    established about them.

    Numbers are IEEE-754 binary64 values, as Python's [float]: the closes,
    volumes and prices decoded from the exchange's JSON are floats, and an
    [int] literal of the source that meets a float ([0], [1], [13], [14],
    [50], [100]) is converted exactly. The arithmetic is the executable
    specification [SpecFloat] of the standard library at precision 53 and
    maximal exponent 1024; nothing is assumed about it. *)

From Stdlib Require Import ZArith List Bool Lia String QArith Qpower.
From Stdlib Require Import Floats.SpecFloat.
Import ListNotations.

Local Open Scope Z_scope.

(** ** Python exceptions and results *)

(** The built-in exception classes the program can meet, with the
    interpreter's inheritance order. *)
Inductive py_class : Type :=
| BaseException | SystemExit | KeyboardInterrupt | Exception
| OSError | ConnectionError | ConnectionResetError | TimeoutError
| ValueError | JSONDecodeError | UnicodeError
| TypeError
| LookupError | KeyError | IndexError
| ArithmeticError | ZeroDivisionError | OverflowError
| RuntimeError.

Definition py_class_eqb (a b : py_class) : bool :=
  match a, b with
  | BaseException, BaseException | SystemExit, SystemExit
  | KeyboardInterrupt, KeyboardInterrupt | Exception, Exception
  | OSError, OSError | ConnectionError, ConnectionError
  | ConnectionResetError, ConnectionResetError | TimeoutError, TimeoutError
  | ValueError, ValueError | JSONDecodeError, JSONDecodeError
  | UnicodeError, UnicodeError | TypeError, TypeError
  | LookupError, LookupError | KeyError, KeyError | IndexError, IndexError
  | ArithmeticError, ArithmeticError | ZeroDivisionError, ZeroDivisionError
  | OverflowError, OverflowError | RuntimeError, RuntimeError => true
  | _, _ => false
  end.

(** The direct base class ([json.decoder.JSONDecodeError] derives from
    [ValueError], [ConnectionError] from [OSError], [KeyError] from
    [LookupError]). *)
Definition base (c : py_class) : option py_class :=
  match c with
  | BaseException => None
  | SystemExit | KeyboardInterrupt | Exception => Some BaseException
  | OSError | ValueError | TypeError | LookupError | ArithmeticError
  | RuntimeError => Some Exception
  | ConnectionError | TimeoutError => Some OSError
  | ConnectionResetError => Some ConnectionError
  | JSONDecodeError | UnicodeError => Some ValueError
  | KeyError | IndexError => Some LookupError
  | ZeroDivisionError | OverflowError => Some ArithmeticError
  end.

(** [issubclass c d]: [d] is reached from [c] along [base]; the hierarchy
    above is four levels deep. *)
Fixpoint issubclass_upto (n : nat) (c d : py_class) : bool :=
  py_class_eqb c d ||
  match n with
  | O => false
  | S n' => match base c with
            | Some b => issubclass_upto n' b d
            | None => false
            end
  end.

Definition issubclass : py_class -> py_class -> bool := issubclass_upto 4.

(** The outcome of running a piece of Python: a value, or a raised
    exception. [OutOfFuel] is no Python behaviour: it marks a run in which
    the bound this development puts on the iterations of a [while] loop
    was reached. *)
Inductive result (A : Type) : Type :=
| Ok (a : A)
| Raise (e : py_class)
| OutOfFuel.
Arguments Ok {A} a.
Arguments Raise {A} e.
Arguments OutOfFuel {A}.

Definition rbind {A B : Type} (r : result A) (k : A -> result B) : result B :=
  match r with
  | Ok a => k a
  | Raise e => Raise e
  | OutOfFuel => OutOfFuel
  end.

Declare Scope result_scope.
Delimit Scope result_scope with result.
Notation "'let?' x ':=' c 'in' k" := (rbind c (fun x => k))
  (at level 10, x name, c at level 100, k at level 200) : result_scope.

(** ** Floats *)

Module F64.

Definition prec : Z := 53.
Definition emax : Z := 1024.

Definition float : Type := spec_float.

Definition add : float -> float -> float := SFadd prec emax.
Definition sub : float -> float -> float := SFsub prec emax.
Definition mul : float -> float -> float := SFmul prec emax.
Definition div : float -> float -> float := SFdiv prec emax.
Definition abs : float -> float := SFabs.

(** [x < y], [x <= y], [x == y]; all false as soon as one side is NaN. *)
Definition ltb : float -> float -> bool := SFltb.
Definition leb : float -> float -> bool := SFleb.
Definition eqb : float -> float -> bool := SFeqb.

(** The float of an [int]: exact below [2^53], rounded to nearest even
    above. *)
Definition of_int (z : Z) : float := binary_normalize prec emax z 0 false.

(** The rational number a finite float stands for. *)
Definition value (x : float) : option Q :=
  match x with
  | S754_zero _ => Some 0%Q
  | S754_finite s m e =>
      let v := (inject_Z (Zpos m) * 2 ^ e)%Q in
      Some (if s then Qopp v else v)
  | _ => None
  end.

(** Python's [x / y] on floats: a zero divisor raises instead of
    producing an infinity. *)
Definition truediv (x y : float) : result float :=
  if eqb y (of_int 0) then Raise ZeroDivisionError else Ok (div x y).

(** The float nearest to [n / 10^k], the value of a decimal literal, for
    [n] and [10^k] below [2^53]. *)
Definition decimal (n : Z) (k : nat) : float :=
  div (of_int n) (of_int (10 ^ Z.of_nat k)).

(** [sum(xs)]: starts from the int [0] and adds from the left, one
    rounding per addition. *)
Definition sum (xs : list float) : float := fold_left add xs (of_int 0).

End F64.

Definition float : Type := F64.float.

Local Open Scope result_scope.

(** ** IndicatorEngine: [calculate_RSI] *)

(** [xs[k]] for [k >= 0]: an index past the end raises. *)
Definition item (xs : list float) (k : nat) : result float :=
  match nth_error xs k with
  | Some x => Ok x
  | None => Raise IndexError
  end.

(** The first loop: the price changes of the first 15 closes. It walks
    [closing_prices] with the counter [count] and stops at [count == 15]. *)
Fixpoint price_changes (closing_prices rest : list float)
    (count : nat) (change : list float) : result (nat * list float) :=
  match rest with
  | [] => Ok (count, change)
  | i :: rest' =>
      let? change :=
        if negb (count =? 0)%nat
        then let? prev := item closing_prices (count - 1) in
             Ok (change ++ [F64.sub i prev])
        else Ok change in
      let count := S count in
      if (count =? 15)%nat then Ok (count, change)
      else price_changes closing_prices rest' count change
  end.

(** The second loop: positive changes go to [advances], the absolute
    values of negative ones to [declines]. *)
Fixpoint gains_and_losses (change advances declines : list float)
    : list float * list float :=
  match change with
  | [] => (advances, declines)
  | i :: rest =>
      let advances :=
        if F64.ltb (F64.of_int 0) i then advances ++ [i] else advances in
      let declines :=
        if F64.ltb i (F64.of_int 0) then declines ++ [F64.abs i] else declines in
      gains_and_losses rest advances declines
  end.

(** The state of the third loop. *)
Record smoothing : Type := Smoothing {
  sm_count : nat;
  new_avg_gain : float;
  new_avg_loss : float
}.

(** One Wilder update, the body of the [if 14 < count < len(...)]. *)
Definition smooth_step (closing_prices : list float) (s : smoothing)
    : result smoothing :=
  let count := sm_count s in
  let? close := item closing_prices count in
  let? prev := item closing_prices (count - 1) in
  let new_change := F64.sub close prev in
  let add_loss := F64.of_int 0 in
  let add_gain := F64.of_int 0 in
  let add_gain :=
    if F64.ltb (F64.of_int 0) new_change then new_change else add_gain in
  let add_loss :=
    if F64.ltb new_change (F64.of_int 0) then F64.abs new_change else add_loss in
  let? g := F64.truediv
              (F64.add (F64.mul (new_avg_gain s) (F64.of_int 13)) add_gain)
              (F64.of_int 14) in
  let? l := F64.truediv
              (F64.add (F64.mul (new_avg_loss s) (F64.of_int 13)) add_loss)
              (F64.of_int 14) in
  Ok (Smoothing (S count) g l).

(** The third loop: one iteration per element of [closing_prices], which
    updates only while [14 < count < len(closing_prices)]. *)
Fixpoint smooth (closing_prices rest : list float) (s : smoothing)
    : result smoothing :=
  match rest with
  | [] => Ok s
  | _ :: rest' =>
      if (14 <? sm_count s)%nat && (sm_count s <? List.length closing_prices)%nat
      then let? s' := smooth_step closing_prices s in
           smooth closing_prices rest' s'
      else smooth closing_prices rest' s
  end.

(** The last lines: [None] on a zero average loss, else
    [100 - 100 / (1 + rs)]. *)
Definition rsi_of_averages (g l : float) : result (option float) :=
  if F64.eqb l (F64.of_int 0) then Ok None
  else
    let? rs := F64.truediv g l in
    let? q := F64.truediv (F64.of_int 100) (F64.add (F64.of_int 1) rs) in
    Ok (Some (F64.sub (F64.of_int 100) q)).

(** The seed averages of step 3: [sum(advances) / 14], [sum(declines) / 14]. *)
Definition seed_averages (change : list float) : result (float * float) :=
  let '(advances, declines) := gains_and_losses change [] [] in
  let? average_gain := F64.truediv (F64.sum advances) (F64.of_int 14) in
  let? average_loss := F64.truediv (F64.sum declines) (F64.of_int 14) in
  Ok (average_gain, average_loss).

(** The averages [new_avg_gain] and [new_avg_loss] after the three loops. *)
Definition smoothed_averages (closing_prices : list float) : result smoothing :=
  let? cc := price_changes closing_prices closing_prices 0 [] in
  let '(count, change) := cc in
  let? avg := seed_averages change in
  let '(average_gain, average_loss) := avg in
  smooth closing_prices closing_prices
    (Smoothing count average_gain average_loss).

(** The body of [calculate_RSI] once [get_closing_prices] has returned
    [closing_prices]. *)
Definition calculate_RSI_on (closing_prices : list float)
    : result (option float) :=
  let? s := smoothed_averages closing_prices in
  rsi_of_averages (new_avg_gain s) (new_avg_loss s).

(** The successive deltas [close[i] - close[i-1]] of a series, and the
    test that none of them is negative. *)
Fixpoint deltas (closes : list float) : list float :=
  match closes with
  | a :: (b :: _) as rest => F64.sub b a :: deltas rest
  | _ => []
  end.

Fixpoint nonnegative_deltas (closes : list float) : bool :=
  match closes with
  | a :: (b :: _) as rest =>
      negb (F64.ltb (F64.sub b a) (F64.of_int 0)) && nonnegative_deltas rest
  | _ => true
  end.

(** ** SignalPolicy *)

(** [secrets["tradeParameters"]]. *)
Record trade_parameters : Type := TradeParameters {
  buy_btcAmount : float;
  buy_rsiThreshold : float;
  buy_24HourVolumeThreshold : float;
  buy_minimumUnitPrice : float;
  sell_rsiThreshold : float;
  sell_profitMarginThreshold : float;
  sell_minProfitMarginThreshold : float;
  tickerInterval : string
}.

(** An operand of an ordering comparison with a number: [None] there is a
    [TypeError]. *)
Definition number (x : option float) : result float :=
  match x with
  | Some v => Ok v
  | None => Raise TypeError
  end.

(** [check_buy_parameters]: the chained [and] stops at the first false
    conjunct; [day_volume] and [current_buy_price] are [None] when the
    market summary could not be fetched. *)
Definition check_buy_parameters (p : trade_parameters)
    (rsi day_volume current_buy_price : option float) : result bool :=
  match rsi with
  | None => Ok false
  | Some r =>
      if negb (F64.leb r (buy_rsiThreshold p)) then Ok false
      else
        let? v := number day_volume in
        if negb (F64.leb (buy_24HourVolumeThreshold p) v) then Ok false
        else
          let? a := number current_buy_price in
          Ok (F64.ltb (buy_minimumUnitPrice p) a)
  end.

(** [check_sell_parameters]. *)
Definition check_sell_parameters (p : trade_parameters)
    (rsi : option float) (profit_margin : float) : bool :=
  match rsi with
  | None => false
  | Some r =>
      F64.leb (sell_rsiThreshold p) r
      && F64.ltb (sell_minProfitMarginThreshold p) profit_margin
  end
  || F64.ltb (sell_profitMarginThreshold p) profit_margin.

(** ** The collaborators: exchange, ledger, notifier, logger, clock *)

(** [order_data["result"]] of [Bittrex.get_order]: the fields the program
    reads, and the unit price the ledger stores. *)
Record order_result : Type := OrderResult {
  IsOpen : bool;
  Exchange : string;
  Quantity : float;
  PricePerUnit : float
}.

(** The answer to [buy_limit] / [sell_limit]: ["success"] and
    ["result"]["uuid"]. *)
Record placement : Type := Placement {
  pl_success : bool;
  pl_uuid : string
}.

(** The answer to [get_market_summary]: ["success"] and the fields of
    ["result"][0]. *)
Record market_summary : Type := MarketSummary {
  ms_success : bool;
  Ask : float;
  Bid : float;
  Last : float;
  BaseVolume : float
}.

(** [buy_stats] and [sell_stats]. *)
Record buy_stats : Type := BuyStats {
  bs_rsi : option float;
  bs_24HrVolume : option float
}.

Record sell_stats : Type := SellStats {
  ss_rsi : option float;
  ss_profitMargin : float
}.

(** Calls on the [Messenger]. *)
Inductive messenger_call : Type :=
| send_buy_email (coin_pair : string) (quantity price : float)
    (rsi day_volume : option float)
| print_buy (coin_pair : string) (price : float) (rsi day_volume : option float)
| play_sw_imperial_march
| send_sell_email (coin_pair : string) (quantity : float)
    (price rsi : option float) (profit_margin : float)
| print_sell (coin_pair : string) (price rsi : option float)
    (profit_margin : float)
| play_sw_theme
| print_order_error (order_uuid : string) (trade_time_limit : Z)
    (exchange_name : string)
| print_no_buy (coin_pair : string) (rsi : float)
    (day_volume current_buy_price : option float)
| print_no_sell (coin_pair : string) (rsi : float) (profit_margin : float)
    (current_sell_price : option float)
| print_exception_error (label : string).

(** What the program hands to [logger.error]. *)
Inductive log_message : Type :=
| FailedToFetchSummary (coin_pair : string)
| FailedToBuy (coin_pair : string)
| FailedToSell (coin_pair : string)
| OrderError (order_uuid : string) (trade_time_limit : Z)
    (exchange_name : string).

(** Every call the program makes on a collaborator, in the order made. *)
Inductive event : Type :=
| BittrexGetMarketSummary (coin_pair : string)
| BittrexGetHistoricalData (coin_pair : string) (period : Z) (unit : string)
| BittrexBuyLimit (coin_pair : string) (quantity price : float)
| BittrexSellLimit (coin_pair : string) (quantity : float)
    (price : option float)
| BittrexGetOrder (order_uuid : string)
| BittrexCancel (order_uuid : string)
| DatabaseStoreInitialBuy (coin_pair order_uuid : string)
| DatabaseStoreBuy (order : order_result) (stats : buy_stats)
| DatabaseStoreSell (order : order_result) (stats : sell_stats)
| DatabaseGetOpenTrade (coin_pair : string)
| DatabaseGetProfitMargin (coin_pair : string) (price : option float)
| Messenger (call : messenger_call)
| LoggerError (message : log_message)
| LoggerException (e : py_class)
| Sleep (seconds : Z).

(** The exchange client [src.bittrex.Bittrex] is an external collaborator:
    each request is answered from the history of calls made so far, with a
    value or a raised exception, and takes [bx_request_time] seconds. *)
Record exchange : Type := BittrexClient {
  bx_get_market_summary : list event -> string -> result market_summary;
  bx_get_historical_data :
    list event -> string -> Z -> string -> result (list float);
  bx_buy_limit : list event -> string -> float -> float -> result placement;
  bx_sell_limit :
    list event -> string -> float -> option float -> result placement;
  bx_get_order : list event -> string -> result order_result;
  bx_cancel : list event -> string -> result bool;
  bx_request_time : list event -> N
}.

(** The ledger [src.database.Database], whose code is not part of
    [app.py]: its state [db] and the operations the program calls.
    [trackedCoinPairs] is [Database.trades["trackedCoinPairs"]], a list. *)
Record database_class (db : Type) : Type := DatabaseClass {
  trackedCoinPairs : db -> list string;
  store_initial_buy : db -> string -> string -> db;
  store_buy : db -> order_result -> buy_stats -> db;
  store_sell : db -> order_result -> sell_stats -> db;
  get_open_trade_quantity : db -> string -> result float;
  get_profit_margin : db -> string -> option float -> result float
}.
Arguments trackedCoinPairs {db}.
Arguments store_initial_buy {db}.
Arguments store_buy {db}.
Arguments store_sell {db}.
Arguments get_open_trade_quantity {db}.
Arguments get_profit_margin {db}.

(** What a run can observe and change: the wall clock in seconds, the calls
    made so far, and the ledger. Only sleeping and the requests to the
    exchange take time. *)
Record world (db : Type) : Type := World {
  now : Z;
  trace : list event;
  database : db
}.
Arguments World {db}.
Arguments now {db}.
Arguments trace {db}.
Arguments database {db}.

(** A computation on the world that may raise. *)
Definition M (db A : Type) : Type := world db -> result A * world db.

Definition ret {db A : Type} (a : A) : M db A := fun w => (Ok a, w).

Definition bind {db A B : Type} (m : M db A) (k : A -> M db B) : M db B :=
  fun w =>
    match m w with
    | (Ok a, w') => k a w'
    | (Raise e, w') => (Raise e, w')
    | (OutOfFuel, w') => (OutOfFuel, w')
    end.

Declare Scope bot_scope.
Delimit Scope bot_scope with bot.
Notation "x <- c ;; k" := (bind c (fun x => k))
  (at level 61, c at next level, right associativity) : bot_scope.
Notation "c ;; k" := (bind c (fun _ => k))
  (at level 61, right associativity) : bot_scope.

Definition lift {db A : Type} (r : result A) : M db A := fun w => (r, w).

Definition emit {db : Type} (e : event) : M db unit :=
  fun w => (Ok tt, World (now w) (trace w ++ [e]) (database w)).

(** ** The program *)

Section Bot.

Context {db : Type}.

(** The module-level singletons and configuration of [app.py]. *)
Variable Database : database_class db.
Variable Bittrex : exchange.
Variable params : trade_parameters.
Variable btc_coin_pairs : list string.

(** The bound on the iterations of the [while] loop of [get_order] and
    of the [for] loop of [analyse_sells] over the live ledger. *)
Variable fuel : nat.

Local Open Scope bot_scope.

(** One request to the exchange: it is answered from the history, is
    recorded, and takes its time. *)
Definition request {A : Type} (e : event) (answer : list event -> result A)
    : M db A :=
  fun w =>
    (answer (trace w),
     World (now w + Z.of_N (bx_request_time Bittrex (trace w)))
           (trace w ++ [e]) (database w)).

(** [time.time()] and [time.sleep(seconds)]. *)
Definition time_time : M db Z := fun w => (Ok (now w), w).

Definition time_sleep (seconds : Z) : M db unit :=
  fun w => (Ok tt, World (now w + seconds) (trace w ++ [Sleep seconds])
                         (database w)).

(** A call that changes the ledger, and one that only reads it. *)
Definition database_write (e : event) (f : db -> db) : M db unit :=
  fun w => (Ok tt, World (now w) (trace w ++ [e]) (f (database w))).

Definition database_read {A : Type} (e : event) (f : db -> result A)
    : M db A :=
  fun w => (f (database w), World (now w) (trace w ++ [e]) (database w)).

(** [Database.trades["trackedCoinPairs"]]. *)
Definition tracked : M db (list string) :=
  fun w => (Ok (trackedCoinPairs Database (database w)), w).

Definition get_current_price (coin_pair price_type : string)
    : M db (option float) :=
  coin_summary <- request (BittrexGetMarketSummary coin_pair)
                    (fun h => bx_get_market_summary Bittrex h coin_pair) ;;
  if negb (ms_success coin_summary) then
    emit (LoggerError (FailedToFetchSummary coin_pair)) ;;
    ret None
  else if String.eqb price_type "ask" then ret (Some (Ask coin_summary))
  else if String.eqb price_type "bid" then ret (Some (Bid coin_summary))
  else ret (Some (Last coin_summary)).

Definition get_current_24hr_volume (coin_pair : string)
    : M db (option float) :=
  coin_summary <- request (BittrexGetMarketSummary coin_pair)
                    (fun h => bx_get_market_summary Bittrex h coin_pair) ;;
  if negb (ms_success coin_summary) then
    emit (LoggerError (FailedToFetchSummary coin_pair)) ;;
    ret None
  else ret (Some (BaseVolume coin_summary)).

(** The list of the ["C"] fields of the candles. *)
Definition get_closing_prices (coin_pair : string) (period : Z)
    (unit : string) : M db (list float) :=
  request (BittrexGetHistoricalData coin_pair period unit)
    (fun h => bx_get_historical_data Bittrex h coin_pair period unit).

Definition calculate_RSI (coin_pair : string) (period : Z) (unit : string)
    : M db (option float) :=
  closing_prices <- get_closing_prices coin_pair (period * 3) unit ;;
  lift (calculate_RSI_on closing_prices).

(** The [while] loop of [get_order], entered with the first answer. *)
Fixpoint poll (n : nat) (order_uuid : string)
    (start_time trade_time_limit : Z) (order_data : order_result)
    : M db order_result :=
  t <- time_time ;;
  if (t - start_time <=? trade_time_limit) && IsOpen order_data then
    match n with
    | O => lift OutOfFuel
    | S n' =>
        time_sleep 10 ;;
        order_data <- request (BittrexGetOrder order_uuid)
                        (fun h => bx_get_order Bittrex h order_uuid) ;;
        poll n' order_uuid start_time trade_time_limit order_data
    end
  else ret order_data.

(** [get_order] up to the exit of its [while] loop. *)
Definition await_order (order_uuid : string) (trade_time_limit : Z)
    : M db order_result :=
  start_time <- time_time ;;
  order_data <- request (BittrexGetOrder order_uuid)
                  (fun h => bx_get_order Bittrex h order_uuid) ;;
  poll fuel order_uuid start_time trade_time_limit order_data.

Definition get_order (order_uuid : string) (trade_time_limit : Z)
    : M db order_result :=
  order_data <- await_order order_uuid trade_time_limit ;;
  if IsOpen order_data then
    emit (Messenger (print_order_error order_uuid trade_time_limit
                       (Exchange order_data))) ;;
    emit (LoggerError (OrderError order_uuid trade_time_limit
                         (Exchange order_data))) ;;
    request (BittrexCancel order_uuid)
      (fun h => bx_cancel Bittrex h order_uuid) ;;
    ret order_data
  else ret order_data.

Definition buy (coin_pair : string) (btc_quantity : float)
    (price : option float) (stats : buy_stats) (trade_time_limit : Z)
    : M db unit :=
  p <- lift (number price) ;;
  quantity <- lift (F64.truediv btc_quantity p) ;;
  buy_data <- request (BittrexBuyLimit coin_pair quantity p)
                (fun h => bx_buy_limit Bittrex h coin_pair quantity p) ;;
  if negb (pl_success buy_data) then
    emit (LoggerError (FailedToBuy coin_pair))
  else
    database_write (DatabaseStoreInitialBuy coin_pair (pl_uuid buy_data))
      (fun d => store_initial_buy Database d coin_pair (pl_uuid buy_data)) ;;
    buy_order_data <- get_order (pl_uuid buy_data) (trade_time_limit * 60) ;;
    database_write (DatabaseStoreBuy buy_order_data stats)
      (fun d => store_buy Database d buy_order_data stats) ;;
    emit (Messenger (send_buy_email coin_pair (Quantity buy_order_data) p
                       (bs_rsi stats) (bs_24HrVolume stats))) ;;
    emit (Messenger (print_buy coin_pair p (bs_rsi stats)
                       (bs_24HrVolume stats))) ;;
    emit (Messenger play_sw_imperial_march).

Definition sell (coin_pair : string) (price : option float)
    (stats : sell_stats) (trade_time_limit : Z) : M db unit :=
  trade_quantity <- database_read (DatabaseGetOpenTrade coin_pair)
                      (fun d => get_open_trade_quantity Database d coin_pair) ;;
  sell_data <- request (BittrexSellLimit coin_pair trade_quantity price)
                 (fun h => bx_sell_limit Bittrex h coin_pair trade_quantity
                             price) ;;
  if negb (pl_success sell_data) then
    emit (LoggerError (FailedToSell coin_pair))
  else
    sell_order_data <- get_order (pl_uuid sell_data) (trade_time_limit * 60) ;;
    database_write (DatabaseStoreSell sell_order_data stats)
      (fun d => store_sell Database d sell_order_data stats) ;;
    emit (Messenger (send_sell_email coin_pair (Quantity sell_order_data)
                       price (ss_rsi stats) (ss_profitMargin stats))) ;;
    emit (Messenger (print_sell coin_pair price (ss_rsi stats)
                       (ss_profitMargin stats))) ;;
    emit (Messenger play_sw_theme).

(** The default of the [trade_time_limit] parameter of [buy] and [sell],
    in minutes; no call site overrides it. *)
Definition default_trade_time_limit : Z := 2.

Definition buy_strategy (coin_pair : string) : M db unit :=
  pairs <- tracked ;;
  if existsb (String.eqb coin_pair) pairs then ret tt
  else
    rsi <- calculate_RSI coin_pair 14 (tickerInterval params) ;;
    day_volume <- get_current_24hr_volume coin_pair ;;
    current_buy_price <- get_current_price coin_pair "ask" ;;
    go <- lift (check_buy_parameters params rsi day_volume
                  current_buy_price) ;;
    if go then
      buy coin_pair (buy_btcAmount params) current_buy_price
        (BuyStats rsi day_volume) default_trade_time_limit
    else
      match rsi with
      | Some r =>
          if F64.leb r (F64.of_int 50)
          then emit (Messenger (print_no_buy coin_pair r day_volume
                                  current_buy_price))
          else ret tt
      | None => ret tt
      end.

Definition sell_strategy (coin_pair : string) : M db unit :=
  pairs <- tracked ;;
  if negb (existsb (String.eqb coin_pair) pairs) then ret tt
  else
    rsi <- calculate_RSI coin_pair 14 (tickerInterval params) ;;
    current_sell_price <- get_current_price coin_pair "bid" ;;
    profit_margin <-
      database_read (DatabaseGetProfitMargin coin_pair current_sell_price)
        (fun d => get_profit_margin Database d coin_pair current_sell_price) ;;
    if check_sell_parameters params rsi profit_margin then
      sell coin_pair current_sell_price (SellStats rsi profit_margin)
        default_trade_time_limit
    else
      match rsi with
      | Some r => emit (Messenger (print_no_sell coin_pair r profit_margin
                                     current_sell_price))
      | None => ret tt
      end.

(** [for x in xs: body(x)] over a list nobody changes meanwhile. *)
Fixpoint for_each (xs : list string) (body : string -> M db unit)
    : M db unit :=
  match xs with
  | [] => ret tt
  | x :: xs' => body x ;; for_each xs' body
  end.

Definition analyse_buys : M db unit :=
  pairs <- tracked ;;
  if (List.length pairs <? 1)%nat then for_each btc_coin_pairs buy_strategy
  else ret tt.

(** [for coin_pair in Database.trades["trackedCoinPairs"]]: the list
    iterator rereads the live list at position [i] on every turn. *)
Fixpoint analyse_sells_from (n i : nat) : M db unit :=
  pairs <- tracked ;;
  match nth_error pairs i with
  | None => ret tt
  | Some coin_pair =>
      match n with
      | O => lift OutOfFuel
      | S n' => sell_strategy coin_pair ;; analyse_sells_from n' (S i)
      end
  end.

Definition analyse_sells : M db unit := analyse_sells_from fuel 0.

(** The body of the [try] of the main loop. *)
Definition cycle : M db unit :=
  analyse_buys ;; analyse_sells ;; time_sleep 10.

(** An [except] clause: the class caught, the label printed, and whether
    the clause ends with [exit()]. *)
Record except_clause : Type := Except {
  ex_class : py_class;
  ex_label : string;
  ex_exits : bool
}.

(** The clauses of the main loop, in source order. *)
Definition except_clauses : list except_clause :=
  [ Except ConnectionError "connection" false;
    Except JSONDecodeError "JSONDecode" false;
    Except TypeError "typeError" false;
    Except KeyError "keyError" true;
    Except ValueError "valueError" true;
    Except Exception "unknown" true ].

(** How an iteration of [while True] ends. *)
Inductive loop_status : Type :=
| NextCycle
| ProcessExit
| Uncaught (e : py_class)
| FuelExhausted.

(** The first clause whose class the exception is an instance of handles
    it; an exception no clause matches leaves the loop unhandled. *)
Definition handle (e : py_class) : world db -> loop_status * world db :=
  fun w =>
    match find (fun c => issubclass e (ex_class c)) except_clauses with
    | Some c =>
        let w' := World (now w)
                    (trace w ++ [Messenger (print_exception_error (ex_label c));
                                 LoggerException
                                   (if py_class_eqb (ex_class c) Exception
                                    then Exception else e)])
                    (database w) in
        (if ex_exits c then ProcessExit else NextCycle, w')
    | None => (Uncaught e, w)
    end.

Definition main_loop_iteration : world db -> loop_status * world db :=
  fun w =>
    match cycle w with
    | (Ok _, w') => (NextCycle, w')
    | (Raise e, w') => handle e w'
    | (OutOfFuel, w') => (FuelExhausted, w')
    end.

End Bot.

(** ** The vocabulary of the statements *)

(** The classes whose [except] clause does not call [exit()]. *)
Definition recoverable (e : py_class) : bool :=
  issubclass e ConnectionError || issubclass e JSONDecodeError
  || issubclass e TypeError.

(** The world once a handler has printed and logged. *)
Definition reported {db : Type} (w : world db) (label : string)
    (what : py_class) : world db :=
  World (now w)
    (trace w ++ [Messenger (print_exception_error label);
                 LoggerException what])
    (database w).

(** [n] invocations of [m] in a row. *)
Fixpoint repeatedly {db : Type} (n : nat) (m : M db unit) : M db unit :=
  match n with
  | O => ret tt
  | S n' => bind m (fun _ => repeatedly n' m)
  end.

(** The buy requests sent for a market, the cancel requests, and the
    calls of the polling loop on an order. *)
Definition is_buy_order (coin_pair : string) (e : event) : bool :=
  match e with
  | BittrexBuyLimit c _ _ => String.eqb c coin_pair
  | _ => false
  end.

Definition is_cancel (e : event) : bool :=
  match e with
  | BittrexCancel _ => true
  | _ => false
  end.

Definition is_poll_event (order_uuid : string) (e : event) : bool :=
  match e with
  | Sleep s => s =? 10
  | BittrexGetOrder u => String.eqb u order_uuid
  | _ => false
  end.

(** A delta that does not count as a loss. *)
Definition not_negative (c : float) : Prop :=
  F64.ltb c (F64.of_int 0) = false.

(** A series each close of which is above the one before. *)
Fixpoint strictly_increasing (closes : list float) : bool :=
  match closes with
  | a :: (b :: _) as rest => F64.ltb a b && strictly_increasing rest
  | _ => true
  end.

(** The floats that a binary64 word can hold: a finite one has its
    canonical mantissa and exponent. *)
Definition valid (x : float) : bool := valid_binary F64.prec F64.emax x.

(** Whether a shifted mantissa has lost a non-zero part. *)
Definition inexact (mrs : shr_record) : bool := shr_r mrs || shr_s mrs.

(** [+0.0], a positive finite float or [+inf]. *)
Definition nonneg (x : float) : Prop :=
  match x with
  | S754_zero false | S754_finite false _ _ | S754_infinity false => True
  | _ => False
  end.

(** [+0.0], or a positive finite float [m * 2^e] with [m * 2^e <= c],
    written without fractions; the exponent of such a float is not
    positive. *)
Definition within (c : Z) (x : float) : Prop :=
  match x with
  | S754_zero false => True
  | S754_finite false m e => e <= 0 /\ Zpos m <= c * 2 ^ (- e)
  | _ => False
  end.

(** [+inf], or a positive finite float [m * 2^e] with [1 <= m * 2^e],
    which needs a proof only when [e <= 0]. *)
Definition at_least_one (x : float) : Prop :=
  match x with
  | S754_infinity false => True
  | S754_finite false m e => e <= 0 -> 2 ^ (- e) <= Zpos m
  | _ => False
  end.

(** ** Concrete collaborators and inputs *)

(** An [OpenPosition] of the specification's data model (without the
    timestamp, which nothing here reads). *)
Record open_position : Type := OpenPosition {
  op_market : string;
  op_quantity : float;
  op_buyPrice : float
}.

Definition find_position (l : list open_position) (coin_pair : string)
    : result open_position :=
  match find (fun p => String.eqb (op_market p) coin_pair) l with
  | Some p => Ok p
  | None => Raise KeyError
  end.

(** Modelled from the spec: the ledger [src.database.Database], whose code
    is missing. It keeps one [OpenPosition] per market symbol, created
    when a buy order is settled and destroyed when the sell order is
    settled; the tracked coin pairs are the markets of the open positions
    and the profit margin is [(currentBidPrice - buyPrice) / buyPrice]. *)
Definition spec_ledger : database_class (list open_position) :=
  {| trackedCoinPairs := fun l => map op_market l;
     store_initial_buy := fun l _ _ => l;
     store_buy := fun l order _ =>
       l ++ [OpenPosition (Exchange order) (Quantity order)
               (PricePerUnit order)];
     store_sell := fun l order _ =>
       filter (fun p => negb (String.eqb (op_market p) (Exchange order))) l;
     get_open_trade_quantity := fun l coin_pair =>
       let? p := find_position l coin_pair in Ok (op_quantity p);
     get_profit_margin := fun l coin_pair price =>
       let? p := find_position l coin_pair in
       let? bid := number price in
       F64.truediv (F64.sub bid (op_buyPrice p)) (op_buyPrice p) |}.

(** A simulated exchange: every market has the same candles and summary,
    every order is placed or refused as [accepts] says and carries the
    market symbol as its identifier, a queried order is open as [open]
    says, and requests take no time. *)
Definition simulated_exchange (closes : list float)
    (summary : result market_summary) (accepts open : bool) : exchange :=
  {| bx_get_market_summary := fun _ _ => summary;
     bx_get_historical_data := fun _ _ _ _ => Ok closes;
     bx_buy_limit := fun _ coin_pair _ _ => Ok (Placement accepts coin_pair);
     bx_sell_limit := fun _ coin_pair _ _ => Ok (Placement accepts coin_pair);
     bx_get_order := fun _ order_uuid =>
       Ok (OrderResult open order_uuid (F64.of_int 1) (F64.of_int 1));
     bx_cancel := fun _ _ => Ok true;
     bx_request_time := fun _ => 0%N |}.

Definition good_summary : market_summary :=
  MarketSummary true (F64.of_int 1) (F64.of_int 1) (F64.of_int 1)
    (F64.of_int 1000).

Definition failed_summary : market_summary :=
  MarketSummary false (F64.of_int 0) (F64.of_int 0) (F64.of_int 0)
    (F64.of_int 0).

Definition empty_world : world (list open_position) := World 0 [] [].

(** The scenario of the specification's end-to-end test, with the
    thresholds it names. Its closes are small integers: every delta and
    every sum is exact, whether Python holds them as ints or as floats. *)
Definition scenario_closes : list float :=
  map F64.of_int [100;102;101;105;107;106;110;109;112;115;114;118;120;119;123].

Definition scenario_parameters : trade_parameters :=
  {| buy_btcAmount := F64.decimal 1 2;
     buy_rsiThreshold := F64.of_int 75;
     buy_24HourVolumeThreshold := F64.of_int 500;
     buy_minimumUnitPrice := F64.decimal 1 7;
     sell_rsiThreshold := F64.of_int 60;
     sell_profitMarginThreshold := F64.decimal 5 2;
     sell_minProfitMarginThreshold := F64.decimal 1 2;
     tickerInterval := "fiveMin" |}.

(** The exchange of the scenario: its closes, a volume of 1000 and an ask
    price of 0.001. *)
Definition scenario_exchange : exchange :=
  simulated_exchange scenario_closes
    (Ok (MarketSummary true (F64.decimal 1 3) (F64.decimal 1 3)
           (F64.decimal 1 3) (F64.of_int 1000)))
    true false.

(** [84.84848484848484], that is [0x1.5364d9364d936p+6]. *)
Definition scenario_rsi : float := S754_finite false 5970681324165430 (-46).

(** Fifteen closes falling by one: no gain, fourteen losses. *)
Definition falling_closes : list float :=
  map F64.of_int [15;14;13;12;11;10;9;8;7;6;5;4;3;2;1].

(** Two closes, the second below the first. *)
Definition two_closes : list float := map F64.of_int [2; 1].

(** Sixteen rising closes, and sixteen equal ones. *)
Definition rising_closes : list float :=
  map F64.of_int [1;2;3;4;5;6;7;8;9;10;11;12;13;14;15;16].

Definition constant_closes : list float := repeat (F64.of_int 7) 16.

(** Closes on which both averages overflow, and closes with a large gain
    and a small loss. *)
Definition overflowing_closes : list float :=
  map F64.of_int
    [0; 10^308; 0; 10^308; 0; 10^308; 0; 10^308; 0; 10^308; 0; 10^308; 0;
     10^308; 0].

Definition steep_closes : list float :=
  map F64.of_int
    [2; 1; 10^20; 10^20; 10^20; 10^20; 10^20; 10^20; 10^20; 10^20; 10^20;
     10^20; 10^20; 10^20; 10^20].

(** One market, falling closes (an RSI of 0, below the buy threshold) and
    a market summary that cannot be fetched: [day_volume] is [None] and
    the comparison in [check_buy_parameters] raises [TypeError]. *)
Definition summary_outage : exchange :=
  simulated_exchange falling_closes (Ok failed_summary) true false.

(** Two markets whose closes fall, with a volume and an ask price that
    pass, on an exchange that accepts every order and reports it closed at
    the first query. *)
Definition eager_exchange : exchange :=
  simulated_exchange falling_closes (Ok good_summary) true false.

Definition two_markets : list string := ["BTC-ETH"; "BTC-LTC"]%string.

(** An exchange that refuses every order, and one on which an order stays
    open for ever. *)
Definition refusing_exchange : exchange :=
  simulated_exchange falling_closes (Ok good_summary) false false.

Definition stalled_exchange : exchange :=
  simulated_exchange falling_closes (Ok good_summary) true true.

(** A ledger with one open position. *)
Definition one_position : world (list open_position) :=
  World 0 [] [OpenPosition "BTC-ETH" (F64.of_int 1) (F64.of_int 1)].

(** ** The vocabulary of the further properties *)

(** The place of a float in the order of [SFcompare]: the sign class,
    then exponent and mantissa, negated below zero. NaN has no place. *)
Definition rank (x : float) : Z * Z * Z :=
  match x with
  | S754_infinity true => (-2, 0, 0)
  | S754_finite true m e => (-1, - e, - Zpos m)
  | S754_zero _ | S754_nan => (0, 0, 0)
  | S754_finite false m e => (1, e, Zpos m)
  | S754_infinity false => (2, 0, 0)
  end.

Definition rank_lt (a b : Z * Z * Z) : Prop :=
  let '(a1, a2, a3) := a in
  let '(b1, b2, b3) := b in
  a1 < b1 \/ (a1 = b1 /\ (a2 < b2 \/ (a2 = b2 /\ a3 < b3))).

Definition ordered (x : float) : Prop := x <> S754_nan.

(** The calls that change the ledger. *)
Definition is_store (e : event) : bool :=
  match e with
  | DatabaseStoreInitialBuy _ _ | DatabaseStoreBuy _ _
  | DatabaseStoreSell _ _ => true
  | _ => false
  end.

(** [m] only adds calls that satisfy [P] to the record, never sets the
    clock back, and changes the ledger only if it makes a store call. *)
Definition keeps {db A : Type} (P : event -> bool) (m : M db A) : Prop :=
  forall w, exists evs,
    trace (snd (m w)) = trace w ++ evs /\
    forallb P evs = true /\
    now w <= now (snd (m w)) /\
    (existsb is_store evs = false -> database (snd (m w)) = database w).

(** The calls of the life of the order [order_uuid]: queries, sleeps, the
    time-out report and the cancel request. *)
Definition order_event (order_uuid : string) (e : event) : bool :=
  match e with
  | Sleep s => s =? 10
  | BittrexGetOrder u | BittrexCancel u => String.eqb u order_uuid
  | Messenger (print_order_error u _ _) => String.eqb u order_uuid
  | LoggerError (OrderError u _ _) => String.eqb u order_uuid
  | _ => false
  end.

(** The calls of the life of any order. *)
Definition any_order_event (e : event) : bool :=
  match e with
  | Sleep s => s =? 10
  | BittrexGetOrder _ | BittrexCancel _ => true
  | Messenger (print_order_error _ _ _) => true
  | LoggerError (OrderError _ _ _) => true
  | _ => false
  end.

(** The calls by which the market [coin_pair] is looked at. *)
Definition market_read (coin_pair : string) (e : event) : bool :=
  match e with
  | BittrexGetMarketSummary c | BittrexGetHistoricalData c _ _ =>
      String.eqb c coin_pair
  | LoggerError (FailedToFetchSummary c) => String.eqb c coin_pair
  | _ => false
  end.

(** The calls that belong to buying on the market [coin_pair]. *)
Definition buy_side (coin_pair : string) (e : event) : bool :=
  market_read coin_pair e || any_order_event e ||
  match e with
  | BittrexBuyLimit c _ _ | DatabaseStoreInitialBuy c _ => String.eqb c coin_pair
  | DatabaseStoreBuy _ _ => true
  | LoggerError (FailedToBuy c) => String.eqb c coin_pair
  | Messenger (send_buy_email c _ _ _ _) | Messenger (print_buy c _ _ _)
  | Messenger (print_no_buy c _ _ _) => String.eqb c coin_pair
  | Messenger play_sw_imperial_march => true
  | _ => false
  end.

(** The calls that belong to selling on the market [coin_pair]. *)
Definition sell_side (coin_pair : string) (e : event) : bool :=
  market_read coin_pair e || any_order_event e ||
  match e with
  | BittrexSellLimit c _ _ | DatabaseGetOpenTrade c
  | DatabaseGetProfitMargin c _ => String.eqb c coin_pair
  | DatabaseStoreSell _ _ => true
  | LoggerError (FailedToSell c) => String.eqb c coin_pair
  | Messenger (send_sell_email c _ _ _ _) | Messenger (print_sell c _ _ _)
  | Messenger (print_no_sell c _ _ _) => String.eqb c coin_pair
  | Messenger play_sw_theme => true
  | _ => false
  end.

(** The calls to the [Messenger]. *)
Definition is_notification (e : event) : bool :=
  match e with
  | Messenger _ => true
  | _ => false
  end.

(** The seconds slept in a record of calls. *)
Definition slept (evs : list event) : Z :=
  fold_right (fun e t => match e with Sleep s => s + t | _ => t end) 0 evs.

(** What [get_order] adds after its loop when the order is still open. *)
Definition cancellation (order_uuid : string) (trade_time_limit : Z)
    (o : order_result) : list event :=
  [Messenger (print_order_error order_uuid trade_time_limit (Exchange o));
   LoggerError (OrderError order_uuid trade_time_limit (Exchange o));
   BittrexCancel order_uuid].

(** The sell requests sent for a market. *)
Definition is_sell_order (coin_pair : string) (e : event) : bool :=
  match e with
  | BittrexSellLimit c _ _ => String.eqb c coin_pair
  | _ => false
  end.

(** As [keeps], with the ledger left alone until a call that satisfies [G]
    is made. *)
Definition keeps_until {db A : Type} (G P : event -> bool) (m : M db A)
    : Prop :=
  forall w, exists evs,
    trace (snd (m w)) = trace w ++ evs /\
    forallb P evs = true /\
    now w <= now (snd (m w)) /\
    (existsb G evs = false -> database (snd (m w)) = database w).

(** The calls among those of [P] that leave the ledger alone. *)
Definition reading (P : event -> bool) (e : event) : bool :=
  P e && negb (is_store e).

(** An exchange that accepts every order and then drops the connection on
    every query of an order. *)
Definition dropping_exchange : exchange :=
  {| bx_get_market_summary := fun _ _ => Ok good_summary;
     bx_get_historical_data := fun _ _ _ _ => Ok falling_closes;
     bx_buy_limit := fun _ coin_pair _ _ => Ok (Placement true coin_pair);
     bx_sell_limit := fun _ coin_pair _ _ => Ok (Placement true coin_pair);
     bx_get_order := fun _ _ => Raise ConnectionError;
     bx_cancel := fun _ _ => Ok true;
     bx_request_time := fun _ => 0%N |}.

(** [m] begins by making the call [e]. *)
Definition starts_with {db A : Type} (e : event) (m : M db A) : Prop :=
  forall w, exists evs, trace (snd (m w)) = trace w ++ e :: evs.

(** Wilder's smoothing as the textbooks have it: one update of the two
    averages per delta, the gain of a delta being the delta if it is
    positive and the loss its absolute value if it is negative. *)
Definition gain_of (delta : float) : float :=
  if F64.ltb (F64.of_int 0) delta then delta else F64.of_int 0.

Definition loss_of (delta : float) : float :=
  if F64.ltb delta (F64.of_int 0) then F64.abs delta else F64.of_int 0.

Definition wilder (s : smoothing) (delta : float) : smoothing :=
  Smoothing (S (sm_count s))
    (F64.div (F64.add (F64.mul (new_avg_gain s) (F64.of_int 13)) (gain_of delta))
       (F64.of_int 14))
    (F64.div (F64.add (F64.mul (new_avg_loss s) (F64.of_int 13)) (loss_of delta))
       (F64.of_int 14)).

(** A series none of whose deltas is positive. *)
Definition no_gain (closes : list float) : bool :=
  forallb (fun delta => negb (F64.ltb (F64.of_int 0) delta)) (deltas closes).

(** ** The start of the program *)

(** A market of the answer of [Bittrex.get_markets()]; only its name is
    read. *)
Record market : Type := Market {
  MarketName : string
}.

Record markets_answer : Type := MarketsAnswer {
  mk_success : bool;
  mk_result : list market
}.

(** Python's [sub in s] on strings. *)
Fixpoint contains (sub s : string) : bool :=
  String.prefix sub s ||
  match s with
  | EmptyString => false
  | String _ s' => contains sub s'
  end.

(** The calls made on the logger and the notifier before the main loop. *)
Inductive startup_call : Type :=
| LoggerErrorFailedToFetchMarkets
| MessengerPrintHeader (num_of_coin_pairs : nat)
| MessengerPrintExceptionError (label : string)
| LoggerExceptionOf (e : py_class).

(** [get_markets] on the answer of [Bittrex.get_markets()]; [exit()]
    raises [SystemExit]. *)
Definition get_markets (answer : result markets_answer)
    (main_market_filter : option string)
    : list startup_call * result (list string) :=
  match answer with
  | Ok markets =>
      if negb (mk_success markets) then
        ([LoggerErrorFailedToFetchMarkets], Raise SystemExit)
      else
        let markets := mk_result markets in
        let markets :=
          match main_market_filter with
          | Some main_market =>
              let market_check := (main_market ++ "-")%string in
              filter (fun market => contains market_check (MarketName market))
                markets
          | None => markets
          end in
        ([], Ok (map MarketName markets))
  | Raise e => ([], Raise e)
  | OutOfFuel => ([], OutOfFuel)
  end.

(** The [try] before the main loop: it yields [btc_coin_pairs]. *)
Definition startup (answer : result markets_answer)
    : list startup_call * result (list string) :=
  match get_markets answer (Some "BTC"%string) with
  | (calls, Ok btc_coin_pairs) =>
      (calls ++ [MessengerPrintHeader (List.length btc_coin_pairs)],
       Ok btc_coin_pairs)
  | (calls, Raise e) =>
      if issubclass e ConnectionError then
        (calls ++ [MessengerPrintExceptionError "connection";
                   LoggerExceptionOf e],
         Raise SystemExit)
      else (calls, Raise e)
  | (calls, OutOfFuel) => (calls, OutOfFuel)
  end.

(** Four markets, two of which are not traded against BTC. *)
Definition four_markets : markets_answer :=
  MarketsAnswer true
    [Market "BTC-ETH"; Market "USDT-BTC"; Market "WBTC-ETH"; Market "ETH-LTC"].

(** Every buy order among the calls is for a market of [btc_coin_pairs]. *)
Definition in_markets (btc_coin_pairs : list string) (e : event) : bool :=
  match e with
  | BittrexBuyLimit c _ _ => existsb (String.eqb c) btc_coin_pairs
  | _ => true
  end.

(** ** Properties *)

(** *** The float literals and the scenario *)

Lemma decimal_0_001 :
  F64.decimal 1 3 = S754_finite false 4611686018427388 (-62).
Proof. vm_compute. reflexivity. Qed.

Lemma decimal_1e_7 :
  F64.decimal 1 7 = S754_finite false 7555786372591432 (-76).
Proof. vm_compute. reflexivity. Qed.

Lemma scenario_rsi_value : calculate_RSI_on scenario_closes = Ok (Some scenario_rsi).
Proof. vm_compute. reflexivity. Qed.

(** C1, as stated, fails: the scenario's RSI lies in (0, 100) but
    [check_buy_parameters] with [buyRsiMax = 75], volume [1000] against
    [500] and ask price [0.001] against [0.0000001] does not answer
    [True]. *)
Lemma scenario_should_buy_not_true :
  ~ (exists r,
        calculate_RSI_on scenario_closes = Ok (Some r) /\
        F64.ltb (F64.of_int 0) r = true /\
        F64.ltb r (F64.of_int 100) = true /\
        check_buy_parameters scenario_parameters (Some r)
          (Some (F64.of_int 1000)) (Some (F64.decimal 1 3)) = Ok true).
Proof.
  intros [r [Hr [_ [_ Hbuy]]]].
  rewrite scenario_rsi_value in Hr.
  injection Hr as <-.
  vm_compute in Hbuy. discriminate Hbuy.
Qed.

(** C1, amended: on the fifteen closes of the scenario the RSI is the
    float 84.84848484848484, strictly between 0 and 100 and above
    [buyRsiMax = 75], so [check_buy_parameters] answers [False] for volume
    1000 and ask price 0.001, whatever the other thresholds are. *)
Theorem scenario_rsi_above_buy_threshold :
  forall p : trade_parameters,
    buy_rsiThreshold p = F64.of_int 75 ->
    calculate_RSI_on scenario_closes = Ok (Some scenario_rsi) /\
    F64.ltb (F64.of_int 0) scenario_rsi = true /\
    F64.ltb scenario_rsi (F64.of_int 100) = true /\
    F64.ltb (F64.of_int 75) scenario_rsi = true /\
    check_buy_parameters p (Some scenario_rsi)
      (Some (F64.of_int 1000)) (Some (F64.decimal 1 3)) = Ok false.
Proof.
  intros p Hrsi.
  split; [exact scenario_rsi_value|].
  split; [vm_compute; reflexivity|].
  split; [vm_compute; reflexivity|].
  split; [vm_compute; reflexivity|].
  unfold check_buy_parameters. rewrite Hrsi.
  vm_compute. reflexivity.
Qed.

Lemma scenario_rsi_above_buy_threshold_witness :
  buy_rsiThreshold scenario_parameters = F64.of_int 75 /\
  check_buy_parameters scenario_parameters (Some scenario_rsi)
    (Some (F64.of_int 1000)) (Some (F64.decimal 1 3)) = Ok false.
Proof.
  split; [reflexivity|].
  apply (scenario_rsi_above_buy_threshold scenario_parameters eq_refl).
Defined.

(** Only the RSI stands in the way: a threshold of 85 lets the same
    inputs pass. *)
Lemma scenario_passes_at_85 :
  check_buy_parameters
    (TradeParameters (F64.decimal 1 2) (F64.of_int 85) (F64.of_int 500)
       (F64.decimal 1 7) (F64.of_int 60) (F64.decimal 5 2) (F64.decimal 1 2)
       "fiveMin")
    (Some scenario_rsi) (Some (F64.of_int 1000)) (Some (F64.decimal 1 3))
  = Ok true.
Proof. vm_compute. reflexivity. Qed.

(** On the exchange of the scenario [buy_strategy] fetches the candles and
    the summary twice, sends no order and opens no position. *)
Lemma scenario_opens_no_position :
  buy_strategy spec_ledger scenario_exchange scenario_parameters 1 "BTC-ETH"
    empty_world
  = (Ok tt,
     World 0 [BittrexGetHistoricalData "BTC-ETH" 42 "fiveMin";
              BittrexGetMarketSummary "BTC-ETH";
              BittrexGetMarketSummary "BTC-ETH"] []).
Proof. vm_compute. reflexivity. Qed.

(** *** SignalPolicy *)

Lemma compare_cont_refl (m : positive) : Pos.compare_cont Eq m m = Eq.
Proof. induction m; simpl; auto. Qed.

Lemma ltb_irrefl (x : float) : F64.ltb x x = false.
Proof.
  unfold F64.ltb, SFltb.
  destruct x as [s | s | | s m e]; simpl; try reflexivity.
  - destruct s; reflexivity.
  - destruct s; rewrite Z.compare_refl, compare_cont_refl; reflexivity.
Qed.

(** C3: [check_sell_parameters] answers [True] exactly when the RSI is
    present, at least [sellRsiMin], with a profit margin above
    [sellMinProfitMarginMin], or when the profit margin is above
    [sellProfitMarginMin]; without an RSI, a margin equal to
    [sellProfitMarginMin] gives [False] and every greater one [True]. *)
Theorem check_sell_parameters_iff :
  forall (p : trade_parameters) (rsi : option float) (profit_margin : float),
    (check_sell_parameters p rsi profit_margin = true <->
       (exists r, rsi = Some r /\
                  F64.leb (sell_rsiThreshold p) r = true /\
                  F64.ltb (sell_minProfitMarginThreshold p) profit_margin = true)
       \/ F64.ltb (sell_profitMarginThreshold p) profit_margin = true)
    /\ check_sell_parameters p None (sell_profitMarginThreshold p) = false
    /\ (forall margin,
          F64.ltb (sell_profitMarginThreshold p) margin = true ->
          check_sell_parameters p None margin = true).
Proof.
  intros p rsi profit_margin. split; [|split].
  - unfold check_sell_parameters. rewrite orb_true_iff. split.
    + intros [H | H]; [left | right; exact H].
      destruct rsi as [r|]; [|discriminate H].
      apply andb_true_iff in H. exists r. tauto.
    + intros [[r [-> [H1 H2]]] | H]; [left | right; exact H].
      rewrite H1, H2. reflexivity.
  - unfold check_sell_parameters. simpl. apply ltb_irrefl.
  - intros margin H. unfold check_sell_parameters. simpl. exact H.
Qed.

Lemma check_sell_parameters_iff_witness :
  F64.ltb (sell_profitMarginThreshold scenario_parameters) (F64.of_int 1) = true /\
  check_sell_parameters scenario_parameters None (F64.of_int 1) = true.
Proof.
  assert (H : F64.ltb (sell_profitMarginThreshold scenario_parameters)
                (F64.of_int 1) = true) by reflexivity.
  split; [exact H|].
  exact (proj2 (proj2 (check_sell_parameters_iff scenario_parameters None
                         (F64.of_int 1))) (F64.of_int 1) H).
Defined.

(** *** MainLoop: the [except] clauses *)

Section MainLoop.

Context {db : Type}.
Variable Database : database_class db.
Variable Bittrex : exchange.
Variable params : trade_parameters.
Variable btc_coin_pairs : list string.
Variable fuel : nat.

Lemma handle_classification (e : py_class) (w : world db) :
  if recoverable e then
    exists label, handle e w = (NextCycle, reported w label e)
  else if issubclass e Exception then
    exists label what, handle e w = (ProcessExit, reported w label what)
  else handle e w = (Uncaught e, w).
Proof.
  destruct e; cbn;
    try reflexivity;
    try (eexists; reflexivity);
    try (eexists; eexists; reflexivity).
Qed.

(** C2, amended: when the cycle raises, a [ConnectionError], a
    [JSONDecodeError] or a [TypeError] (or a subclass) is printed and
    logged and the loop goes on to the next cycle; a [KeyError], any
    other [ValueError] and every other [Exception] is printed and logged
    and the process exits; what is no [Exception] is not handled. *)
Theorem main_loop_error_classification :
  forall (w w1 : world db) (e : py_class),
    cycle Database Bittrex params btc_coin_pairs fuel w = (Raise e, w1) ->
    let run := main_loop_iteration Database Bittrex params btc_coin_pairs
                 fuel w in
    if recoverable e then
      exists label, run = (NextCycle, reported w1 label e)
    else if issubclass e Exception then
      exists label what, run = (ProcessExit, reported w1 label what)
    else run = (Uncaught e, w1).
Proof.
  intros w w1 e Hcycle run. subst run.
  unfold main_loop_iteration. rewrite Hcycle.
  apply handle_classification.
Qed.

End MainLoop.

(** The classes the claim names fall on either side: [TypeError] with the
    recoverable ones. *)
Lemma named_classes :
  recoverable ConnectionError = true /\ recoverable JSONDecodeError = true /\
  recoverable TypeError = true /\
  recoverable KeyError = false /\ issubclass KeyError Exception = true /\
  recoverable ValueError = false /\ issubclass ValueError Exception = true /\
  recoverable ZeroDivisionError = false /\
  issubclass ZeroDivisionError Exception = true.
Proof. repeat split. Qed.

(** C2, as stated, fails: a cycle that raises [TypeError] is followed by
    the next cycle; the process does not exit. *)
Lemma type_error_does_not_terminate :
  fst (cycle spec_ledger summary_outage scenario_parameters ["BTC-ETH"%string]
         1 empty_world) = Raise TypeError /\
  fst (main_loop_iteration spec_ledger summary_outage scenario_parameters
         ["BTC-ETH"%string] 1 empty_world) = NextCycle /\
  fst (main_loop_iteration spec_ledger summary_outage scenario_parameters
         ["BTC-ETH"%string] 1 empty_world) <> ProcessExit.
Proof.
  split; [vm_compute; reflexivity|].
  split; [vm_compute; reflexivity|].
  vm_compute. discriminate.
Qed.

Lemma main_loop_error_classification_witness :
  exists label w1,
    main_loop_iteration spec_ledger summary_outage scenario_parameters
      ["BTC-ETH"%string] 1 empty_world
    = (NextCycle, reported w1 label TypeError).
Proof.
  pose (w1 := snd (cycle spec_ledger summary_outage scenario_parameters
                     ["BTC-ETH"%string] 1 empty_world)).
  assert (H : cycle spec_ledger summary_outage scenario_parameters
                ["BTC-ETH"%string] 1 empty_world = (Raise TypeError, w1))
    by (vm_compute; reflexivity).
  destruct (main_loop_error_classification spec_ledger summary_outage
              scenario_parameters ["BTC-ETH"%string] 1 empty_world w1
              TypeError H) as [label Hrun].
  exists label, w1. exact Hrun.
Defined.

(** *** TradeCoordinator *)

Section Coordinator.

Context {db : Type}.
Variable Database : database_class db.
Variable Bittrex : exchange.
Variable params : trade_parameters.
Variable btc_coin_pairs : list string.
Variable fuel : nat.

Lemma tracked_membership (coin_pair : string) (pairs : list string) :
  In coin_pair pairs -> existsb (String.eqb coin_pair) pairs = true.
Proof.
  intro H. apply existsb_exists. exists coin_pair.
  split; [exact H | apply String.eqb_refl].
Qed.

Lemma buy_strategy_tracked (coin_pair : string) (w : world db) :
  In coin_pair (trackedCoinPairs Database (database w)) ->
  buy_strategy Database Bittrex params fuel coin_pair w = (Ok tt, w).
Proof.
  intro H. unfold buy_strategy, bind, tracked.
  rewrite (tracked_membership _ _ H). reflexivity.
Qed.

(** C8: for a market whose coin pair is tracked in the ledger,
    [buy_strategy] returns at once, leaving the clock, the ledger and the
    record of calls as they were, however often it is invoked: no buy
    order is sent for that market. *)
Theorem no_second_buy_while_tracked :
  forall (coin_pair : string) (w : world db) (n : nat),
    In coin_pair (trackedCoinPairs Database (database w)) ->
    buy_strategy Database Bittrex params fuel coin_pair w = (Ok tt, w) /\
    repeatedly n (buy_strategy Database Bittrex params fuel coin_pair) w
      = (Ok tt, w) /\
    filter (is_buy_order coin_pair)
      (trace (snd (repeatedly n
                     (buy_strategy Database Bittrex params fuel coin_pair) w)))
      = filter (is_buy_order coin_pair) (trace w).
Proof.
  intros coin_pair w n H.
  assert (Hn : repeatedly n
                 (buy_strategy Database Bittrex params fuel coin_pair) w
               = (Ok tt, w)).
  { induction n as [|n IH]; [reflexivity|].
    simpl. unfold bind at 1. rewrite (buy_strategy_tracked _ _ H). exact IH. }
  split; [apply buy_strategy_tracked; exact H|].
  split; [exact Hn|]. rewrite Hn. reflexivity.
Qed.

(** C9: when the exchange answers a placement with [success = false],
    [buy] sends that one request and logs the error, [sell] reads the open
    trade, sends that one request and logs the error; nothing else is
    called (no ledger write, no order query, no cancel, no notification)
    and the ledger is unchanged. *)
Theorem placement_failure_stops :
  forall (coin_pair : string) (w : world db),
    (forall (btc_quantity p quantity : float) (stats : buy_stats)
            (limit : Z) (answer : placement),
        F64.truediv btc_quantity p = Ok quantity ->
        bx_buy_limit Bittrex (trace w) coin_pair quantity p = Ok answer ->
        pl_success answer = false ->
        exists w',
          buy Database Bittrex fuel coin_pair btc_quantity (Some p) stats limit w
            = (Ok tt, w') /\
          trace w' = trace w ++ [BittrexBuyLimit coin_pair quantity p;
                                 LoggerError (FailedToBuy coin_pair)] /\
          database w' = database w)
    /\
    (forall (price : option float) (quantity : float) (stats : sell_stats)
            (limit : Z) (answer : placement),
        get_open_trade_quantity Database (database w) coin_pair = Ok quantity ->
        bx_sell_limit Bittrex (trace w ++ [DatabaseGetOpenTrade coin_pair])
          coin_pair quantity price = Ok answer ->
        pl_success answer = false ->
        exists w',
          sell Database Bittrex fuel coin_pair price stats limit w = (Ok tt, w') /\
          trace w' = trace w ++ [DatabaseGetOpenTrade coin_pair;
                                 BittrexSellLimit coin_pair quantity price;
                                 LoggerError (FailedToSell coin_pair)] /\
          database w' = database w).
Proof.
  intros coin_pair w. split.
  - intros btc_quantity p quantity stats limit answer Hdiv Hanswer Hfail.
    eexists. unfold buy, bind, lift, request, emit. simpl.
    rewrite Hdiv, Hanswer, Hfail. simpl.
    split; [reflexivity|]. split; [|reflexivity].
    rewrite <- app_assoc. reflexivity.
  - intros price quantity stats limit answer Hqty Hanswer Hfail.
    eexists. unfold sell, bind, database_read, request, emit. simpl.
    rewrite Hqty, Hanswer, Hfail. simpl.
    split; [reflexivity|]. split; [|reflexivity].
    rewrite <- !app_assoc. reflexivity.
Qed.

(** C10, amended: [analyse_buys] looks at the ledger once, before its
    loop. If a coin pair is tracked then, it does nothing; if none is, it
    invokes [buy_strategy] for every market of [btc_coin_pairs] in turn
    without looking at the size of the ledger again, so that only the
    per-market test of [buy_strategy] guards the later markets. *)
Theorem analyse_buys_gate :
  forall w : world db,
    (trackedCoinPairs Database (database w) <> [] ->
     analyse_buys Database Bittrex params btc_coin_pairs fuel w = (Ok tt, w))
    /\
    (trackedCoinPairs Database (database w) = [] ->
     analyse_buys Database Bittrex params btc_coin_pairs fuel w
       = for_each btc_coin_pairs
           (buy_strategy Database Bittrex params fuel) w)
    /\
    (trace (snd (analyse_buys Database Bittrex params btc_coin_pairs fuel w))
       <> trace w ->
     trackedCoinPairs Database (database w) = []).
Proof.
  intro w. unfold analyse_buys, bind, tracked.
  destruct (trackedCoinPairs Database (database w)) as [|c pairs] eqn:E.
  - split; [intro H; contradiction H; reflexivity|].
    split; [reflexivity|]. reflexivity.
  - split; [reflexivity|].
    split; [intro H; discriminate H|].
    simpl. intro H. contradiction H. reflexivity.
Qed.

End Coordinator.

(** C10, as stated, fails: one [analyse_buys] from an empty ledger sends a
    buy order for the second market while the position of the first is
    open, and leaves two open positions. *)
Lemma two_positions_in_one_cycle :
  let w := snd (analyse_buys spec_ledger eager_exchange scenario_parameters
                  two_markets 1 empty_world) in
  trackedCoinPairs spec_ledger (database w) = two_markets /\
  ~ (List.length (trackedCoinPairs spec_ledger (database w)) <= 1)%nat /\
  List.length (filter (is_buy_order "BTC-ETH") (trace w)) = 1%nat /\
  List.length (filter (is_buy_order "BTC-LTC") (trace w)) = 1%nat.
Proof.
  split; [vm_compute; reflexivity|].
  split; [vm_compute; lia|].
  split; vm_compute; reflexivity.
Qed.

Lemma no_second_buy_while_tracked_witness :
  In "BTC-ETH"%string (trackedCoinPairs spec_ledger (database one_position)) /\
  repeatedly 3
    (buy_strategy spec_ledger eager_exchange scenario_parameters 1 "BTC-ETH")
    one_position
  = (Ok tt, one_position).
Proof.
  assert (H : In "BTC-ETH"%string
                (trackedCoinPairs spec_ledger (database one_position)))
    by (simpl; left; reflexivity).
  split; [exact H|].
  exact (proj1 (proj2 (no_second_buy_while_tracked spec_ledger eager_exchange
                         scenario_parameters 1 "BTC-ETH" one_position 3 H))).
Defined.

Lemma placement_failure_stops_witness :
  exists w',
    buy spec_ledger refusing_exchange 1 "BTC-ETH" (F64.of_int 1)
      (Some (F64.of_int 1)) (BuyStats None None) 2 empty_world = (Ok tt, w') /\
    trace w' = trace empty_world ++
               [BittrexBuyLimit "BTC-ETH" (F64.of_int 1) (F64.of_int 1);
                LoggerError (FailedToBuy "BTC-ETH")] /\
    database w' = database empty_world.
Proof.
  apply (proj1 (placement_failure_stops spec_ledger refusing_exchange 1
                  "BTC-ETH" empty_world)
           (F64.of_int 1) (F64.of_int 1) (F64.of_int 1) (BuyStats None None) 2
           (Placement false "BTC-ETH")); reflexivity.
Defined.

Lemma analyse_buys_gate_witness :
  trackedCoinPairs spec_ledger (database one_position) <> [] /\
  analyse_buys spec_ledger eager_exchange scenario_parameters two_markets 1
    one_position = (Ok tt, one_position).
Proof.
  assert (H : trackedCoinPairs spec_ledger (database one_position) <> [])
    by (simpl; discriminate).
  split; [exact H|].
  exact (proj1 (analyse_buys_gate spec_ledger eager_exchange
                  scenario_parameters two_markets 1 one_position) H).
Defined.

(** *** OrderLifecycleManager *)

Section OrderLifecycle.

Context {db : Type}.
Variable Database : database_class db.
Variable Bittrex : exchange.
Variable fuel : nat.

Variable order_uuid : string.
Variable trade_time_limit : Z.

(** A bound on the time a request takes; the simulated exchange of the
    specification answers at once, [d = 0]. *)
Variable d : Z.
Hypothesis request_time_bound :
  forall h, Z.of_N (bx_request_time Bittrex h) <= d.

Hypothesis open_forever :
  forall h, exists o, bx_get_order Bittrex h order_uuid = Ok o /\ IsOpen o = true.

Lemma poll_events_no_cancel (evs : list event) :
  forallb (is_poll_event order_uuid) evs = true ->
  filter is_cancel evs = [].
Proof.
  induction evs as [|e evs IH]; [reflexivity|].
  simpl. intro H. apply andb_true_iff in H. destruct H as [He Hevs].
  destruct e; simpl in *; try discriminate He; auto.
Qed.

(** The loop, entered with an open order, leaves it open, ends once the
    limit has passed and at most one sleep and one request later, and
    only sleeps and queries meanwhile. *)
Lemma poll_times_out (start_time : Z) :
  forall (n : nat) (o : order_result) (w : world db),
    IsOpen o = true ->
    start_time + trade_time_limit - now w < 10 * Z.of_nat n ->
    now w <= start_time + trade_time_limit + 10 + d ->
    (exists h, trace w = h ++ [BittrexGetOrder order_uuid] /\
               bx_get_order Bittrex h order_uuid = Ok o) ->
    exists o' w' evs h,
      poll (db := db) Bittrex n order_uuid start_time trade_time_limit o w
        = (Ok o', w') /\
      IsOpen o' = true /\
      trade_time_limit < now w' - start_time /\
      now w' <= start_time + trade_time_limit + 10 + d /\
      database w' = database w /\
      trace w' = trace w ++ evs /\
      forallb (is_poll_event order_uuid) evs = true /\
      trace w' = h ++ [BittrexGetOrder order_uuid] /\
      bx_get_order Bittrex h order_uuid = Ok o'.
Proof.
  induction n as [|n IH]; intros o w Hopen Hfuel Hnow [h [Hh Ho]].
  - exists o, w, [], h. simpl. unfold bind, time_time, ret.
    destruct (now w - start_time <=? trade_time_limit) eqn:E.
    + apply Z.leb_le in E. simpl in Hfuel. lia.
    + apply Z.leb_gt in E. simpl. rewrite app_nil_r.
      repeat split; auto; lia.
  - simpl. unfold bind at 1. unfold time_time at 1.
    destruct (now w - start_time <=? trade_time_limit) eqn:E.
    + apply Z.leb_le in E. rewrite Hopen. simpl.
      unfold bind at 1. unfold time_sleep at 1.
      unfold bind at 1. unfold request at 1. simpl.
      destruct (open_forever (trace w ++ [Sleep 10])) as [o2 [Ho2 Hopen2]].
      rewrite Ho2.
      pose proof (request_time_bound (trace w ++ [Sleep 10])) as Hd.
      pose proof (N2Z.is_nonneg (bx_request_time Bittrex (trace w ++ [Sleep 10])))
        as Hpos.
      set (w2 := World (now w + 10
                        + Z.of_N (bx_request_time Bittrex (trace w ++ [Sleep 10])))
                   ((trace w ++ [Sleep 10]) ++ [BittrexGetOrder order_uuid])
                   (database w)).
      destruct (IH o2 w2 Hopen2) as [o' [w' [evs [h' H]]]].
      * subst w2. cbn [now]. lia.
      * subst w2. cbn [now]. lia.
      * exists (trace w ++ [Sleep 10]). subst w2. simpl. auto.
      * destruct H as [Hrun [Hopen' [Hlate [Hsoon [Hdb [Htr [Hevs [Hlast Hans]]]]]]]].
        exists o', w', ([Sleep 10; BittrexGetOrder order_uuid] ++ evs), h'.
        repeat split; auto.
        -- rewrite Htr. subst w2. simpl. rewrite <- !app_assoc. reflexivity.
        -- simpl. rewrite String.eqb_refl. exact Hevs.
    + apply Z.leb_gt in E. simpl. unfold ret.
      exists o, w, [], h. rewrite app_nil_r.
      repeat split; auto; lia.
Qed.

End OrderLifecycle.

Section GetOrder.

Context {db : Type}.
Variable Bittrex : exchange.
Variable fuel : nat.

(** An order that stays open: when a request takes at most [d] seconds,
    [get_order] leaves its loop after the limit and at most [10 + d]
    seconds later, cancels once and returns the last answer. *)
Lemma get_order_times_out (order_uuid : string) (trade_time_limit d : Z)
    (w : world db) :
  0 <= trade_time_limit ->
  trade_time_limit < 10 * Z.of_nat fuel ->
  (forall h, Z.of_N (bx_request_time Bittrex h) <= d) ->
  (forall h, exists o,
      bx_get_order Bittrex h order_uuid = Ok o /\ IsOpen o = true) ->
  (forall h, exists ack, bx_cancel Bittrex h order_uuid = Ok ack) ->
  exists o w1 w' h evs,
    await_order Bittrex fuel order_uuid trade_time_limit w = (Ok o, w1) /\
    trade_time_limit < now w1 - now w /\
    now w1 - now w <= trade_time_limit + 10 + d /\
    trace w1 = h ++ [BittrexGetOrder order_uuid] /\
    bx_get_order Bittrex h order_uuid = Ok o /\
    IsOpen o = true /\
    get_order Bittrex fuel order_uuid trade_time_limit w = (Ok o, w') /\
    trace w' = trace w ++ evs /\
    filter is_cancel evs = [BittrexCancel order_uuid] /\
    database w' = database w.
Proof.
  intros Hlimit Hfuel Htime Hopen Hcancel.
  destruct (Hopen (trace w)) as [o0 [Ho0 Hopen0]].
  pose proof (Htime (trace w)) as Hd.
  pose proof (N2Z.is_nonneg (bx_request_time Bittrex (trace w))) as Hpos.
  set (w0 := World (now w + Z.of_N (bx_request_time Bittrex (trace w)))
               (trace w ++ [BittrexGetOrder order_uuid]) (database w)).
  destruct (poll_times_out Bittrex order_uuid trade_time_limit d Htime Hopen
              (now w) fuel o0 w0 Hopen0)
    as [o [w1 [evs [h H]]]].
  - subst w0. cbn [now]. lia.
  - subst w0. cbn [now]. lia.
  - exists (trace w). subst w0. cbn [trace]. auto.
  - destruct H as [Hrun [Hopen' [Hlate [Hsoon [Hdb [Htr [Hevs [Hlast Hans]]]]]]]].
    assert (Hawait : await_order Bittrex fuel order_uuid trade_time_limit w
                     = (Ok o, w1)).
    { unfold await_order, bind, time_time, request. rewrite Ho0.
      fold w0. exact Hrun. }
    destruct (Hcancel (trace w1 ++
                [Messenger (print_order_error order_uuid trade_time_limit
                              (Exchange o));
                 LoggerError (OrderError order_uuid trade_time_limit
                                (Exchange o))])) as [ack Hack].
    eexists o, w1, _, h,
      ([BittrexGetOrder order_uuid] ++ evs ++
       [Messenger (print_order_error order_uuid trade_time_limit (Exchange o));
        LoggerError (OrderError order_uuid trade_time_limit (Exchange o));
        BittrexCancel order_uuid]).
    split; [exact Hawait|].
    split; [lia|]. split; [lia|].
    split; [exact Hlast|]. split; [exact Hans|]. split; [exact Hopen'|].
    split.
    { unfold get_order, bind. rewrite Hawait, Hopen'.
      unfold emit, request, ret. cbn [now trace database].
      rewrite <- !app_assoc. cbn [app]. rewrite Hack. reflexivity. }
    split.
    { cbn [trace]. rewrite Htr. subst w0. cbn [trace].
      rewrite <- !app_assoc. reflexivity. }
    split.
    { cbn [app filter is_cancel]. rewrite filter_app.
      rewrite (poll_events_no_cancel order_uuid evs Hevs).
      reflexivity. }
    cbn [database]. rewrite Hdb. reflexivity.
Qed.

(** C4: if every query of the order reports it open, [get_order] leaves
    its polling loop once the limit has passed and no later than one poll
    interval of 10 seconds after it, sends exactly one cancel request and
    returns the answer to its last query; if the first query reports the
    order closed, it returns that answer and has sent nothing but this one
    query. The clock is the one of a simulated exchange, whose requests
    take no time. *)
Theorem get_order_lifecycle :
  forall (order_uuid : string) (trade_time_limit : Z) (w : world db),
    (0 <= trade_time_limit ->
     trade_time_limit < 10 * Z.of_nat fuel ->
     (forall h, bx_request_time Bittrex h = 0%N) ->
     (forall h, exists o,
         bx_get_order Bittrex h order_uuid = Ok o /\ IsOpen o = true) ->
     (forall h, exists ack, bx_cancel Bittrex h order_uuid = Ok ack) ->
     exists o w1 w' h evs,
       await_order Bittrex fuel order_uuid trade_time_limit w = (Ok o, w1) /\
       trade_time_limit < now w1 - now w /\
       now w1 - now w <= trade_time_limit + 10 /\
       trace w1 = h ++ [BittrexGetOrder order_uuid] /\
       bx_get_order Bittrex h order_uuid = Ok o /\
       IsOpen o = true /\
       get_order Bittrex fuel order_uuid trade_time_limit w = (Ok o, w') /\
       trace w' = trace w ++ evs /\
       filter is_cancel evs = [BittrexCancel order_uuid] /\
       database w' = database w)
    /\
    (forall o,
       bx_get_order Bittrex (trace w) order_uuid = Ok o ->
       IsOpen o = false ->
       exists w',
         get_order Bittrex fuel order_uuid trade_time_limit w = (Ok o, w') /\
         trace w' = trace w ++ [BittrexGetOrder order_uuid] /\
         filter is_cancel (trace w') = filter is_cancel (trace w) /\
         database w' = database w).
Proof.
  intros order_uuid trade_time_limit w. split.
  - intros Hlimit Hfuel Htime Hopen Hcancel.
    assert (Hd : forall h, Z.of_N (bx_request_time Bittrex h) <= 0)
      by (intro h; rewrite Htime; reflexivity).
    destruct (get_order_times_out order_uuid trade_time_limit 0 w Hlimit Hfuel
                Hd Hopen Hcancel) as [o [w1 [w' [h [evs H]]]]].
    exists o, w1, w', h, evs.
    rewrite Z.add_0_r in H. exact H.
  - intros o Ho Hclosed.
    assert (Hrun : get_order Bittrex fuel order_uuid trade_time_limit w
                   = (Ok o,
                      World (now w + Z.of_N (bx_request_time Bittrex (trace w)))
                        (trace w ++ [BittrexGetOrder order_uuid]) (database w))).
    { unfold get_order, await_order, bind, time_time, request.
      rewrite Ho. destruct fuel as [|n]; simpl;
        unfold bind, time_time, ret; rewrite Hclosed;
        rewrite andb_false_r; rewrite Hclosed; reflexivity. }
    eexists. split; [exact Hrun|]. cbn [trace database].
    split; [reflexivity|]. split; [|reflexivity].
    rewrite filter_app. cbn. apply app_nil_r.
Qed.

End GetOrder.

(** With a limit of 120 seconds the loop tests the clock at 0, 10, ..., 120
    and leaves at 130: the bound of one poll interval is reached. *)
Lemma stalled_order_leaves_at_130 :
  now (snd (await_order stalled_exchange 13 "BTC-ETH" 120 empty_world)) = 130.
Proof. vm_compute. reflexivity. Qed.

Lemma get_order_lifecycle_witness :
  exists o w1 w' h evs,
    await_order stalled_exchange 13 "BTC-ETH" 120 empty_world = (Ok o, w1) /\
    120 < now w1 - now empty_world /\
    now w1 - now empty_world <= 120 + 10 /\
    trace w1 = h ++ [BittrexGetOrder "BTC-ETH"] /\
    bx_get_order stalled_exchange h "BTC-ETH" = Ok o /\
    IsOpen o = true /\
    get_order stalled_exchange 13 "BTC-ETH" 120 empty_world = (Ok o, w') /\
    trace w' = trace empty_world ++ evs /\
    filter is_cancel evs = [BittrexCancel "BTC-ETH"] /\
    database w' = database empty_world.
Proof.
  apply (proj1 (get_order_lifecycle stalled_exchange 13 "BTC-ETH" 120
                  empty_world)).
  - lia.
  - simpl. lia.
  - intro h. reflexivity.
  - intro h. eexists. split; reflexivity.
  - intro h. eexists. reflexivity.
Defined.

(** *** IndicatorEngine: the loops *)

Lemma truediv_14 (x : float) :
  F64.truediv x (F64.of_int 14) = Ok (F64.div x (F64.of_int 14)).
Proof. reflexivity. Qed.

Lemma item_middle (pre post : list float) (x : float) :
  item (pre ++ x :: post) (List.length pre) = Ok x.
Proof.
  unfold item. rewrite nth_error_app2 by lia.
  rewrite Nat.sub_diag. reflexivity.
Qed.

(** The first loop computes the deltas of the closes it has walked. *)
Lemma price_changes_from (closing_prices : list float) :
  forall (rest pre : list float) (prev : float) (change : list float),
    closing_prices = pre ++ prev :: rest ->
    (S (List.length pre) < 15)%nat ->
    price_changes closing_prices rest (S (List.length pre)) change
    = Ok (Nat.min (S (List.length pre) + List.length rest) 15,
          change ++ deltas (prev :: firstn (15 - S (List.length pre)) rest)).
Proof.
  induction rest as [|i rest IH]; intros pre prev change Hcp Hlt.
  - simpl. rewrite firstn_nil. simpl. rewrite app_nil_r.
    f_equal. f_equal. lia.
  - cbn [price_changes].
    change (S (List.length pre) =? 0)%nat with false. cbn [negb].
    replace (S (List.length pre) - 1)%nat with (List.length pre) by lia.
    rewrite Hcp at 1. rewrite item_middle. cbn [rbind].
    destruct (S (S (List.length pre)) =? 15)%nat eqn:E.
    + apply Nat.eqb_eq in E.
      replace (15 - S (List.length pre))%nat with 1%nat by lia.
      cbn [firstn deltas List.length]. f_equal. f_equal. lia.
    + apply Nat.eqb_neq in E.
      specialize (IH (pre ++ [prev]) i (change ++ [F64.sub i prev])).
      rewrite length_app in IH. cbn [List.length] in IH.
      replace (List.length pre + 1)%nat with (S (List.length pre)) in IH by lia.
      rewrite IH.
      * replace (15 - S (List.length pre))%nat
          with (S (15 - S (S (List.length pre))))%nat by lia.
        cbn [firstn deltas List.length]. rewrite <- app_assoc. cbn [app].
        f_equal. f_equal. lia.
      * rewrite Hcp. rewrite <- app_assoc. reflexivity.
      * lia.
Qed.

Lemma price_changes_deltas (closing_prices : list float) :
  price_changes closing_prices closing_prices 0 []
  = Ok (Nat.min (List.length closing_prices) 15,
        deltas (firstn 15 closing_prices)).
Proof.
  destruct closing_prices as [|i rest]; [reflexivity|].
  cbn [price_changes Nat.eqb negb rbind].
  assert (H : (S (List.length (@nil float)) < 15)%nat) by (simpl; lia).
  pose proof (price_changes_from (i :: rest) rest [] i [] eq_refl H) as Hloop.
  cbn [List.length app Nat.sub Nat.add] in Hloop. rewrite Hloop.
  cbn [List.length firstn]. reflexivity.
Qed.

(** The third loop does nothing while the counter is below 15. *)
Lemma smooth_idle (closing_prices : list float) :
  forall (rest : list float) (s : smoothing),
    (sm_count s <= 14)%nat -> smooth closing_prices rest s = Ok s.
Proof.
  induction rest as [|x rest IH]; intros s Hs; [reflexivity|].
  cbn [smooth].
  replace (14 <? sm_count s)%nat with false
    by (symmetry; apply Nat.ltb_ge; exact Hs).
  cbn [andb]. apply IH. exact Hs.
Qed.

Lemma seed_averages_ok (change : list float) :
  exists g l, seed_averages change = Ok (g, l) /\
    forall advances declines,
      gains_and_losses change [] [] = (advances, declines) ->
      g = F64.div (F64.sum advances) (F64.of_int 14) /\
      l = F64.div (F64.sum declines) (F64.of_int 14).
Proof.
  unfold seed_averages.
  destruct (gains_and_losses change [] []) as [advances declines].
  rewrite !truediv_14. cbn [rbind].
  eexists. eexists. split; [reflexivity|].
  intros a b H. injection H as <- <-. split; reflexivity.
Qed.

(** C6, as stated, fails: a series of two closes has an RSI. *)
Lemma short_series_has_rsi :
  (List.length two_closes < 15)%nat /\
  calculate_RSI_on two_closes = Ok (Some (S754_zero false)) /\
  calculate_RSI_on two_closes <> Ok None.
Proof.
  split; [simpl; lia|].
  split; [vm_compute; reflexivity|].
  vm_compute. discriminate.
Qed.

(** *** IndicatorEngine: series without a negative delta *)

Lemma nonnegative_deltas_nth (closes : list float) :
  nonnegative_deltas closes = true ->
  forall (k : nat) (a b : float),
    nth_error closes k = Some a -> nth_error closes (S k) = Some b ->
    not_negative (F64.sub b a).
Proof.
  induction closes as [|x [|y rest] IH]; intros H k a b Ha Hb.
  - destruct k; discriminate Ha.
  - destruct k as [|[|k]]; discriminate Hb.
  - cbn [nonnegative_deltas] in H. apply andb_true_iff in H.
    destruct H as [Hxy Hrest].
    destruct k as [|k].
    + cbn in Ha, Hb. injection Ha as <-. injection Hb as <-.
      apply negb_true_iff in Hxy. exact Hxy.
    + apply (IH Hrest k a b); assumption.
Qed.

Lemma nonnegative_deltas_firstn (closes : list float) :
  nonnegative_deltas closes = true ->
  forall n, nonnegative_deltas (firstn n closes) = true.
Proof.
  induction closes as [|x [|y rest] IH]; intros H n.
  - rewrite firstn_nil. reflexivity.
  - destruct n as [|[|n]]; reflexivity.
  - cbn [nonnegative_deltas] in H. apply andb_true_iff in H.
    destruct H as [Hxy Hrest].
    destruct n as [|[|n]]; try reflexivity.
    specialize (IH Hrest (S n)). cbn [firstn] in IH |- *.
    cbn [nonnegative_deltas]. rewrite Hxy. exact IH.
Qed.

Lemma nonnegative_deltas_all (closes : list float) :
  nonnegative_deltas closes = true -> Forall not_negative (deltas closes).
Proof.
  induction closes as [|x [|y rest] IH]; intro H; try constructor.
  - cbn [nonnegative_deltas] in H. apply andb_true_iff in H.
    apply negb_true_iff. apply H.
  - apply IH. cbn [nonnegative_deltas] in H. apply andb_true_iff in H.
    apply H.
Qed.

Lemma no_declines (change : list float) :
  Forall not_negative change ->
  forall advances declines,
    snd (gains_and_losses change advances declines) = declines.
Proof.
  induction 1 as [|c change Hc _ IH]; intros advances declines;
    [reflexivity|].
  cbn [gains_and_losses]. unfold not_negative in Hc. rewrite Hc. apply IH.
Qed.

(** Without a negative delta a Wilder update keeps a zero average loss. *)
Lemma smooth_keeps_zero_loss (closing_prices : list float) :
  nonnegative_deltas closing_prices = true ->
  forall (rest : list float) (s : smoothing),
    new_avg_loss s = S754_zero false ->
    exists s', smooth closing_prices rest s = Ok s' /\
               new_avg_loss s' = S754_zero false.
Proof.
  intros Hnn. induction rest as [|x rest IH]; intros s Hs.
  - exists s. split; [reflexivity | exact Hs].
  - cbn [smooth].
    destruct ((14 <? sm_count s)%nat
              && (sm_count s <? List.length closing_prices)%nat) eqn:E;
      [|apply IH; exact Hs].
    apply andb_true_iff in E. destruct E as [E1 E2].
    apply Nat.ltb_lt in E1. apply Nat.ltb_lt in E2.
    unfold smooth_step, item.
    destruct (nth_error closing_prices (sm_count s)) as [close|] eqn:Hclose;
      [|apply nth_error_None in Hclose; lia].
    destruct (nth_error closing_prices (sm_count s - 1)) as [prev|] eqn:Hprev;
      [|apply nth_error_None in Hprev; lia].
    cbn [rbind].
    assert (Hdelta : not_negative (F64.sub close prev)).
    { apply (nonnegative_deltas_nth closing_prices Hnn (sm_count s - 1));
        [exact Hprev|].
      replace (S (sm_count s - 1)) with (sm_count s) by lia. exact Hclose. }
    unfold not_negative in Hdelta. rewrite Hdelta, Hs.
    rewrite !truediv_14. cbn [rbind].
    apply IH. reflexivity.
Qed.

(** Without a negative delta the average loss is zero after the seed and
    after every update. *)
Lemma zero_loss_averages (closes : list float) :
  nonnegative_deltas closes = true ->
  exists s, smoothed_averages closes = Ok s /\
            new_avg_loss s = S754_zero false.
Proof.
  intro Hnn.
  unfold smoothed_averages. rewrite price_changes_deltas. cbn [rbind].
  destruct (seed_averages_ok (deltas (firstn 15 closes)))
    as [g [l [Hseed Hgl]]].
  rewrite Hseed. cbn [rbind].
  apply (smooth_keeps_zero_loss closes Hnn). cbn [new_avg_loss].
  destruct (gains_and_losses (deltas (firstn 15 closes)) [] [])
    as [advances declines] eqn:E.
  destruct (Hgl advances declines eq_refl) as [_ ->].
  pose proof (no_declines (deltas (firstn 15 closes))
                (nonnegative_deltas_all _
                   (nonnegative_deltas_firstn closes Hnn 15)) [] []) as Hd.
  rewrite E in Hd. cbn [snd] in Hd. subst declines. reflexivity.
Qed.

(** C7: on a series none of whose successive deltas is negative, the
    final average loss is exactly zero and [calculate_RSI] returns
    [None]; it raises nothing, so no division by zero takes place. *)
Theorem no_negative_delta_no_rsi :
  forall closes : list float,
    nonnegative_deltas closes = true ->
    exists s,
      smoothed_averages closes = Ok s /\
      new_avg_loss s = S754_zero false /\
      calculate_RSI_on closes = Ok None.
Proof.
  intros closes Hnn.
  destruct (zero_loss_averages closes Hnn) as [s [Hs Hloss]].
  exists s. split; [exact Hs|]. split; [exact Hloss|].
  unfold calculate_RSI_on. rewrite Hs. cbn [rbind].
  unfold rsi_of_averages. rewrite Hloss. reflexivity.
Qed.

Lemma no_negative_delta_no_rsi_witness :
  calculate_RSI_on rising_closes = Ok None /\
  calculate_RSI_on constant_closes = Ok None.
Proof.
  split.
  - destruct (no_negative_delta_no_rsi rising_closes) as [s [_ [_ H]]];
      [vm_compute; reflexivity | exact H].
  - destruct (no_negative_delta_no_rsi constant_closes) as [s [_ [_ H]]];
      [vm_compute; reflexivity | exact H].
Defined.

(** *** Rounding in [SpecFloat] *)

Lemma fexp_eq (z : Z) : fexp F64.prec F64.emax z = Z.max (z - 53) (-1074).
Proof. reflexivity. Qed.

Lemma digits2_pos_bounds (m : positive) :
  2 ^ (Zpos (digits2_pos m) - 1) <= Zpos m < 2 ^ Zpos (digits2_pos m).
Proof.
  induction m as [m IH | m IH |]; cbn [digits2_pos].
  - rewrite Pos2Z.inj_succ.
    replace (Z.succ (Zpos (digits2_pos m)) - 1)
      with (Z.succ (Zpos (digits2_pos m) - 1)) by lia.
    rewrite !Z.pow_succ_r by lia. lia.
  - rewrite Pos2Z.inj_succ.
    replace (Z.succ (Zpos (digits2_pos m)) - 1)
      with (Z.succ (Zpos (digits2_pos m) - 1)) by lia.
    rewrite !Z.pow_succ_r by lia. lia.
  - simpl. lia.
Qed.

(** A mantissa below [2^n] has at most [n] digits. *)
Lemma digits2_pos_le (m : positive) (n : Z) :
  Zpos m < 2 ^ n -> Zpos (digits2_pos m) <= n.
Proof.
  intro H. destruct (Z_lt_le_dec n (Zpos (digits2_pos m))) as [Hlt|]; [|lia].
  exfalso. pose proof (digits2_pos_bounds m) as [Hlow _].
  assert (0 <= n).
  { destruct (Z_lt_le_dec n 0) as [Hneg|]; [|lia].
    rewrite Z.pow_neg_r in H by lia. lia. }
  assert (2 ^ n <= 2 ^ (Zpos (digits2_pos m) - 1))
    by (apply Z.pow_le_mono_r; lia).
  lia.
Qed.

Lemma iter_pos_nat {A : Type} (f : A -> A) (p : positive) :
  forall x, iter_pos f p x = Nat.iter (Pos.to_nat p) f x.
Proof.
  induction p as [p IH | p IH |]; intro x; cbn [iter_pos].
  - rewrite !IH. rewrite Pos2Nat.inj_xI.
    replace (S (2 * Pos.to_nat p)) with (Pos.to_nat p + (Pos.to_nat p + 1))%nat
      by lia.
    rewrite !Nat.iter_add. reflexivity.
  - rewrite !IH. rewrite Pos2Nat.inj_xO.
    replace (2 * Pos.to_nat p)%nat with (Pos.to_nat p + Pos.to_nat p)%nat by lia.
    rewrite Nat.iter_add. reflexivity.
  - reflexivity.
Qed.

Lemma shr_1_spec (mrs : shr_record) :
  0 <= shr_m mrs ->
  shr_m (shr_1 mrs) = shr_m mrs / 2 /\
  (inexact (shr_1 mrs) = true ->
   shr_m (shr_1 mrs) * 2 < shr_m mrs \/ inexact mrs = true).
Proof.
  destruct mrs as [m r s]. unfold inexact. cbn [shr_m shr_r shr_s].
  intro Hm. destruct m as [|p|p]; [| |lia].
  - split; [reflexivity|]. destruct r, s; cbn; auto.
  - destruct p as [p|p|]; cbn [shr_1 shr_m shr_r shr_s].
    + split.
      * rewrite Pos2Z.inj_xI.
        apply (Z.div_unique_pos _ _ _ 1); lia.
      * intros _. left. lia.
    + split.
      * rewrite Pos2Z.inj_xO.
        apply (Z.div_unique_pos _ _ _ 0); lia.
      * destruct r, s; cbn; auto.
    + split; [reflexivity|]. intros _. left. lia.
Qed.

Lemma shr_nat_spec (n : nat) (mrs : shr_record) :
  0 <= shr_m mrs ->
  shr_m (Nat.iter n shr_1 mrs) = shr_m mrs / 2 ^ Z.of_nat n /\
  (inexact (Nat.iter n shr_1 mrs) = true ->
   shr_m (Nat.iter n shr_1 mrs) * 2 ^ Z.of_nat n < shr_m mrs \/
   inexact mrs = true).
Proof.
  intro Hm. induction n as [|n [IHm IHi]].
  - change (Nat.iter 0 shr_1 mrs) with mrs. rewrite Z.pow_0_r, Z.div_1_r.
    split; [reflexivity | auto].
  - rewrite !Nat.iter_succ.
    assert (Hpos : 0 <= shr_m (Nat.iter n shr_1 mrs)).
    { rewrite IHm. apply Z.div_pos; [exact Hm|]. apply Z.pow_pos_nonneg; lia. }
    destruct (shr_1_spec _ Hpos) as [Hm1 Hi1].
    assert (Hpow : 0 < 2 ^ Z.of_nat n) by (apply Z.pow_pos_nonneg; lia).
    rewrite Nat2Z.inj_succ, Z.pow_succ_r by lia.
    split.
    + rewrite Hm1, IHm. rewrite Z.div_div by lia.
      f_equal. lia.
    + intro Hi. 
      assert (Hdown : shr_m (shr_1 (Nat.iter n shr_1 mrs)) * 2
                      <= shr_m (Nat.iter n shr_1 mrs)).
      { rewrite Hm1. pose proof (Z.mul_div_le (shr_m (Nat.iter n shr_1 mrs)) 2).
        lia. }
      assert (Hdown' : shr_m (Nat.iter n shr_1 mrs) * 2 ^ Z.of_nat n
                       <= shr_m mrs).
      { rewrite IHm. pose proof (Z.mul_div_le (shr_m mrs) (2 ^ Z.of_nat n) Hpow).
        lia. }
      destruct (Hi1 Hi) as [Hlt | Hprev].
      * left. nia.
      * destruct (IHi Hprev) as [Hlt | Horig]; [left; nia | right; exact Horig].
Qed.

Lemma shr_spec (mrs : shr_record) (e n : Z) :
  0 <= shr_m mrs ->
  snd (shr mrs e n) = e + Z.max n 0 /\
  shr_m (fst (shr mrs e n)) = shr_m mrs / 2 ^ Z.max n 0 /\
  (inexact (fst (shr mrs e n)) = true ->
   shr_m (fst (shr mrs e n)) * 2 ^ Z.max n 0 < shr_m mrs \/
   inexact mrs = true).
Proof.
  intro Hm. destruct n as [|p|p]; cbn [shr fst snd].
  - rewrite Z.max_id, Z.pow_0_r, Z.div_1_r, Z.add_0_r. auto.
  - rewrite Z.max_l by lia. rewrite iter_pos_nat.
    destruct (shr_nat_spec (Pos.to_nat p) mrs Hm) as [H1 H2].
    rewrite positive_nat_Z in H1, H2. auto.
  - rewrite Z.max_r by lia. rewrite Z.pow_0_r, Z.div_1_r, Z.add_0_r. auto.
Qed.

Lemma inexact_of_loc (m : Z) (l : location) :
  inexact (shr_record_of_loc m l) = true -> l <> loc_Exact.
Proof. destruct l as [|[| |]]; cbn; intro H; discriminate. Qed.

Lemma shr_m_of_loc (m : Z) (l : location) : shr_m (shr_record_of_loc m l) = m.
Proof. destruct l as [|[| |]]; reflexivity. Qed.

Lemma round_nearest_even_cases (mrs : shr_record) :
  round_nearest_even (shr_m mrs) (loc_of_shr_record mrs) = shr_m mrs \/
  (round_nearest_even (shr_m mrs) (loc_of_shr_record mrs) = shr_m mrs + 1 /\
   inexact mrs = true).
Proof.
  destruct mrs as [m [|] [|]]; cbn; auto.
  destruct (Z.even m); auto.
Qed.

(** What [binary_round_aux] computes on a mantissa that is not negative:
    it drops [k1] bits, rounds to [m2], drops [k3] further bits and
    packs. *)
Lemma binary_round_aux_spec (sx : bool) (mx ex : Z) (lx : location) :
  0 <= mx ->
  exists k1 m2 k3,
    0 <= k1 /\ ex + k1 = Z.max ex (fexp F64.prec F64.emax (Zdigits2 mx + ex)) /\
    mx / 2 ^ k1 <= m2 <= mx / 2 ^ k1 + 1 /\
    (m2 = mx / 2 ^ k1 + 1 -> mx / 2 ^ k1 * 2 ^ k1 < mx \/ lx <> loc_Exact) /\
    0 <= k3 /\
    ex + k1 + k3
      = Z.max (ex + k1) (fexp F64.prec F64.emax (Zdigits2 m2 + (ex + k1))) /\
    binary_round_aux F64.prec F64.emax sx mx ex lx =
      match m2 / 2 ^ k3 with
      | Z0 => S754_zero sx
      | Zpos m =>
          if ex + k1 + k3 <=? F64.emax - F64.prec
          then S754_finite sx m (ex + k1 + k3)
          else S754_infinity sx
      | Zneg _ => S754_nan
      end.
Proof.
  intro Hmx. unfold binary_round_aux, shr_fexp.
  set (n1 := fexp F64.prec F64.emax (Zdigits2 mx + ex) - ex).
  assert (H0 : 0 <= shr_m (shr_record_of_loc mx lx))
    by (rewrite shr_m_of_loc; exact Hmx).
  destruct (shr_spec (shr_record_of_loc mx lx) ex n1 H0) as [He1 [Hm1 Hi1]].
  destruct (shr (shr_record_of_loc mx lx) ex n1) as [mrs1 e1].
  cbn [fst snd] in He1, Hm1, Hi1. rewrite shr_m_of_loc in Hm1, Hi1.
  set (m2 := round_nearest_even (shr_m mrs1) (loc_of_shr_record mrs1)).
  set (n3 := fexp F64.prec F64.emax (Zdigits2 m2 + e1) - e1).
  assert (Hpow1 : 0 < 2 ^ Z.max n1 0) by (apply Z.pow_pos_nonneg; lia).
  assert (Hm1pos : 0 <= shr_m mrs1)
    by (rewrite Hm1; apply Z.div_pos; lia).
  assert (Hm2 : shr_m mrs1 <= m2 <= shr_m mrs1 + 1 /\
                (m2 = shr_m mrs1 + 1 -> inexact mrs1 = true)).
  { subst m2. destruct (round_nearest_even_cases mrs1) as [-> | [-> Hi]].
    - split; [lia|]. intro; lia.
    - split; [lia|]. intro; exact Hi. }
  assert (H2 : 0 <= shr_m (shr_record_of_loc m2 loc_Exact))
    by (rewrite shr_m_of_loc; lia).
  destruct (shr_spec (shr_record_of_loc m2 loc_Exact) e1 n3 H2)
    as [He3 [Hm3 _]].
  destruct (shr (shr_record_of_loc m2 loc_Exact) e1 n3) as [mrs3 e3].
  cbn [fst snd] in He3, Hm3. rewrite shr_m_of_loc in Hm3.
  exists (Z.max n1 0), m2, (Z.max n3 0).
  split; [lia|]. split; [subst n1; lia|].
  split; [rewrite <- Hm1; lia|].
  split.
  { rewrite <- Hm1. intro Heq. destruct Hm2 as [_ Hm2].
    destruct (Hi1 (Hm2 Heq)) as [Hlt | Hin]; [left; exact Hlt|].
    right. apply (inexact_of_loc mx). exact Hin. }
  split; [lia|]. split; [subst n3; rewrite He1; lia|].
  rewrite Hm3, He3, He1. reflexivity.
Qed.

Lemma binary_round_aux_nonneg (mx ex : Z) (lx : location) :
  0 <= mx -> nonneg (binary_round_aux F64.prec F64.emax false mx ex lx).
Proof.
  intro Hmx.
  destruct (binary_round_aux_spec false mx ex lx Hmx)
    as [k1 [m2 [k3 [Hk1 [_ [Hm2 [_ [Hk3 [_ ->]]]]]]]]].
  assert (0 <= mx / 2 ^ k1) by (apply Z.div_pos; [lia | apply Z.pow_pos_nonneg; lia]).
  assert (Hm3 : 0 <= m2 / 2 ^ k3)
    by (apply Z.div_pos; [lia | apply Z.pow_pos_nonneg; lia]).
  destruct (m2 / 2 ^ k3) as [|m|m]; [exact I | | lia].
  destruct (ex + k1 + k3 <=? F64.emax - F64.prec); exact I.
Qed.

Lemma Zdigits2_le (m n : Z) : 0 <= m -> 0 <= n -> m < 2 ^ n -> Zdigits2 m <= n.
Proof.
  intros Hm Hn H. destruct m as [|p|p]; [exact Hn | | lia].
  apply digits2_pos_le. exact H.
Qed.

(** Rounding does not pass a bound [c] that lies on the grid. *)
Lemma round_within (c mx ex : Z) (lx : location) :
  0 <= mx -> 0 < c < 2 ^ 53 -> ex <= 0 ->
  mx <= c * 2 ^ (- ex) ->
  (lx <> loc_Exact -> mx < c * 2 ^ (- ex)) ->
  within c (binary_round_aux F64.prec F64.emax false mx ex lx).
Proof.
  intros Hmx Hc Hex Hle Hlt.
  destruct (binary_round_aux_spec false mx ex lx Hmx)
    as [k1 [m2 [k3 [Hk1 [He1 [Hm2 [Hup [Hk3 [He3 ->]]]]]]]]].
  rewrite !fexp_eq in *.
  assert (Hp0 : 0 < 2 ^ (- ex)) by (apply Z.pow_pos_nonneg; lia).
  assert (Hd1 : Zdigits2 mx + ex <= 53).
  { assert (Zdigits2 mx <= 53 - ex); [|lia].
    apply Zdigits2_le; [lia | lia |].
    replace (53 - ex) with (53 + - ex) by lia.
    rewrite Z.pow_add_r by lia. nia. }
  assert (He1' : ex + k1 <= 0) by lia.
  assert (Hpk1 : 0 < 2 ^ k1) by (apply Z.pow_pos_nonneg; lia).
  assert (Hp1 : 0 < 2 ^ (- (ex + k1))) by (apply Z.pow_pos_nonneg; lia).
  assert (Hsplit1 : 2 ^ (- ex) = 2 ^ (- (ex + k1)) * 2 ^ k1).
  { rewrite <- Z.pow_add_r by lia. f_equal. lia. }
  assert (Hm1 : mx / 2 ^ k1 <= c * 2 ^ (- (ex + k1))).
  { apply Z.div_le_upper_bound; [lia|]. nia. }
  assert (Hm1pos : 0 <= mx / 2 ^ k1) by (apply Z.div_pos; lia).
  assert (Hm2' : m2 <= c * 2 ^ (- (ex + k1))).
  { destruct (Z.eq_dec m2 (mx / 2 ^ k1 + 1)) as [Heq | Hne]; [|lia].
    assert (mx / 2 ^ k1 < c * 2 ^ (- (ex + k1))); [|lia].
    destruct (Hup Heq) as [Hlost | Hin].
    - nia.
    - apply Z.div_lt_upper_bound; [lia|]. specialize (Hlt Hin). nia. }
  assert (Hd3 : Zdigits2 m2 + (ex + k1) <= 53).
  { assert (Zdigits2 m2 <= 53 - (ex + k1)); [|lia].
    apply Zdigits2_le; [lia | lia |].
    replace (53 - (ex + k1)) with (53 + - (ex + k1)) by lia.
    rewrite Z.pow_add_r by lia. nia. }
  assert (He3' : ex + k1 + k3 <= 0) by lia.
  assert (Hpk3 : 0 < 2 ^ k3) by (apply Z.pow_pos_nonneg; lia).
  assert (Hp3 : 0 < 2 ^ (- (ex + k1 + k3))) by (apply Z.pow_pos_nonneg; lia).
  assert (Hsplit3 : 2 ^ (- (ex + k1)) = 2 ^ (- (ex + k1 + k3)) * 2 ^ k3).
  { rewrite <- Z.pow_add_r by lia. f_equal. lia. }
  assert (Hm3 : m2 / 2 ^ k3 <= c * 2 ^ (- (ex + k1 + k3))).
  { apply Z.div_le_upper_bound; [lia|]. nia. }
  assert (Hm3pos : 0 <= m2 / 2 ^ k3) by (apply Z.div_pos; lia).
  destruct (m2 / 2 ^ k3) as [|m|m]; [exact I | | lia].
  replace (ex + k1 + k3 <=? F64.emax - F64.prec) with true
    by (symmetry; apply Z.leb_le; unfold F64.emax, F64.prec; lia).
  split; assumption.
Qed.

(** Dropping the bits that [fexp] asks for keeps a value at least 1. *)
Lemma truncate_at_least_one (m e k : Z) :
  0 < m -> (e <= 0 -> 2 ^ (- e) <= m) -> 0 <= k ->
  e + k = Z.max e (fexp F64.prec F64.emax (Zdigits2 m + e)) ->
  0 < m / 2 ^ k /\ (e + k <= 0 -> 2 ^ (- (e + k)) <= m / 2 ^ k).
Proof.
  intros Hm Hge Hk Hek. rewrite fexp_eq in Hek.
  destruct (Z.eq_dec k 0) as [-> | Hk0].
  - rewrite Z.pow_0_r, Z.div_1_r, Z.add_0_r. split; [lia | exact Hge].
  - assert (Hpk : 0 < 2 ^ k) by (apply Z.pow_pos_nonneg; lia).
    destruct (Z_le_gt_dec (e + k) 0) as [Hneg | Hpos].
    + assert (He : e <= 0) by lia. specialize (Hge He).
      assert (Hp : 0 < 2 ^ (- (e + k))) by (apply Z.pow_pos_nonneg; lia).
      assert (Hsplit : 2 ^ (- e) = 2 ^ (- (e + k)) * 2 ^ k).
      { rewrite <- Z.pow_add_r by lia. f_equal. lia. }
      assert (H : 2 ^ (- (e + k)) <= m / 2 ^ k).
      { apply Z.div_le_lower_bound; [lia|]. nia. }
      split; [lia | intros _; exact H].
    + destruct m as [|p|p]; [lia | | lia].
      cbn [Zdigits2] in Hek.
      pose proof (digits2_pos_bounds p) as [Hlow _].
      assert (Hd : Zpos (digits2_pos p) - 1 = 52 + k) by lia.
      rewrite Hd in Hlow. rewrite Z.pow_add_r in Hlow by lia.
      assert (H : 2 ^ 52 <= Zpos p / 2 ^ k).
      { apply Z.div_le_lower_bound; [lia|]. nia. }
      assert (0 < 2 ^ 52) by (apply Z.pow_pos_nonneg; lia).
      split; [lia | intro; lia].
Qed.

(** Rounding a value at least 1 gives a float at least 1. *)
Lemma round_at_least_one (mx ex : Z) (lx : location) :
  0 < mx -> (ex <= 0 -> 2 ^ (- ex) <= mx) ->
  at_least_one (binary_round_aux F64.prec F64.emax false mx ex lx).
Proof.
  intros Hmx Hge.
  destruct (binary_round_aux_spec false mx ex lx (Z.lt_le_incl _ _ Hmx))
    as [k1 [m2 [k3 [Hk1 [He1 [Hm2 [_ [Hk3 [He3 ->]]]]]]]]].
  destruct (truncate_at_least_one mx ex k1 Hmx Hge Hk1 He1) as [Hm1 Hge1].
  assert (Hm2pos : 0 < m2) by lia.
  assert (Hge2 : ex + k1 <= 0 -> 2 ^ (- (ex + k1)) <= m2)
    by (intro H; specialize (Hge1 H); lia).
  assert (He3' : ex + k1 + k3
                 = Z.max (ex + k1)
                     (fexp F64.prec F64.emax (Zdigits2 m2 + (ex + k1))))
    by exact He3.
  destruct (truncate_at_least_one m2 (ex + k1) k3 Hm2pos Hge2 Hk3 He3')
    as [Hm3 Hge3].
  destruct (m2 / 2 ^ k3) as [|m|m]; [lia | | lia].
  destruct (ex + k1 + k3 <=? F64.emax - F64.prec); [|exact I].
  cbn [at_least_one]. exact Hge3.
Qed.

Lemma iter_xO (m d : positive) : Zpos (Pos.iter xO m d) = Zpos m * 2 ^ Zpos d.
Proof.
  induction d as [|d IH] using Pos.peano_ind.
  - cbn [Pos.iter]. rewrite Pos2Z.inj_xO. lia.
  - rewrite Pos.iter_succ, Pos2Z.inj_xO, IH, Pos2Z.inj_succ.
    rewrite Z.pow_succ_r by lia. lia.
Qed.

Lemma shl_align_spec (mx : positive) (ex ex' : Z) :
  snd (shl_align mx ex ex') = Z.min ex ex' /\
  Zpos (fst (shl_align mx ex ex'))
    = Zpos mx * 2 ^ (ex - snd (shl_align mx ex ex')).
Proof.
  unfold shl_align. destruct (ex' - ex) as [|p|p] eqn:E; cbn [fst snd].
  - split; [lia|]. rewrite Z.sub_diag. lia.
  - split; [lia|]. rewrite Z.sub_diag. lia.
  - split; [lia|]. rewrite iter_xO. f_equal. f_equal. lia.
Qed.

Lemma binary_round_nonneg (mx : positive) (ex : Z) :
  nonneg (binary_round F64.prec F64.emax false mx ex).
Proof.
  unfold binary_round.
  destruct (shl_align mx ex _) as [mz ez].
  apply binary_round_aux_nonneg. lia.
Qed.

Lemma binary_round_within (c : Z) (mx : positive) (ex : Z) :
  0 < c < 2 ^ 53 -> ex <= 0 -> Zpos mx <= c * 2 ^ (- ex) ->
  within c (binary_round F64.prec F64.emax false mx ex).
Proof.
  intros Hc Hex Hle. unfold binary_round.
  pose proof (shl_align_spec mx ex
                (fexp F64.prec F64.emax (Zpos (digits2_pos mx) + ex)))
    as [He Hm].
  destruct (shl_align mx ex _) as [mz ez]. cbn [fst snd] in He, Hm.
  assert (Hez : ez <= ex) by lia.
  assert (Hsplit : 2 ^ (- ez) = 2 ^ (- ex) * 2 ^ (ex - ez)).
  { rewrite <- Z.pow_add_r by lia. f_equal. lia. }
  assert (0 < 2 ^ (ex - ez)) by (apply Z.pow_pos_nonneg; lia).
  apply round_within; try lia.
  - rewrite Hm, Hsplit. nia.
  - intro Hne. contradiction Hne. reflexivity.
Qed.

Lemma binary_round_at_least_one (mx : positive) (ex : Z) :
  (ex <= 0 -> 2 ^ (- ex) <= Zpos mx) ->
  at_least_one (binary_round F64.prec F64.emax false mx ex).
Proof.
  intro Hge. unfold binary_round.
  pose proof (shl_align_spec mx ex
                (fexp F64.prec F64.emax (Zpos (digits2_pos mx) + ex)))
    as [He Hm].
  destruct (shl_align mx ex _) as [mz ez]. cbn [fst snd] in He, Hm.
  assert (Hez : ez <= ex) by lia.
  assert (Hp : 0 < 2 ^ (ex - ez)) by (apply Z.pow_pos_nonneg; lia).
  apply round_at_least_one; [lia|].
  intro Hneg. rewrite Hm.
  destruct (Z_le_gt_dec ex 0) as [Hex | Hex].
  - specialize (Hge Hex).
    replace (- ez) with (- ex + (ex - ez)) by lia.
    rewrite Z.pow_add_r by lia. nia.
  - replace (ex - ez) with (ex + - ez) by lia.
    rewrite Z.pow_add_r by lia.
    assert (0 < 2 ^ ex) by (apply Z.pow_pos_nonneg; lia).
    assert (0 < 2 ^ (- ez)) by (apply Z.pow_pos_nonneg; lia).
    assert (1 <= Zpos mx * 2 ^ ex) by nia.
    rewrite Z.mul_assoc. nia.
Qed.

Lemma new_location_exact (nb k : Z) :
  new_location nb k <> loc_Exact -> k <> 0.
Proof.
  unfold new_location, new_location_even, new_location_odd.
  intros H ->. destruct (Z.even nb); cbn in H; contradiction H; reflexivity.
Qed.

(** The quotient, exponent and location that [SFdiv] hands to the
    rounding. *)
Lemma SFdiv_core_binary_spec (m1 m2 : positive) (e1 e2 : Z) :
  exists s q r l e',
    SFdiv_core_binary F64.prec F64.emax (Zpos m1) e1 (Zpos m2) e2 = (q, e', l) /\
    0 <= s /\ e' = e1 - e2 - s /\
    e' <= fexp F64.prec F64.emax
            (Zpos (digits2_pos m1) + e1 - (Zpos (digits2_pos m2) + e2)) /\
    Zpos m1 * 2 ^ s = Zpos m2 * q + r /\ 0 <= r < Zpos m2 /\ 0 <= q /\
    (l <> loc_Exact -> r <> 0).
Proof.
  unfold SFdiv_core_binary. cbn [Zdigits2].
  set (e' := Z.min (fexp F64.prec F64.emax
                      (Zpos (digits2_pos m1) + e1 - (Zpos (digits2_pos m2) + e2)))
                   (e1 - e2)).
  set (s := e1 - e2 - e').
  assert (Hs : 0 <= s) by (subst s e'; lia).
  set (m' := match s with
             | Z0 => Zpos m1
             | Zpos _ => Z.shiftl (Zpos m1) s
             | Zneg _ => 0
             end).
  assert (Hm' : m' = Zpos m1 * 2 ^ s).
  { subst m'. destruct s as [|p|p] eqn:E; [lia | | lia].
    apply Z.shiftl_mul_pow2. lia. }
  pose proof (Z_div_mod m' (Zpos m2) (Zgt_pos_0 m2)) as Hdiv.
  destruct (Z.div_eucl m' (Zpos m2)) as [q r].
  destruct Hdiv as [Heq Hr].
  assert (Hpow : 0 < 2 ^ s) by (apply Z.pow_pos_nonneg; lia).
  exists s, q, r, (new_location (Zpos m2) r), e'.
  split; [reflexivity|]. split; [exact Hs|]. split; [subst s; lia|].
  split; [subst e'; lia|]. split; [rewrite <- Hm'; exact Heq|].
  split; [lia|]. split; [nia|].
  apply new_location_exact.
Qed.

(** *** The sign and the range of the floats of [calculate_RSI] *)

Lemma of_int_1 : F64.of_int 1 = S754_finite false 4503599627370496 (-52).
Proof. reflexivity. Qed.

Lemma of_int_13 : F64.of_int 13 = S754_finite false 7318349394477056 (-49).
Proof. reflexivity. Qed.

Lemma of_int_14 : F64.of_int 14 = S754_finite false 7881299347898368 (-49).
Proof. reflexivity. Qed.

Lemma of_int_100 : F64.of_int 100 = S754_finite false 7036874417766400 (-46).
Proof. reflexivity. Qed.

Lemma positive_nonneg (i : float) :
  F64.ltb (F64.of_int 0) i = true -> nonneg i.
Proof.
  destruct i as [s | s | | s m e]; try destruct s; cbn; intro H;
    try discriminate H; exact I.
Qed.

Lemma negative_abs_nonneg (i : float) :
  F64.ltb i (F64.of_int 0) = true -> nonneg (F64.abs i).
Proof.
  destruct i as [s | s | | s m e]; try destruct s; cbn; intro H;
    try discriminate H; exact I.
Qed.

Lemma add_nonneg (x y : float) :
  nonneg x -> nonneg y -> nonneg (F64.add x y).
Proof.
  destruct x as [[|] | [|] | | [|] mx ex]; try contradiction;
  destruct y as [[|] | [|] | | [|] my ey]; try contradiction;
    intros _ _; try exact I.
  unfold F64.add, SFadd. cbn [cond_Zopp]. rewrite <- Pos2Z.inj_add.
  cbn [binary_normalize]. apply binary_round_nonneg.
Qed.

Lemma mul_finite_nonneg (x : float) (m : positive) (e : Z) :
  nonneg x -> nonneg (F64.mul x (S754_finite false m e)).
Proof.
  destruct x as [[|] | [|] | | [|] mx ex]; try contradiction;
    intros _; try exact I.
  unfold F64.mul, SFmul. cbn [xorb].
  apply binary_round_aux_nonneg. lia.
Qed.

Lemma div_nonneg (x y : float) :
  nonneg x -> nonneg y ->
  nonneg (F64.div x y) \/ F64.div x y = S754_nan.
Proof.
  destruct x as [[|] | [|] | | [|] mx ex]; try contradiction;
  destruct y as [[|] | [|] | | [|] my ey]; try contradiction;
    intros _ _; try (left; exact I); try (right; reflexivity).
  left. unfold F64.div, SFdiv.
  destruct (SFdiv_core_binary_spec mx my ex ey)
    as [s [q [r [l [e' [-> [_ [_ [_ [_ [_ [Hq _]]]]]]]]]]]].
  cbn [xorb]. apply binary_round_aux_nonneg. exact Hq.
Qed.

Lemma div_finite_nonneg (x : float) (m : positive) (e : Z) :
  nonneg x -> nonneg (F64.div x (S754_finite false m e)).
Proof.
  intro Hx.
  destruct (div_nonneg x (S754_finite false m e) Hx I) as [H | H];
    [exact H|].
  destruct x as [[|] | [|] | | [|] mx ex]; try contradiction;
    try discriminate H.
  unfold F64.div, SFdiv in H |- *.
  destruct (SFdiv_core_binary_spec mx m ex e)
    as [s [q [r [l [e' [Heq [_ [_ [_ [_ [_ [Hq _]]]]]]]]]]]].
  rewrite Heq in H |- *. cbn [xorb] in *.
  apply binary_round_aux_nonneg. exact Hq.
Qed.

Lemma sum_nonneg (xs : list float) :
  Forall nonneg xs -> nonneg (F64.sum xs).
Proof.
  unfold F64.sum.
  assert (H0 : nonneg (F64.of_int 0)) by exact I.
  revert H0. generalize (F64.of_int 0) as acc.
  induction xs as [|x xs IH]; intros acc Hacc Hxs; [exact Hacc|].
  inversion Hxs as [|? ? Hx Hrest]; subst. cbn [fold_left].
  apply IH; [apply add_nonneg; assumption | exact Hrest].
Qed.

Lemma gains_and_losses_nonneg (change : list float) :
  forall advances declines,
    Forall nonneg advances -> Forall nonneg declines ->
    Forall nonneg (fst (gains_and_losses change advances declines)) /\
    Forall nonneg (snd (gains_and_losses change advances declines)).
Proof.
  induction change as [|i change IH]; intros advances declines Ha Hd;
    [split; assumption|].
  cbn [gains_and_losses]. apply IH.
  - destruct (F64.ltb (F64.of_int 0) i) eqn:E; [|exact Ha].
    apply Forall_app. split; [exact Ha|].
    constructor; [apply positive_nonneg; exact E | constructor].
  - destruct (F64.ltb i (F64.of_int 0)) eqn:E; [|exact Hd].
    apply Forall_app. split; [exact Hd|].
    constructor; [apply negative_abs_nonneg; exact E | constructor].
Qed.

Lemma seed_averages_nonneg (change : list float) (g l : float) :
  seed_averages change = Ok (g, l) -> nonneg g /\ nonneg l.
Proof.
  destruct (seed_averages_ok change) as [g' [l' [Hseed Hgl]]].
  rewrite Hseed. intro H. injection H as <- <-.
  destruct (gains_and_losses change [] []) as [advances declines] eqn:E.
  destruct (Hgl advances declines eq_refl) as [-> ->].
  pose proof (gains_and_losses_nonneg change [] [] (Forall_nil _)
                (Forall_nil _)) as [Ha Hd].
  rewrite E in Ha, Hd. cbn [fst snd] in Ha, Hd.
  rewrite of_int_14.
  split; apply div_finite_nonneg; apply sum_nonneg; assumption.
Qed.

Lemma smooth_step_nonneg (closing_prices : list float) (s s' : smoothing) :
  nonneg (new_avg_gain s) -> nonneg (new_avg_loss s) ->
  smooth_step closing_prices s = Ok s' ->
  nonneg (new_avg_gain s') /\ nonneg (new_avg_loss s').
Proof.
  intros Hg Hl. unfold smooth_step.
  destruct (item closing_prices (sm_count s)) as [close | |]; cbn [rbind];
    try discriminate.
  destruct (item closing_prices (sm_count s - 1)) as [prev | |]; cbn [rbind];
    try discriminate.
  rewrite !truediv_14. cbn [rbind]. rewrite of_int_14, of_int_13.
  intro H. injection H as <-.
  cbn [new_avg_gain new_avg_loss].
  split; apply div_finite_nonneg; apply add_nonneg;
    try (apply mul_finite_nonneg; assumption).
  - destruct (F64.ltb (S754_zero false) (F64.sub close prev)) eqn:E;
      [apply positive_nonneg; exact E | exact I].
  - destruct (F64.ltb (F64.sub close prev) (S754_zero false)) eqn:E;
      [apply negative_abs_nonneg; exact E | exact I].
Qed.

Lemma smooth_nonneg (closing_prices : list float) :
  forall (rest : list float) (s s' : smoothing),
    nonneg (new_avg_gain s) -> nonneg (new_avg_loss s) ->
    smooth closing_prices rest s = Ok s' ->
    nonneg (new_avg_gain s') /\ nonneg (new_avg_loss s').
Proof.
  induction rest as [|x rest IH]; intros s s' Hg Hl H.
  - injection H as <-. split; assumption.
  - cbn [smooth] in H.
    destruct ((14 <? sm_count s)%nat
              && (sm_count s <? List.length closing_prices)%nat);
      [|apply (IH s s'); assumption].
    destruct (smooth_step closing_prices s) as [s1 | |] eqn:E; cbn [rbind] in H;
      try discriminate H.
    destruct (smooth_step_nonneg closing_prices s s1 Hg Hl E) as [Hg1 Hl1].
    apply (IH s1 s'); assumption.
Qed.

Lemma smoothed_averages_nonneg (closes : list float) (s : smoothing) :
  smoothed_averages closes = Ok s ->
  nonneg (new_avg_gain s) /\ nonneg (new_avg_loss s).
Proof.
  unfold smoothed_averages. rewrite price_changes_deltas. cbn [rbind].
  destruct (seed_averages (deltas (firstn 15 closes))) as [[g l] | |] eqn:E;
    cbn [rbind]; try discriminate.
  destruct (seed_averages_nonneg _ g l E) as [Hg Hl].
  apply smooth_nonneg; assumption.
Qed.

(** [1 + rs] is at least 1 when [rs] is not negative. *)
Lemma add_one_at_least_one (x : float) :
  nonneg x -> at_least_one (F64.add (F64.of_int 1) x).
Proof.
  rewrite of_int_1.
  destruct x as [[|] | [|] | | [|] m e]; try contradiction; intros _.
  - cbn. lia.
  - exact I.
  - unfold F64.add, SFadd. cbn [cond_Zopp]. rewrite <- Pos2Z.inj_add.
    cbn [binary_normalize]. apply binary_round_at_least_one.
    intro Hez. rewrite Pos2Z.inj_add.
    pose proof (shl_align_spec 4503599627370496 (-52) (Z.min (-52) e))
      as [He Hm].
    rewrite He in Hm. rewrite Hm.
    replace (Z.min (-52) (Z.min (-52) e)) with (Z.min (-52) e) by lia.
    change (Zpos 4503599627370496) with (2 ^ 52).
    rewrite <- Z.pow_add_r by lia.
    replace (52 + (-52 - Z.min (-52) e)) with (- Z.min (-52) e) by lia.
    lia.
Qed.

(** [100 / d] is at most 100 when [d] is at least 1. *)
Lemma div_100_within (d : float) :
  at_least_one d -> within 100 (F64.div (F64.of_int 100) d).
Proof.
  rewrite of_int_100.
  destruct d as [[|] | [|] | | [|] m2 e2]; try contradiction; intro Hd.
  - exact I.
  - cbn [at_least_one] in Hd. unfold F64.div, SFdiv.
    destruct (SFdiv_core_binary_spec 7036874417766400 m2 (-46) e2)
      as [s [q [r [l [e' [-> [Hs [He' [Hfexp [Hdiv [Hr [Hq Hl]]]]]]]]]]]].
    cbn [xorb]. rewrite fexp_eq in Hfexp.
    change (Zpos (digits2_pos 7036874417766400)) with 53 in Hfexp.
    change (Zpos 7036874417766400) with (100 * 2 ^ 46) in Hdiv.
    pose proof (digits2_pos_bounds m2) as [_ Hup].
    assert (Hd2 : 1 <= Zpos (digits2_pos m2) + e2).
    { destruct (Z_le_gt_dec e2 0) as [Hneg | Hpos]; [|lia].
      specialize (Hd Hneg).
      assert (- e2 < Zpos (digits2_pos m2)); [|lia].
      apply (Z.pow_lt_mono_r_iff 2); lia. }
    assert (Hneg : e' <= -47) by lia.
    assert (Hps : 0 < 2 ^ s) by (apply Z.pow_pos_nonneg; lia).
    assert (Hbound : 100 * 2 ^ 46 * 2 ^ s <= 100 * 2 ^ (- e') * Zpos m2).
    { destruct (Z_le_gt_dec e2 0) as [Hle | Hgt].
      - specialize (Hd Hle).
        assert (Hsplit : 2 ^ 46 * 2 ^ s = 2 ^ (- e') * 2 ^ (- e2)).
        { rewrite <- !Z.pow_add_r by lia. f_equal. lia. }
        assert (0 < 2 ^ (- e')) by (apply Z.pow_pos_nonneg; lia).
        nia.
      - assert (Hsplit : 2 ^ (- e') = 2 ^ 46 * 2 ^ s * 2 ^ e2).
        { rewrite <- !Z.pow_add_r by lia. f_equal. lia. }
        assert (0 < 2 ^ e2) by (apply Z.pow_pos_nonneg; lia).
        assert (0 < 2 ^ 46) by (apply Z.pow_pos_nonneg; lia).
        rewrite Hsplit. nia. }
    apply round_within.
    + exact Hq.
    + split; reflexivity.
    + lia.
    + nia.
    + intro Hin. specialize (Hl Hin). nia.
Qed.

(** [100 - q] stays between 0 and 100 when [q] does. *)
Lemma sub_100_within (q : float) :
  within 100 q -> within 100 (F64.sub (F64.of_int 100) q).
Proof.
  rewrite of_int_100.
  destruct q as [[|] | [|] | | [|] mq eq]; try contradiction; intro Hq.
  - cbn. lia.
  - destruct Hq as [Heq Hmq]. unfold F64.sub, SFsub. cbn [cond_Zopp].
    pose proof (shl_align_spec 7036874417766400 (-46) (Z.min (-46) eq))
      as [Hea Ha].
    pose proof (shl_align_spec mq eq (Z.min (-46) eq)) as [Heb Hb].
    rewrite Hea in Ha. rewrite Heb in Hb.
    replace (Z.min (-46) (Z.min (-46) eq)) with (Z.min (-46) eq) in Ha by lia.
    replace (Z.min eq (Z.min (-46) eq)) with (Z.min (-46) eq) in Hb by lia.
    set (ez := Z.min (-46) eq) in *.
    change (Zpos 7036874417766400) with (100 * 2 ^ 46) in Ha.
    assert (Ha' : Zpos (fst (shl_align 7036874417766400 (-46) ez))
                  = 100 * 2 ^ (- ez)).
    { rewrite Ha. rewrite <- Z.mul_assoc, <- Z.pow_add_r by lia.
      f_equal. f_equal. lia. }
    assert (Hb' : Zpos (fst (shl_align mq eq ez)) <= 100 * 2 ^ (- ez)).
    { rewrite Hb.
      assert (Hsplit : 2 ^ (- ez) = 2 ^ (- eq) * 2 ^ (eq - ez)).
      { rewrite <- Z.pow_add_r by lia. f_equal. lia. }
      assert (0 < 2 ^ (eq - ez)) by (apply Z.pow_pos_nonneg; lia).
      rewrite Hsplit. nia. }
    destruct (Zpos (fst (shl_align 7036874417766400 (-46) ez))
              - Zpos (fst (shl_align mq eq ez))) as [|p|p] eqn:E;
      cbn [binary_normalize].
    + exact I.
    + apply binary_round_within.
      * split; reflexivity.
      * lia.
      * lia.
    + lia.
Qed.

Lemma div_nonneg_or_nan (x y : float) :
  nonneg x -> nonneg y -> F64.eqb y (F64.of_int 0) = false ->
  nonneg (F64.div x y) \/
  (F64.div x y = S754_nan /\ x = S754_infinity false /\ y = S754_infinity false).
Proof.
  intros Hx Hy Hy0.
  destruct (div_nonneg x y Hx Hy) as [H | H]; [left; exact H|].
  destruct x as [[|] | [|] | | [|] mx ex]; try contradiction;
  destruct y as [[|] | [|] | | [|] my ey]; try contradiction;
    try discriminate H; try discriminate Hy0.
  - right. auto.
  - left. unfold F64.div, SFdiv in H |- *.
    destruct (SFdiv_core_binary_spec mx my ex ey)
      as [s [q [r [l [e' [Heq [_ [_ [_ [_ [_ [Hq _]]]]]]]]]]]].
    rewrite Heq in H |- *. cbn [xorb] in *.
    apply binary_round_aux_nonneg. exact Hq.
Qed.

(** The last lines of [calculate_RSI] on averages that are not negative:
    the result is between 0 and 100, or NaN when both averages are
    infinite. *)
Lemma rsi_of_averages_range (g l r : float) :
  nonneg g -> nonneg l ->
  rsi_of_averages g l = Ok (Some r) ->
  within 100 r \/
  (r = S754_nan /\ g = S754_infinity false /\ l = S754_infinity false).
Proof.
  intros Hg Hl. unfold rsi_of_averages.
  destruct (F64.eqb l (F64.of_int 0)) eqn:El; [discriminate|].
  unfold F64.truediv at 1. rewrite El. cbn [rbind].
  destruct (div_nonneg_or_nan g l Hg Hl El) as [Hrs | [Hrs [-> ->]]].
  - pose proof (add_one_at_least_one _ Hrs) as Hd.
    unfold F64.truediv.
    destruct (F64.eqb (F64.add (F64.of_int 1) (F64.div g l)) (F64.of_int 0));
      cbn [rbind]; [discriminate|].
    intro H. injection H as <-. left.
    apply sub_100_within. apply div_100_within. exact Hd.
  - rewrite Hrs. intro H. vm_compute in H. injection H as <-.
    right. auto.
Qed.

Lemma scaled_value (c : Z) (m : positive) (e : Z) :
  e <= 0 -> Zpos m <= c * 2 ^ (- e) ->
  (0 <= inject_Z (Zpos m) * 2 ^ e /\ inject_Z (Zpos m) * 2 ^ e <= inject_Z c)%Q.
Proof.
  intros He Hm.
  assert (Hp : 0 < 2 ^ (- e)) by (apply Z.pow_pos_nonneg; lia).
  assert (Hpow : (2 ^ e == / inject_Z (2 ^ (- e)))%Q).
  { rewrite Zpower_Qpower by lia. rewrite <- Qpower_opp.
    rewrite Z.opp_involutive. reflexivity. }
  split.
  - apply Qmult_le_0_compat.
    + rewrite <- (Zle_Qle 0). lia.
    + apply Qpower_0_le. discriminate.
  - rewrite Hpow. apply Qle_shift_div_r.
    + rewrite <- (Zlt_Qlt 0). exact Hp.
    + rewrite <- inject_Z_mult, <- Zle_Qle. exact Hm.
Qed.

Lemma within_value (c : Z) (x : float) :
  0 <= c -> within c x ->
  exists v, F64.value x = Some v /\ (0 <= v /\ v <= inject_Z c)%Q.
Proof.
  intros Hc.
  destruct x as [[|] | [|] | | [|] m e]; try contradiction.
  - intros _. exists 0%Q. split; [reflexivity|].
    split; [apply Qle_refl | rewrite <- (Zle_Qle 0); exact Hc].
  - intros [He Hm]. eexists. split; [reflexivity|].
    apply scaled_value; assumption.
Qed.

(** The lower bound, the upper bound and NaN are all reached. *)
Lemma rsi_extremes :
  calculate_RSI_on falling_closes = Ok (Some (S754_zero false)) /\
  calculate_RSI_on steep_closes = Ok (Some (F64.of_int 100)) /\
  calculate_RSI_on overflowing_closes = Ok (Some S754_nan).
Proof. repeat split; vm_compute; reflexivity. Qed.

(** C5, as stated, fails: on fifteen falling closes the RSI is defined and
    is 0.0, not above 0; on closes with one small loss and one large gain
    it is defined and is 100.0, not below 100. *)
Lemma rsi_not_strictly_inside :
  (calculate_RSI_on falling_closes = Ok (Some (S754_zero false)) /\
   F64.ltb (F64.of_int 0) (S754_zero false) = false) /\
  (calculate_RSI_on steep_closes = Ok (Some (F64.of_int 100)) /\
   F64.ltb (F64.of_int 100) (F64.of_int 100) = false) /\
  ~ (forall (closes : list float) (r : float),
        calculate_RSI_on closes = Ok (Some r) ->
        F64.ltb (F64.of_int 0) r = true /\ F64.ltb r (F64.of_int 100) = true).
Proof.
  assert (Hfalling : calculate_RSI_on falling_closes
                     = Ok (Some (S754_zero false)))
    by (vm_compute; reflexivity).
  split; [split; [exact Hfalling | reflexivity]|].
  split; [split; vm_compute; reflexivity|].
  intro H. destruct (H falling_closes (S754_zero false) Hfalling) as [Hpos _].
  vm_compute in Hpos. discriminate Hpos.
Qed.

(** C5, amended: whenever [calculate_RSI] returns a value, it is a float
    between 0 and 100, both bounds included (0 without a gain, 100 by
    rounding), or it is NaN, which happens only when both final averages
    have overflowed to [+inf]. *)
Theorem rsi_between_0_and_100 :
  forall (closes : list float) (r : float),
    calculate_RSI_on closes = Ok (Some r) ->
    (exists v, F64.value r = Some v /\ (0 <= v /\ v <= 100)%Q) \/
    (r = S754_nan /\
     exists s, smoothed_averages closes = Ok s /\
               new_avg_gain s = S754_infinity false /\
               new_avg_loss s = S754_infinity false).
Proof.
  intros closes r. unfold calculate_RSI_on.
  destruct (smoothed_averages closes) as [s | |] eqn:Hs; cbn [rbind];
    try discriminate.
  destruct (smoothed_averages_nonneg closes s Hs) as [Hg Hl].
  intro Hr.
  destruct (rsi_of_averages_range _ _ r Hg Hl Hr) as [Hin | [Hnan [Hginf Hlinf]]].
  - left. apply (within_value 100); [lia | exact Hin].
  - right. split; [exact Hnan|]. exists s. auto.
Qed.

Lemma rsi_between_0_and_100_witness :
  exists v, F64.value scenario_rsi = Some v /\ (0 <= v /\ v <= 100)%Q.
Proof.
  destruct (rsi_between_0_and_100 scenario_closes scenario_rsi
              scenario_rsi_value) as [H | [H _]].
  - exact H.
  - discriminate H.
Defined.

(** *** Constant and rising series *)

Lemma sub_self_not_negative (x : float) : not_negative (F64.sub x x).
Proof.
  destruct x as [[|] | [|] | | s m e]; try reflexivity.
  unfold not_negative, F64.sub, SFsub. rewrite Z.sub_diag. reflexivity.
Qed.

Lemma constant_nonnegative_deltas (x : float) (n : nat) :
  nonnegative_deltas (repeat x n) = true.
Proof.
  induction n as [|[|n] IH]; try reflexivity.
  change (repeat x (S (S n))) with (x :: repeat x (S n)).
  change (repeat x (S n)) with (x :: repeat x n) at 1.
  cbn [nonnegative_deltas].
  pose proof (sub_self_not_negative x) as H. unfold not_negative in H.
  rewrite H. exact IH.
Qed.

(** Every constant series, of any length and any float, has no RSI. *)
Lemma constant_series_no_rsi (x : float) (n : nat) :
  calculate_RSI_on (repeat x n) = Ok None.
Proof.
  destruct (zero_loss_averages (repeat x n)
              (constant_nonnegative_deltas x n)) as [s [Hs Hloss]].
  unfold calculate_RSI_on. rewrite Hs. cbn [rbind].
  unfold rsi_of_averages. rewrite Hloss. reflexivity.
Qed.

(** The mantissa of a valid finite float has at most 53 digits, and
    exactly 53 above the least exponent. *)
Lemma bounded_mantissa (m : positive) (e : Z) :
  bounded F64.prec F64.emax m e = true ->
  Zpos m < 2 ^ 53 /\ (-1074 < e -> 2 ^ 52 <= Zpos m).
Proof.
  unfold bounded, canonical_mantissa. intro H.
  apply andb_true_iff in H. destruct H as [H _].
  apply Z.eqb_eq in H. rewrite fexp_eq in H.
  pose proof (digits2_pos_bounds m) as [Hlow Hup].
  split.
  - assert (Hd : Zpos (digits2_pos m) <= 53) by lia.
    assert (2 ^ Zpos (digits2_pos m) <= 2 ^ 53)
      by (apply Z.pow_le_mono_r; lia).
    lia.
  - intro He.
    assert (Hd : Zpos (digits2_pos m) = 53) by lia.
    rewrite Hd in Hlow. exact Hlow.
Qed.

(** Of two valid positive floats in the order of [SFcompare], the greater
    has the greater aligned mantissa. *)
Lemma aligned_order (ma mb : positive) (ea eb : Z) :
  bounded F64.prec F64.emax ma ea = true ->
  bounded F64.prec F64.emax mb eb = true ->
  (ea < eb \/ (ea = eb /\ Zpos ma < Zpos mb)) ->
  Zpos (fst (shl_align ma ea (Z.min eb ea)))
  < Zpos (fst (shl_align mb eb (Z.min eb ea))).
Proof.
  intros Ha Hb Horder.
  pose proof (shl_align_spec ma ea (Z.min eb ea)) as [Hea Hma].
  pose proof (shl_align_spec mb eb (Z.min eb ea)) as [Heb Hmb].
  rewrite Hea in Hma. rewrite Heb in Hmb. rewrite Hma, Hmb.
  replace (Z.min ea (Z.min eb ea)) with ea by lia.
  replace (Z.min eb (Z.min eb ea)) with ea by lia.
  rewrite Z.sub_diag, Z.pow_0_r, Z.mul_1_r.
  destruct Horder as [Hlt | [-> Hlt]].
  - destruct (bounded_mantissa ma ea Ha) as [Hma53 _].
    destruct (bounded_mantissa mb eb Hb) as [_ Hmb52].
    assert (Hea' : -1074 <= ea).
    { unfold bounded, canonical_mantissa in Ha.
      apply andb_true_iff in Ha. destruct Ha as [Ha _].
      apply Z.eqb_eq in Ha. rewrite fexp_eq in Ha. lia. }
    specialize (Hmb52 ltac:(lia)).
    assert (2 ^ 1 <= 2 ^ (eb - ea)) by (apply Z.pow_le_mono_r; lia).
    change (2 ^ 53) with (2 ^ 52 * 2 ^ 1) in Hma53. nia.
  - rewrite Z.sub_diag, Z.pow_0_r. lia.
Qed.

Lemma nonneg_not_negative (x : float) : nonneg x -> not_negative x.
Proof.
  destruct x as [[|] | [|] | | [|] m e]; try contradiction; reflexivity.
Qed.

(** Between valid floats, a greater close gives a delta that is not
    negative. *)
Lemma rising_not_negative (a b : float) :
  valid a = true -> valid b = true ->
  F64.ltb a b = true -> not_negative (F64.sub b a).
Proof.
  unfold valid, F64.ltb, SFltb.
  destruct a as [sa | sa | | sa ma ea]; destruct b as [sb | sb | | sb mb eb];
    cbn [valid_binary SFcompare]; intros Ha Hb H;
    try discriminate H;
    try (destruct sa; try discriminate H; reflexivity);
    try (destruct sb; try discriminate H; reflexivity);
    try (destruct sa, sb; try discriminate H; reflexivity).
  apply nonneg_not_negative.
  unfold F64.sub, SFsub.
  destruct sa, sb; cbn [cond_Zopp]; try discriminate H.
  - (* both negative: the delta is |a| - |b| *)
    assert (Horder : eb < ea \/ (eb = ea /\ Zpos mb < Zpos ma)).
    { destruct (Z.compare_spec ea eb) as [Heq | Hlt | Hgt];
        try discriminate H; [|left; lia].
      right. split; [lia|].
      destruct (Pos.compare_cont Eq ma mb) eqn:E; try discriminate H.
      apply Pos.compare_gt_iff in E. lia. }
    pose proof (aligned_order mb ma eb ea Hb Ha Horder) as Hlt.
    rewrite (Z.min_comm ea eb) in Hlt.
    destruct (- Zpos (fst (shl_align mb eb (Z.min eb ea)))
              - - Zpos (fst (shl_align ma ea (Z.min eb ea)))) as [|p|p] eqn:E;
      cbn [binary_normalize]; [exact I | apply binary_round_nonneg | lia].
  - (* a negative, b positive: the delta is |a| + |b| *)
    destruct (Zpos (fst (shl_align mb eb (Z.min eb ea)))
              - - Zpos (fst (shl_align ma ea (Z.min eb ea)))) as [|p|p] eqn:E;
      cbn [binary_normalize]; [exact I | apply binary_round_nonneg | lia].
  - (* both positive *)
    assert (Horder : ea < eb \/ (ea = eb /\ Zpos ma < Zpos mb)).
    { destruct (Z.compare_spec ea eb) as [Heq | Hlt | Hgt];
        try discriminate H; [|left; lia].
      right. split; [lia|].
      destruct (Pos.compare_cont Eq ma mb) eqn:E; try discriminate H.
      exact E. }
    pose proof (aligned_order ma mb ea eb Ha Hb Horder) as Hlt.
    destruct (Zpos (fst (shl_align mb eb (Z.min eb ea)))
              - Zpos (fst (shl_align ma ea (Z.min eb ea)))) as [|p|p] eqn:E;
      cbn [binary_normalize]; [exact I | apply binary_round_nonneg | lia].
Qed.

Lemma rising_nonnegative_deltas (closes : list float) :
  forallb valid closes = true -> strictly_increasing closes = true ->
  nonnegative_deltas closes = true.
Proof.
  induction closes as [|a [|b rest] IH]; intros Hv Hinc; try reflexivity.
  cbn [forallb] in Hv. apply andb_true_iff in Hv. destruct Hv as [Ha Hv].
  pose proof Hv as Hv'. cbn [forallb] in Hv'.
  apply andb_true_iff in Hv'. destruct Hv' as [Hb _].
  cbn [strictly_increasing] in Hinc. apply andb_true_iff in Hinc.
  destruct Hinc as [Hab Hinc].
  cbn [nonnegative_deltas].
  pose proof (rising_not_negative a b Ha Hb Hab) as H.
  unfold not_negative in H. rewrite H. cbn [negb andb].
  apply IH; assumption.
Qed.

(** Every strictly increasing series of binary64 floats has no RSI. *)
Lemma rising_series_no_rsi (closes : list float) :
  forallb valid closes = true -> strictly_increasing closes = true ->
  calculate_RSI_on closes = Ok None.
Proof.
  intros Hv Hinc.
  destruct (zero_loss_averages closes
              (rising_nonnegative_deltas closes Hv Hinc)) as [s [Hs Hloss]].
  unfold calculate_RSI_on. rewrite Hs. cbn [rbind].
  unfold rsi_of_averages. rewrite Hloss. reflexivity.
Qed.

(** *** [calculate_RSI] raises nothing *)

Lemma smooth_step_total (closing_prices : list float) (s : smoothing) :
  (sm_count s < List.length closing_prices)%nat ->
  exists s', smooth_step closing_prices s = Ok s'.
Proof.
  intro Hlt. unfold smooth_step, item.
  destruct (nth_error closing_prices (sm_count s)) as [close|] eqn:Hclose;
    [|apply nth_error_None in Hclose; lia].
  destruct (nth_error closing_prices (sm_count s - 1)) as [prev|] eqn:Hprev;
    [|apply nth_error_None in Hprev; lia].
  cbn [rbind]. rewrite !truediv_14. cbn [rbind].
  eexists. reflexivity.
Qed.

Lemma smooth_total (closing_prices : list float) :
  forall (rest : list float) (s : smoothing),
    exists s', smooth closing_prices rest s = Ok s'.
Proof.
  induction rest as [|x rest IH]; intro s; [exists s; reflexivity|].
  cbn [smooth].
  destruct ((14 <? sm_count s)%nat
            && (sm_count s <? List.length closing_prices)%nat) eqn:E;
    [|apply IH].
  apply andb_true_iff in E. destruct E as [_ E]. apply Nat.ltb_lt in E.
  destruct (smooth_step_total closing_prices s E) as [s1 ->].
  cbn [rbind]. apply IH.
Qed.

Lemma smoothed_averages_total (closes : list float) :
  exists s, smoothed_averages closes = Ok s.
Proof.
  unfold smoothed_averages. rewrite price_changes_deltas. cbn [rbind].
  destruct (seed_averages_ok (deltas (firstn 15 closes))) as [g [l [-> _]]].
  cbn [rbind]. apply smooth_total.
Qed.

Lemma at_least_one_not_zero (d : float) :
  at_least_one d -> F64.eqb d (F64.of_int 0) = false.
Proof.
  destruct d as [[|] | [|] | | [|] m e]; try contradiction; reflexivity.
Qed.

(** On every series of closes [calculate_RSI] returns, [None] or a float:
    no index leaves the list and neither division meets a zero divisor. *)
Lemma calculate_RSI_total (closes : list float) :
  exists r, calculate_RSI_on closes = Ok r.
Proof.
  unfold calculate_RSI_on.
  destruct (smoothed_averages_total closes) as [s Hs]. rewrite Hs.
  cbn [rbind].
  destruct (smoothed_averages_nonneg closes s Hs) as [Hg Hl].
  unfold rsi_of_averages.
  destruct (F64.eqb (new_avg_loss s) (F64.of_int 0)) eqn:El;
    [eexists; reflexivity|].
  unfold F64.truediv at 1. rewrite El. cbn [rbind].
  assert (Hd : F64.eqb (F64.add (F64.of_int 1)
                          (F64.div (new_avg_gain s) (new_avg_loss s)))
                 (F64.of_int 0) = false).
  { destruct (div_nonneg_or_nan _ _ Hg Hl El) as [Hrs | [Hrs _]].
    - apply at_least_one_not_zero. apply add_one_at_least_one. exact Hrs.
    - rewrite Hrs. reflexivity. }
  unfold F64.truediv. rewrite Hd. cbn [rbind].
  eexists. reflexivity.
Qed.

(** *** IndicatorEngine: short series *)

(** C6, amended: on a series of fewer than 15 closes the smoothing loop
    does not run, and the result is the one of the seed averages of the
    deltas that exist (their sums still divided by 14): it is absent
    exactly when that average loss is zero, and otherwise it is the
    number [100 - 100 / (1 + gain / loss)]; nothing is raised. *)
Theorem short_series_rsi :
  forall closes : list float,
    (List.length closes < 15)%nat ->
    exists g l,
      seed_averages (deltas closes) = Ok (g, l) /\
      smoothed_averages closes = Ok (Smoothing (List.length closes) g l) /\
      calculate_RSI_on closes = rsi_of_averages g l /\
      (calculate_RSI_on closes = Ok None <->
       F64.eqb l (F64.of_int 0) = true) /\
      (F64.eqb l (F64.of_int 0) = false ->
       calculate_RSI_on closes
       = Ok (Some (F64.sub (F64.of_int 100)
                     (F64.div (F64.of_int 100)
                        (F64.add (F64.of_int 1) (F64.div g l)))))).
Proof.
  intros closes Hlen.
  destruct (seed_averages_ok (deltas closes)) as [g [l [Hseed _]]].
  exists g, l.
  assert (Hsm : smoothed_averages closes = Ok (Smoothing (List.length closes) g l)).
  { unfold smoothed_averages. rewrite price_changes_deltas. cbn [rbind].
    rewrite firstn_all2 by lia. rewrite Hseed. cbn [rbind].
    rewrite Nat.min_l by lia.
    apply smooth_idle. cbn [sm_count]. lia. }
  assert (Hrsi : calculate_RSI_on closes = rsi_of_averages g l).
  { unfold calculate_RSI_on. rewrite Hsm. reflexivity. }
  assert (Hsome : F64.eqb l (F64.of_int 0) = false ->
                  rsi_of_averages g l
                  = Ok (Some (F64.sub (F64.of_int 100)
                                (F64.div (F64.of_int 100)
                                   (F64.add (F64.of_int 1) (F64.div g l)))))).
  { intro E.
    destruct (smoothed_averages_nonneg closes _ Hsm) as [Hg Hl].
    cbn [new_avg_gain new_avg_loss] in Hg, Hl.
    unfold rsi_of_averages. rewrite E.
    unfold F64.truediv at 1. rewrite E. cbn [rbind].
    assert (Hd : F64.eqb (F64.add (F64.of_int 1) (F64.div g l))
                   (F64.of_int 0) = false).
    { destruct (div_nonneg_or_nan _ _ Hg Hl E) as [Hrs | [Hrs _]].
      - apply at_least_one_not_zero. apply add_one_at_least_one. exact Hrs.
      - rewrite Hrs. reflexivity. }
    unfold F64.truediv. rewrite Hd. reflexivity. }
  split; [exact Hseed|]. split; [exact Hsm|]. split; [exact Hrsi|].
  rewrite Hrsi. split; [|exact Hsome].
  destruct (F64.eqb l (F64.of_int 0)) eqn:E.
  - unfold rsi_of_averages. rewrite E. split; reflexivity.
  - rewrite (Hsome eq_refl). split; intro H; discriminate H.
Qed.

Lemma short_series_rsi_witness :
  exists g l,
    seed_averages (deltas two_closes) = Ok (g, l) /\
    smoothed_averages two_closes = Ok (Smoothing 2 g l) /\
    calculate_RSI_on two_closes = rsi_of_averages g l /\
    (calculate_RSI_on two_closes = Ok None <->
     F64.eqb l (F64.of_int 0) = true) /\
    (F64.eqb l (F64.of_int 0) = false ->
     calculate_RSI_on two_closes
     = Ok (Some (F64.sub (F64.of_int 100)
                   (F64.div (F64.of_int 100)
                      (F64.add (F64.of_int 1) (F64.div g l)))))).
Proof.
  apply (short_series_rsi two_closes). simpl. lia.
Defined.

(** ** Further properties *)

(** *** The order of floats *)

Lemma finite_compare (e1 e2 : Z) (m1 m2 : positive) :
  match e1 ?= e2 with
  | Lt => Lt
  | Gt => Gt
  | Eq => Pos.compare_cont Eq m1 m2
  end = Lt <->
  e1 < e2 \/ (e1 = e2 /\ Zpos m1 < Zpos m2).
Proof.
  change (Pos.compare_cont Eq m1 m2) with (Zpos m1 ?= Zpos m2).
  destruct (Z.compare_spec e1 e2); destruct (Z.compare_spec (Zpos m1) (Zpos m2));
    split; intro Hc; try discriminate Hc; try reflexivity; lia.
Qed.

Lemma finite_compare_eq (e1 e2 : Z) (m1 m2 : positive) :
  match e1 ?= e2 with
  | Lt => Lt
  | Gt => Gt
  | Eq => Pos.compare_cont Eq m1 m2
  end = Eq <->
  e1 = e2 /\ Zpos m1 = Zpos m2.
Proof.
  change (Pos.compare_cont Eq m1 m2) with (Zpos m1 ?= Zpos m2).
  destruct (Z.compare_spec e1 e2); destruct (Z.compare_spec (Zpos m1) (Zpos m2));
    split; intro Hc; try discriminate Hc; try reflexivity; lia.
Qed.

Lemma finite_compare_opp (e1 e2 : Z) (m1 m2 : positive) :
  match e1 ?= e2 with
  | Lt => Gt
  | Gt => Lt
  | Eq => CompOpp (Pos.compare_cont Eq m1 m2)
  end = Lt <->
  e2 < e1 \/ (e1 = e2 /\ Zpos m2 < Zpos m1).
Proof.
  change (Pos.compare_cont Eq m1 m2) with (Zpos m1 ?= Zpos m2).
  destruct (Z.compare_spec e1 e2); destruct (Z.compare_spec (Zpos m1) (Zpos m2));
    split; intro Hc; try discriminate Hc; try reflexivity; lia.
Qed.

Lemma finite_compare_opp_eq (e1 e2 : Z) (m1 m2 : positive) :
  match e1 ?= e2 with
  | Lt => Gt
  | Gt => Lt
  | Eq => CompOpp (Pos.compare_cont Eq m1 m2)
  end = Eq <->
  e1 = e2 /\ Zpos m1 = Zpos m2.
Proof.
  change (Pos.compare_cont Eq m1 m2) with (Zpos m1 ?= Zpos m2).
  destruct (Z.compare_spec e1 e2); destruct (Z.compare_spec (Zpos m1) (Zpos m2));
    split; intro Hc; try discriminate Hc; try reflexivity; lia.
Qed.

(** [x < y] on floats is the order of the ranks. *)
Lemma ltb_rank (x y : float) :
  F64.ltb x y = true <->
  ordered x /\ ordered y /\ rank_lt (rank x) (rank y).
Proof.
  unfold F64.ltb, SFltb, ordered.
  destruct x as [[|] | [|] | | [|] m1 e1]; destruct y as [[|] | [|] | | [|] m2 e2];
    cbn [SFcompare rank rank_lt];
    try (split; [intro H; discriminate H | intros [H1 [H2 H3]]; try congruence; lia]);
    try (split; [intros _; repeat split; try discriminate; lia | reflexivity]).
  - destruct (finite_compare_opp e1 e2 m1 m2) as [H1 H2].
    split.
    + intro H.
      destruct (match e1 ?= e2 with
                | Lt => Gt | Gt => Lt
                | Eq => CompOpp (Pos.compare_cont Eq m1 m2) end) eqn:E;
        try discriminate H.
      specialize (H1 eq_refl). repeat split; try discriminate. lia.
    + intros [_ [_ H]]. rewrite H2 by lia. reflexivity.
  - destruct (finite_compare e1 e2 m1 m2) as [H1 H2].
    split.
    + intro H.
      destruct (match e1 ?= e2 with
                | Lt => Lt | Gt => Gt
                | Eq => Pos.compare_cont Eq m1 m2 end) eqn:E;
        try discriminate H.
      specialize (H1 eq_refl). repeat split; try discriminate. lia.
    + intros [_ [_ H]]. rewrite H2 by lia. reflexivity.
Qed.

Lemma leb_rank (x y : float) :
  F64.leb x y = true <->
  ordered x /\ ordered y /\ (rank_lt (rank x) (rank y) \/ rank x = rank y).
Proof.
  unfold F64.leb, SFleb, ordered.
  destruct x as [[|] | [|] | | [|] m1 e1]; destruct y as [[|] | [|] | | [|] m2 e2];
    cbn [SFcompare rank rank_lt];
    try (split; [intro H; discriminate H
                | intros [H1 [H2 [H3 | H3]]]; try congruence; try lia;
                  try discriminate H3]);
    try (split; [intros _; repeat split; try discriminate;
                 try (left; lia); right; reflexivity
                | reflexivity]).
  - destruct (finite_compare_opp e1 e2 m1 m2) as [H1 H2].
    destruct (finite_compare_opp_eq e1 e2 m1 m2) as [H3 H4].
    split.
    + intro H.
      destruct (match e1 ?= e2 with
                | Lt => Gt | Gt => Lt
                | Eq => CompOpp (Pos.compare_cont Eq m1 m2) end) eqn:E;
        try discriminate H; repeat split; try discriminate.
      * right. destruct (H3 eq_refl) as [-> Hm]. injection Hm as ->. reflexivity.
      * left. specialize (H1 eq_refl). lia.
    + intros [_ [_ [H | H]]].
      * rewrite H2 by lia. reflexivity.
      * injection H as He Hm. rewrite H4 by lia. reflexivity.
  - destruct (finite_compare e1 e2 m1 m2) as [H1 H2].
    destruct (finite_compare_eq e1 e2 m1 m2) as [H3 H4].
    split.
    + intro H.
      destruct (match e1 ?= e2 with
                | Lt => Lt | Gt => Gt
                | Eq => Pos.compare_cont Eq m1 m2 end) eqn:E;
        try discriminate H; repeat split; try discriminate.
      * right. destruct (H3 eq_refl) as [-> Hm]. injection Hm as ->. reflexivity.
      * left. specialize (H1 eq_refl). lia.
    + intros [_ [_ [H | H]]].
      * rewrite H2 by lia. reflexivity.
      * injection H as He Hm. rewrite H4 by lia. reflexivity.
Qed.

Lemma rank_lt_trans (a b c : Z * Z * Z) :
  rank_lt a b -> rank_lt b c -> rank_lt a c.
Proof.
  destruct a as [[a1 a2] a3], b as [[b1 b2] b3], c as [[c1 c2] c3].
  unfold rank_lt. lia.
Qed.

Lemma ltb_leb_trans (x y z : float) :
  F64.ltb x y = true -> F64.leb y z = true -> F64.ltb x z = true.
Proof.
  rewrite !ltb_rank, leb_rank.
  intros [Hx [_ Hxy]] [_ [Hz [Hyz | Hyz]]]; repeat split; auto.
  - exact (rank_lt_trans _ _ _ Hxy Hyz).
  - rewrite <- Hyz. exact Hxy.
Qed.

Lemma leb_trans (x y z : float) :
  F64.leb x y = true -> F64.leb y z = true -> F64.leb x z = true.
Proof.
  rewrite !leb_rank.
  intros [Hx [_ Hxy]] [_ [Hz Hyz]]; repeat split; auto.
  destruct Hxy as [Hxy | Hxy]; destruct Hyz as [Hyz | Hyz].
  - left. exact (rank_lt_trans _ _ _ Hxy Hyz).
  - left. rewrite <- Hyz. exact Hxy.
  - left. rewrite Hxy. exact Hyz.
  - right. congruence.
Qed.

Lemma leb_refl (x : float) : ordered x -> F64.leb x x = true.
Proof.
  intro Hx. apply leb_rank. repeat split; auto.
Qed.

(** *** SignalPolicy: [check_buy_parameters] *)

Lemma check_buy_true_iff (p : trade_parameters)
    (rsi day_volume current_buy_price : option float) :
  check_buy_parameters p rsi day_volume current_buy_price = Ok true <->
  exists r v a,
    rsi = Some r /\ day_volume = Some v /\ current_buy_price = Some a /\
    F64.leb r (buy_rsiThreshold p) = true /\
    F64.leb (buy_24HourVolumeThreshold p) v = true /\
    F64.ltb (buy_minimumUnitPrice p) a = true.
Proof.
  unfold check_buy_parameters, number. split.
  - destruct rsi as [r|]; [|discriminate].
    destruct (F64.leb r (buy_rsiThreshold p)) eqn:Er; cbn [negb];
      [|discriminate].
    destruct day_volume as [v|]; cbn [rbind]; [|discriminate].
    destruct (F64.leb (buy_24HourVolumeThreshold p) v) eqn:Ev; cbn [negb];
      [|discriminate].
    destruct current_buy_price as [a|]; cbn [rbind]; [|discriminate].
    intro H. injection H as H. exists r, v, a. repeat split; assumption.
  - intros [r [v [a [-> [-> [-> [H1 [H2 H3]]]]]]]].
    rewrite H1. cbn [negb rbind]. rewrite H2. cbn [negb]. rewrite H3.
    reflexivity.
Qed.

(** X1: [check_buy_parameters] answers [True] exactly when the RSI, the
    volume and the ask price are all present and pass their thresholds;
    it raises, and then a [TypeError], exactly when the RSI passes and the
    volume is [None], or the volume passes too and the price is [None];
    without an RSI it answers [False] whatever else is missing. *)
Theorem check_buy_parameters_cases :
  forall (p : trade_parameters) (rsi day_volume current_buy_price : option float),
    (check_buy_parameters p rsi day_volume current_buy_price = Ok true <->
     exists r v a,
       rsi = Some r /\ day_volume = Some v /\ current_buy_price = Some a /\
       F64.leb r (buy_rsiThreshold p) = true /\
       F64.leb (buy_24HourVolumeThreshold p) v = true /\
       F64.ltb (buy_minimumUnitPrice p) a = true)
    /\
    (check_buy_parameters p rsi day_volume current_buy_price = Raise TypeError <->
     exists r,
       rsi = Some r /\ F64.leb r (buy_rsiThreshold p) = true /\
       (day_volume = None \/
        exists v, day_volume = Some v /\
                  F64.leb (buy_24HourVolumeThreshold p) v = true /\
                  current_buy_price = None))
    /\
    (forall e,
        check_buy_parameters p rsi day_volume current_buy_price = Raise e ->
        e = TypeError)
    /\ check_buy_parameters p None day_volume current_buy_price = Ok false.
Proof.
  intros p rsi day_volume current_buy_price.
  split; [apply check_buy_true_iff|].
  split; [|split; [|reflexivity]].
  - unfold check_buy_parameters, number. split.
    + destruct rsi as [r|]; [|discriminate].
      destruct (F64.leb r (buy_rsiThreshold p)) eqn:Er; cbn [negb];
        [|discriminate].
      destruct day_volume as [v|]; cbn [rbind];
        [|intros _; exists r; split; [reflexivity|]; split; [exact Er|];
          left; reflexivity].
      destruct (F64.leb (buy_24HourVolumeThreshold p) v) eqn:Ev; cbn [negb];
        [|discriminate].
      destruct current_buy_price as [a|]; cbn [rbind]; [discriminate|].
      intros _. exists r. split; [reflexivity|]. split; [exact Er|].
      right. exists v. repeat split; assumption.
    + intros [r [-> [Hr [-> | [v [-> [Hv ->]]]]]]]; rewrite Hr; cbn [negb rbind];
        [reflexivity|].
      rewrite Hv. reflexivity.
  - unfold check_buy_parameters, number. intro e.
    destruct rsi as [r|]; [|discriminate].
    destruct (F64.leb r (buy_rsiThreshold p)); cbn [negb]; [|discriminate].
    destruct day_volume as [v|]; cbn [rbind]; [|congruence].
    destruct (F64.leb (buy_24HourVolumeThreshold p) v); cbn [negb];
      [|discriminate].
    destruct current_buy_price as [a|]; cbn [rbind]; congruence.
Qed.

(** X2: a [True] answer of [check_buy_parameters] is kept when the RSI
    goes down, the volume up or the ask price up. *)
Theorem check_buy_parameters_monotone :
  forall (p : trade_parameters) (r r' v v' a a' : float),
    check_buy_parameters p (Some r) (Some v) (Some a) = Ok true ->
    F64.leb r' r = true -> F64.leb v v' = true -> F64.leb a a' = true ->
    check_buy_parameters p (Some r') (Some v') (Some a') = Ok true.
Proof.
  intros p r r' v v' a a' Hbuy Hr Hv Ha.
  apply check_buy_true_iff in Hbuy.
  destruct Hbuy as [r0 [v0 [a0 [Er [Ev [Ea [H1 [H2 H3]]]]]]]].
  injection Er as <-. injection Ev as <-. injection Ea as <-.
  apply check_buy_true_iff.
  exists r', v', a'. repeat split; try reflexivity.
  - exact (leb_trans _ _ _ Hr H1).
  - exact (leb_trans _ _ _ H2 Hv).
  - exact (ltb_leb_trans _ _ _ H3 Ha).
Qed.

Lemma check_buy_parameters_monotone_witness :
  check_buy_parameters scenario_parameters (Some (F64.of_int 30))
    (Some (F64.of_int 2000)) (Some (F64.of_int 1)) = Ok true.
Proof.
  apply (check_buy_parameters_monotone scenario_parameters
           (F64.of_int 40) (F64.of_int 30) (F64.of_int 1000) (F64.of_int 2000)
           (F64.decimal 1 3) (F64.of_int 1));
    vm_compute; reflexivity.
Defined.

(** X3: at the thresholds themselves the rules follow their operators:
    an RSI or a volume equal to its threshold passes ([<=], [>=]), an ask
    price equal to the minimum never does ([>]); a NaN RSI never buys, and
    leaves [check_sell_parameters] to the profit margin alone. *)
Theorem thresholds_at_equality :
  forall (p : trade_parameters) (r vol a margin : float)
         (rsi v : option float),
    (ordered (buy_rsiThreshold p) ->
     (check_buy_parameters p (Some (buy_rsiThreshold p)) (Some vol) (Some a)
      = Ok true <->
      F64.leb (buy_24HourVolumeThreshold p) vol = true /\
      F64.ltb (buy_minimumUnitPrice p) a = true))
    /\
    (ordered (buy_24HourVolumeThreshold p) ->
     (check_buy_parameters p (Some r) (Some (buy_24HourVolumeThreshold p))
        (Some a) = Ok true <->
      F64.leb r (buy_rsiThreshold p) = true /\
      F64.ltb (buy_minimumUnitPrice p) a = true))
    /\ check_buy_parameters p rsi v (Some (buy_minimumUnitPrice p)) <> Ok true
    /\ check_buy_parameters p (Some S754_nan) v (Some a) = Ok false
    /\ check_sell_parameters p (Some S754_nan) margin
       = F64.ltb (sell_profitMarginThreshold p) margin.
Proof.
  intros p r vol a margin rsi v.
  split; [|split; [|split; [|split]]].
  - intro Hthr. rewrite check_buy_true_iff. split.
    + intros [r0 [v0 [a0 [_ [Ev [Ea [_ [H2 H3]]]]]]]].
      injection Ev as <-. injection Ea as <-. auto.
    + intros [H2 H3]. exists (buy_rsiThreshold p), vol, a.
      repeat split; auto. apply leb_refl. exact Hthr.
  - intro Hthr. rewrite check_buy_true_iff. split.
    + intros [r0 [v0 [a0 [Er [_ [Ea [H1 [_ H3]]]]]]]].
      injection Er as <-. injection Ea as <-. auto.
    + intros [H1 H3]. exists r, (buy_24HourVolumeThreshold p), a.
      repeat split; auto. apply leb_refl. exact Hthr.
  - rewrite check_buy_true_iff.
    intros [r0 [v0 [a0 [_ [_ [Ea [_ [_ H3]]]]]]]].
    injection Ea as <-. rewrite ltb_irrefl in H3. discriminate H3.
  - reflexivity.
  - unfold check_sell_parameters.
    replace (F64.leb (sell_rsiThreshold p) S754_nan) with false; [reflexivity|].
    destruct (sell_rsiThreshold p) as [[|] | [|] | | [|] m e]; reflexivity.
Qed.

Lemma thresholds_at_equality_witness :
  check_buy_parameters scenario_parameters
    (Some (buy_rsiThreshold scenario_parameters)) (Some (F64.of_int 1000))
    (Some (F64.of_int 1)) = Ok true.
Proof.
  apply (proj1 (thresholds_at_equality scenario_parameters (F64.of_int 1)
                  (F64.of_int 1000) (F64.of_int 1) (F64.of_int 1) None None)).
  - discriminate.
  - split; reflexivity.
Defined.

(** *** What a computation adds to the world *)

Section Keeps.

Context {db : Type}.
Variable P : event -> bool.

Lemma keeps_ret {A : Type} (a : A) : keeps (db := db) P (ret a).
Proof.
  intro w. exists []. cbn. rewrite app_nil_r. repeat split; auto. lia.
Qed.

Lemma keeps_lift {A : Type} (r : result A) : keeps (db := db) P (lift r).
Proof.
  intro w. exists []. cbn. rewrite app_nil_r. repeat split; auto. lia.
Qed.

Lemma keeps_emit (e : event) : P e = true -> keeps (db := db) P (emit e).
Proof.
  intros He w. exists [e]. cbn. rewrite He. repeat split; auto. lia.
Qed.

Lemma keeps_bind {A B : Type} (m : M db A) (k : A -> M db B) :
  keeps P m -> (forall a, keeps P (k a)) -> keeps P (bind m k).
Proof.
  intros Hm Hk w. destruct (Hm w) as [evs1 [Ht1 [Hp1 [Hn1 Hd1]]]].
  unfold bind. destruct (m w) as [[a | e |] w1]; cbn [snd] in *.
  - destruct (Hk a w1) as [evs2 [Ht2 [Hp2 [Hn2 Hd2]]]].
    exists (evs1 ++ evs2). rewrite Ht2, Ht1, app_assoc.
    split; [reflexivity|]. rewrite forallb_app, Hp1, Hp2.
    split; [reflexivity|]. split; [lia|].
    rewrite existsb_app. intro H. apply orb_false_iff in H.
    destruct H as [H1 H2]. rewrite (Hd2 H2). exact (Hd1 H1).
  - exists evs1. auto.
  - exists evs1. auto.
Qed.

End Keeps.

Lemma keeps_weaken {db A : Type} (P Q : event -> bool) (m : M db A) :
  (forall e, P e = true -> Q e = true) -> keeps P m -> keeps Q m.
Proof.
  intros HPQ Hm w. destruct (Hm w) as [evs [Ht [Hp [Hn Hd]]]].
  exists evs. repeat split; auto.
  rewrite forallb_forall in *. auto.
Qed.

Section KeepsProgram.

Context {db : Type}.
Variable Database : database_class db.
Variable Bittrex : exchange.
Variable params : trade_parameters.
Variable btc_coin_pairs : list string.
Variable fuel : nat.
Variable P : event -> bool.

Lemma keeps_request {A : Type} (e : event) (answer : list event -> result A) :
  P e = true -> keeps P (request (db := db) Bittrex e answer).
Proof.
  intros He w. exists [e]. cbn. rewrite He.
  pose proof (N2Z.is_nonneg (bx_request_time Bittrex (trace w))).
  repeat split; auto. lia.
Qed.

Lemma keeps_time_time : keeps P (time_time (db := db)).
Proof.
  intro w. exists []. cbn. rewrite app_nil_r. repeat split; auto. lia.
Qed.

Lemma keeps_time_sleep (seconds : Z) :
  P (Sleep seconds) = true -> 0 <= seconds ->
  keeps P (time_sleep (db := db) seconds).
Proof.
  intros He Hs w. exists [Sleep seconds]. cbn. rewrite He.
  repeat split; auto. lia.
Qed.

Lemma keeps_tracked : keeps P (tracked Database).
Proof.
  intro w. exists []. cbn. rewrite app_nil_r. repeat split; auto. lia.
Qed.

Lemma keeps_database_read {A : Type} (e : event) (f : db -> result A) :
  P e = true -> keeps P (database_read e f).
Proof.
  intros He w. exists [e]. cbn. rewrite He. repeat split; auto. lia.
Qed.

Lemma keeps_database_write (e : event) (f : db -> db) :
  P e = true -> is_store e = true -> keeps P (database_write e f).
Proof.
  intros He Hs w. exists [e]. cbn. rewrite He, Hs.
  repeat split; auto; try lia; try discriminate.
Qed.

End KeepsProgram.

(** *** The life of an order, whatever the exchange answers *)

Section OrderAnswers.

Context {db : Type}.
Variable Bittrex : exchange.
Variable fuel : nat.
Variable order_uuid : string.
Variable trade_time_limit : Z.

(** The exchange answers or raises. *)
Hypothesis get_order_answers :
  forall h, bx_get_order Bittrex h order_uuid <> OutOfFuel.

Lemma slept_app (xs ys : list event) : slept (xs ++ ys) = slept xs + slept ys.
Proof.
  induction xs as [|e xs IH]; [reflexivity|].
  cbn [app slept fold_right]. fold (slept (xs ++ ys)). fold (slept xs).
  rewrite IH. destruct e; lia.
Qed.

(** The loop ends, because every turn sleeps: it has only slept and
    queried, an order it returns open has outlived the limit, and what it
    returns is the answer to the last query. *)
Lemma poll_ends (start_time : Z) :
  forall (n : nat) (o : order_result) (w : world db),
    start_time + trade_time_limit - now w < 10 * Z.of_nat n ->
    (exists h, trace w = h ++ [BittrexGetOrder order_uuid] /\
               bx_get_order Bittrex h order_uuid = Ok o) ->
    exists r w' evs h,
      poll (db := db) Bittrex n order_uuid start_time trade_time_limit o w
        = (r, w') /\
      r <> OutOfFuel /\
      trace w' = trace w ++ evs /\
      forallb (is_poll_event order_uuid) evs = true /\
      slept evs <= Z.max 0 (start_time + trade_time_limit + 10 - now w) /\
      database w' = database w /\
      now w + slept evs <= now w' /\
      trace w' = h ++ [BittrexGetOrder order_uuid] /\
      bx_get_order Bittrex h order_uuid = r /\
      (forall o', r = Ok o' -> IsOpen o' = true ->
                  trade_time_limit < now w' - start_time).
Proof.
  induction n as [|n IH]; intros o w Hfuel [h [Hh Ho]].
  - exists (Ok o), w, [], h. simpl. unfold bind, time_time, ret.
    destruct (now w - start_time <=? trade_time_limit) eqn:E.
    + apply Z.leb_le in E. simpl in Hfuel. lia.
    + apply Z.leb_gt in E. simpl. rewrite app_nil_r.
      repeat split; auto; try lia; try discriminate.
  - simpl. unfold bind at 1. unfold time_time at 1.
    destruct ((now w - start_time <=? trade_time_limit) && IsOpen o) eqn:E.
    + apply andb_true_iff in E. destruct E as [E Hopen].
      apply Z.leb_le in E.
      unfold bind at 1. unfold time_sleep at 1.
      unfold bind at 1. unfold request at 1. cbn [now trace database].
      pose proof (N2Z.is_nonneg (bx_request_time Bittrex (trace w ++ [Sleep 10])))
        as Hpos.
      pose proof (get_order_answers (trace w ++ [Sleep 10])) as Hans.
      set (w2 := World (now w + 10
                        + Z.of_N (bx_request_time Bittrex (trace w ++ [Sleep 10])))
                   ((trace w ++ [Sleep 10]) ++ [BittrexGetOrder order_uuid])
                   (database w)).
      destruct (bx_get_order Bittrex (trace w ++ [Sleep 10]) order_uuid)
        as [o2 | e |] eqn:Ho2.
      * destruct (IH o2 w2) as [r [w' [evs [h' H]]]].
        -- subst w2. cbn [now]. lia.
        -- exists (trace w ++ [Sleep 10]). subst w2. simpl. auto.
        -- destruct H as [Hrun [Hr [Htr [Hevs [Hsl [Hdb [Hnow [Hlast [Hanswer Hlate]]]]]]]]].
           exists r, w', ([Sleep 10; BittrexGetOrder order_uuid] ++ evs), h'.
           rewrite slept_app. change (slept [Sleep 10; BittrexGetOrder order_uuid])
             with 10.
           subst w2. cbn [now trace database] in *.
           repeat split; auto; try lia.
           ++ rewrite Htr. rewrite <- !app_assoc. reflexivity.
           ++ simpl. rewrite String.eqb_refl. exact Hevs.
      * exists (Raise e), w2, [Sleep 10; BittrexGetOrder order_uuid],
          (trace w ++ [Sleep 10]).
        subst w2. cbn [now trace database].
        change (slept [Sleep 10; BittrexGetOrder order_uuid]) with 10.
        repeat split; auto; try lia; try discriminate.
        -- rewrite <- !app_assoc. reflexivity.
        -- simpl. rewrite String.eqb_refl. reflexivity.
      * contradiction Hans. reflexivity.
    + unfold ret. exists (Ok o), w, [], h. rewrite app_nil_r.
      change (slept []) with 0.
      repeat split; auto; try lia; try discriminate.
      intros o' Ho' Hopen. injection Ho' as <-.
      rewrite Hopen, andb_true_r in E. apply Z.leb_gt in E. lia.
Qed.

End OrderAnswers.

Section GetOrderOutcomes.

Context {db : Type}.
Variable Bittrex : exchange.
Variable fuel : nat.

Lemma slept_poll_events (order_uuid : string) (evs : list event) :
  forallb (is_poll_event order_uuid) evs = true -> 0 <= slept evs.
Proof.
  induction evs as [|e evs IH]; [cbn; lia|].
  cbn [forallb]. intro Hevs. apply andb_true_iff in Hevs.
  destruct Hevs as [He Hevs]. specialize (IH Hevs).
  cbn [slept fold_right]. fold (slept evs).
  destruct e; try discriminate He; try lia.
  cbn in He. apply Z.eqb_eq in He. lia.
Qed.

(** [get_order] up to the exit of its loop. *)
Lemma await_order_ends (order_uuid : string) (trade_time_limit : Z)
    (w : world db) :
  trade_time_limit < 10 * Z.of_nat fuel ->
  (forall h, bx_get_order Bittrex h order_uuid <> OutOfFuel) ->
  exists r w1 polls h,
    await_order Bittrex fuel order_uuid trade_time_limit w = (r, w1) /\
    r <> OutOfFuel /\
    forallb (is_poll_event order_uuid) polls = true /\
    slept polls <= Z.max 0 (trade_time_limit + 10) /\
    database w1 = database w /\
    now w <= now w1 /\
    trace w1 = trace w ++ polls /\
    trace w1 = h ++ [BittrexGetOrder order_uuid] /\
    bx_get_order Bittrex h order_uuid = r /\
    (forall o, r = Ok o -> IsOpen o = true ->
               trade_time_limit < now w1 - now w).
Proof.
  intros Hfuel Hquery.
  pose proof (N2Z.is_nonneg (bx_request_time Bittrex (trace w))) as Hpos.
  set (w0 := World (now w + Z.of_N (bx_request_time Bittrex (trace w)))
               (trace w ++ [BittrexGetOrder order_uuid]) (database w)).
  pose proof (Hquery (trace w)) as Hq0.
  destruct (bx_get_order Bittrex (trace w) order_uuid) as [o0 | e |] eqn:Ho0.
  - destruct (poll_ends Bittrex order_uuid trade_time_limit Hquery (now w)
                fuel o0 w0) as [r [w1 [evs [h H]]]].
    + subst w0. cbn [now]. lia.
    + exists (trace w). subst w0. cbn [trace]. auto.
    + destruct H as [Hrun [Hr [Htr [Hevs [Hsl [Hdb [Hnow [Hlast [Hans Hlate]]]]]]]]].
      pose proof (slept_poll_events order_uuid evs Hevs) as Hsl0.
      subst w0. cbn [now trace database] in *.
      exists r, w1, ([BittrexGetOrder order_uuid] ++ evs), h.
      split.
      { unfold await_order, bind, time_time, request. rewrite Ho0.
        exact Hrun. }
      split; [exact Hr|].
      split; [simpl; rewrite String.eqb_refl; exact Hevs|].
      split.
      { rewrite slept_app. change (slept [BittrexGetOrder order_uuid]) with 0.
        lia. }
      split; [exact Hdb|]. split; [lia|].
      split; [rewrite Htr, <- app_assoc; reflexivity|].
      split; [exact Hlast|]. split; [exact Hans | exact Hlate].
  - exists (Raise e), w0, [BittrexGetOrder order_uuid], (trace w).
    split.
    { unfold await_order, bind, time_time, request. rewrite Ho0.
      reflexivity. }
    subst w0. cbn [now trace database].
    split; [discriminate|].
    split; [simpl; rewrite String.eqb_refl; reflexivity|].
    split; [change (slept [BittrexGetOrder order_uuid]) with 0; lia|].
    split; [reflexivity|]. split; [lia|].
    split; [reflexivity|]. split; [reflexivity|].
    split; [exact Ho0 | discriminate].
  - contradiction Hq0. reflexivity.
Qed.

(** [get_order] from the exit of its loop. *)
Lemma get_order_after_await (order_uuid : string) (trade_time_limit : Z)
    (w w1 : world db) (r : result order_result) :
  await_order Bittrex fuel order_uuid trade_time_limit w = (r, w1) ->
  get_order Bittrex fuel order_uuid trade_time_limit w
  = match r with
    | Ok o =>
        if IsOpen o then
          let h := trace w1 ++
                   [Messenger (print_order_error order_uuid trade_time_limit
                                 (Exchange o));
                    LoggerError (OrderError order_uuid trade_time_limit
                                   (Exchange o))] in
          (match bx_cancel Bittrex h order_uuid with
           | Ok _ => Ok o
           | Raise e => Raise e
           | OutOfFuel => OutOfFuel
           end,
           World (now w1 + Z.of_N (bx_request_time Bittrex h))
             (trace w1 ++ cancellation order_uuid trade_time_limit o)
             (database w1))
        else (Ok o, w1)
    | Raise e => (Raise e, w1)
    | OutOfFuel => (OutOfFuel, w1)
    end.
Proof.
  intro Hawait. unfold get_order, bind. rewrite Hawait.
  destruct r as [o | e |]; try reflexivity.
  destruct (IsOpen o); [|reflexivity].
  unfold emit, request, ret, cancellation. cbn [now trace database].
  rewrite <- !app_assoc. cbn [app].
  destruct (bx_cancel Bittrex _ order_uuid); reflexivity.
Qed.

(** X4: whatever the exchange answers to the queries of an order,
    [get_order] ends once the fuel covers the limit, having slept at most
    the limit and ten seconds and left the ledger alone. The snapshot it
    returns is the answer to its last query; if that is closed nothing
    but queries and sleeps were made, if it is open the error was printed
    and logged and one cancel request sent, after the limit had passed. An
    exception comes from the last query or from the cancel request. *)
Theorem get_order_outcomes :
  forall (order_uuid : string) (trade_time_limit : Z) (w : world db),
    trade_time_limit < 10 * Z.of_nat fuel ->
    (forall h, bx_get_order Bittrex h order_uuid <> OutOfFuel) ->
    (forall h, bx_cancel Bittrex h order_uuid <> OutOfFuel) ->
    exists r w' polls h,
      get_order Bittrex fuel order_uuid trade_time_limit w = (r, w') /\
      r <> OutOfFuel /\
      forallb (is_poll_event order_uuid) polls = true /\
      slept polls <= Z.max 0 (trade_time_limit + 10) /\
      database w' = database w /\
      trace w ++ polls = h ++ [BittrexGetOrder order_uuid] /\
      match r with
      | Ok o =>
          bx_get_order Bittrex h order_uuid = Ok o /\
          if IsOpen o
          then trace w' = trace w ++ polls
                          ++ cancellation order_uuid trade_time_limit o /\
               trade_time_limit < now w' - now w
          else trace w' = trace w ++ polls
      | Raise e =>
          (bx_get_order Bittrex h order_uuid = Raise e /\
           trace w' = trace w ++ polls)
          \/
          (exists o,
              bx_get_order Bittrex h order_uuid = Ok o /\ IsOpen o = true /\
              trace w' = trace w ++ polls
                         ++ cancellation order_uuid trade_time_limit o /\
              bx_cancel Bittrex
                (removelast (trace w')) order_uuid = Raise e)
      | OutOfFuel => False
      end.
Proof.
  intros order_uuid trade_time_limit w Hfuel Hquery Hcancel.
  destruct (await_order_ends order_uuid trade_time_limit w Hfuel Hquery)
    as [r [w1 [polls [h H]]]].
  destruct H as [Hawait [Hr [Hpolls [Hsl [Hdb [Hnow [Htr [Hlast [Hans Hlate]]]]]]]]].
  pose proof (get_order_after_await order_uuid trade_time_limit w w1 r Hawait)
    as Hget.
  assert (Hprefix : trace w ++ polls = h ++ [BittrexGetOrder order_uuid])
    by (rewrite <- Htr; exact Hlast).
  destruct r as [o | e |].
  - destruct (IsOpen o) eqn:Hopen.
    + cbv zeta in Hget.
      set (h2 := trace w1 ++
             [Messenger (print_order_error order_uuid trade_time_limit
                           (Exchange o));
              LoggerError (OrderError order_uuid trade_time_limit
                             (Exchange o))]) in *.
      pose proof (Hcancel h2) as Hc.
      pose proof (N2Z.is_nonneg (bx_request_time Bittrex h2)) as Hpos2.
      assert (Hlast2 : removelast
                         (trace w1 ++ cancellation order_uuid trade_time_limit o)
                       = h2).
      { unfold cancellation.
        change [Messenger (print_order_error order_uuid trade_time_limit
                             (Exchange o));
                LoggerError (OrderError order_uuid trade_time_limit
                               (Exchange o));
                BittrexCancel order_uuid]
          with ([Messenger (print_order_error order_uuid trade_time_limit
                              (Exchange o));
                 LoggerError (OrderError order_uuid trade_time_limit
                                (Exchange o))] ++ [BittrexCancel order_uuid]).
        rewrite app_assoc. apply removelast_last. }
      eexists _, _, polls, h. split; [exact Hget|].
      destruct (bx_cancel Bittrex h2 order_uuid) as [ack | e |] eqn:Hack.
      * split; [discriminate|]. split; [exact Hpolls|].
        split; [exact Hsl|]. split; [exact Hdb|].
        split; [exact Hprefix|]. split; [exact Hans|].
        rewrite Hopen. cbn [trace now].
        split; [rewrite Htr, <- app_assoc; reflexivity|].
        specialize (Hlate o eq_refl Hopen). lia.
      * split; [discriminate|]. split; [exact Hpolls|].
        split; [exact Hsl|]. split; [exact Hdb|].
        split; [exact Hprefix|]. right. exists o.
        split; [exact Hans|]. split; [exact Hopen|]. cbn [trace].
        split; [rewrite Htr, <- app_assoc; reflexivity|].
        rewrite Hlast2. exact Hack.
      * contradiction Hc. reflexivity.
    + exists (Ok o), w1, polls, h.
      split; [exact Hget|].
      split; [discriminate|]. split; [exact Hpolls|].
      split; [exact Hsl|]. split; [exact Hdb|].
      split; [exact Hprefix|]. split; [exact Hans|].
      rewrite Hopen. exact Htr.
  - exists (Raise e), w1, polls, h.
    split; [exact Hget|].
    split; [discriminate|]. split; [exact Hpolls|].
    split; [exact Hsl|]. split; [exact Hdb|].
    split; [exact Hprefix|]. left. split; [exact Hans | exact Htr].
  - contradiction Hr. reflexivity.
Qed.

End GetOrderOutcomes.

(** An order that closes at once on the simulated exchange. *)
Lemma get_order_outcomes_witness :
  exists r w' polls h,
    get_order eager_exchange 13 "BTC-ETH" 120 empty_world = (r, w') /\
    r <> OutOfFuel /\
    forallb (is_poll_event "BTC-ETH") polls = true /\
    slept polls <= Z.max 0 (120 + 10) /\
    database w' = database empty_world /\
    trace empty_world ++ polls = h ++ [BittrexGetOrder "BTC-ETH"] /\
    match r with
    | Ok o =>
        bx_get_order eager_exchange h "BTC-ETH" = Ok o /\
        if IsOpen o
        then trace w' = trace empty_world ++ polls
                        ++ cancellation "BTC-ETH" 120 o /\
             120 < now w' - now empty_world
        else trace w' = trace empty_world ++ polls
    | Raise e =>
        (bx_get_order eager_exchange h "BTC-ETH" = Raise e /\
         trace w' = trace empty_world ++ polls)
        \/
        (exists o,
            bx_get_order eager_exchange h "BTC-ETH" = Ok o /\ IsOpen o = true /\
            trace w' = trace empty_world ++ polls
                       ++ cancellation "BTC-ETH" 120 o /\
            bx_cancel eager_exchange (removelast (trace w')) "BTC-ETH" = Raise e)
    | OutOfFuel => False
    end.
Proof.
  apply (get_order_outcomes eager_exchange 13 "BTC-ETH" 120 empty_world).
  - simpl. lia.
  - intro h. discriminate.
  - intro h. discriminate.
Defined.

(** *** The footprint of the strategies *)

Ltac keeps_event := unfold reading; cbn; rewrite ?String.eqb_refl, ?orb_true_r; reflexivity.

Ltac keeps_step :=
  first
    [ apply keeps_ret
    | apply keeps_lift
    | apply keeps_time_time
    | apply keeps_tracked
    | apply keeps_emit; keeps_event
    | apply keeps_request; keeps_event
    | apply keeps_database_read; keeps_event
    | apply keeps_database_write; [keeps_event | reflexivity]
    | apply keeps_time_sleep; [keeps_event | lia]
    | apply keeps_bind; [| intro] ].

Section Footprint.

Context {db : Type}.
Variable Database : database_class db.
Variable Bittrex : exchange.
Variable params : trade_parameters.
Variable btc_coin_pairs : list string.
Variable fuel : nat.

Lemma keeps_poll (order_uuid : string) (start_time trade_time_limit : Z) :
  forall (n : nat) (o : order_result),
    keeps (db := db) (order_event order_uuid)
      (poll Bittrex n order_uuid start_time trade_time_limit o).
Proof.
  induction n as [|n IH]; intro o; cbn [poll].
  - apply keeps_bind; [apply keeps_time_time | intro t].
    destruct (_ && _); keeps_step.
  - apply keeps_bind; [apply keeps_time_time | intro t].
    destruct (_ && _); [|keeps_step].
    apply keeps_bind; [keeps_step | intros _].
    apply keeps_bind; [keeps_step | intro o2]. apply IH.
Qed.

Lemma keeps_get_order (order_uuid : string) (trade_time_limit : Z) :
  keeps (db := db) (order_event order_uuid)
    (get_order Bittrex fuel order_uuid trade_time_limit).
Proof.
  unfold get_order, await_order.
  apply keeps_bind.
  - apply keeps_bind; [keeps_step | intro t].
    apply keeps_bind; [keeps_step | intro o]. apply keeps_poll.
  - intro o. destruct (IsOpen o); repeat keeps_step.
Qed.

Lemma order_event_any (order_uuid : string) (e : event) :
  order_event order_uuid e = true -> any_order_event e = true.
Proof.
  destruct e as [| | | | | | | | | | | m | l | |]; cbn; try discriminate; auto;
    try (destruct m; cbn; try discriminate; auto);
    try (destruct l; cbn; try discriminate; auto).
Qed.

Lemma keeps_get_current_price (coin_pair price_type : string) :
  keeps (db := db) (market_read coin_pair)
    (get_current_price Bittrex coin_pair price_type).
Proof.
  unfold get_current_price.
  apply keeps_bind; [keeps_step | intro s].
  destruct (negb (ms_success s)); [repeat keeps_step|].
  destruct (String.eqb price_type "ask"); [keeps_step|].
  destruct (String.eqb price_type "bid"); keeps_step.
Qed.

Lemma keeps_get_current_24hr_volume (coin_pair : string) :
  keeps (db := db) (market_read coin_pair)
    (get_current_24hr_volume Bittrex coin_pair).
Proof.
  unfold get_current_24hr_volume.
  apply keeps_bind; [keeps_step | intro s].
  destruct (negb (ms_success s)); repeat keeps_step.
Qed.

Lemma keeps_calculate_RSI (coin_pair : string) (period : Z) (unit : string) :
  keeps (db := db) (market_read coin_pair)
    (calculate_RSI Bittrex coin_pair period unit).
Proof.
  unfold calculate_RSI, get_closing_prices. repeat keeps_step.
Qed.

Lemma market_read_buy_side (coin_pair : string) (e : event) :
  market_read coin_pair e = true -> buy_side coin_pair e = true.
Proof. intro H. unfold buy_side. rewrite H. reflexivity. Qed.

Lemma market_read_sell_side (coin_pair : string) (e : event) :
  market_read coin_pair e = true -> sell_side coin_pair e = true.
Proof. intro H. unfold sell_side. rewrite H. reflexivity. Qed.

Lemma order_event_buy_side (coin_pair order_uuid : string) (e : event) :
  order_event order_uuid e = true -> buy_side coin_pair e = true.
Proof.
  intro H. unfold buy_side. rewrite (order_event_any _ _ H).
  rewrite orb_true_r. reflexivity.
Qed.

Lemma order_event_sell_side (coin_pair order_uuid : string) (e : event) :
  order_event order_uuid e = true -> sell_side coin_pair e = true.
Proof.
  intro H. unfold sell_side. rewrite (order_event_any _ _ H).
  rewrite orb_true_r. reflexivity.
Qed.

Lemma keeps_buy (coin_pair : string) (btc_quantity : float)
    (price : option float) (stats : buy_stats) (trade_time_limit : Z) :
  keeps (buy_side coin_pair)
    (buy Database Bittrex fuel coin_pair btc_quantity price stats
       trade_time_limit).
Proof.
  unfold buy.
  apply keeps_bind; [keeps_step | intro p].
  apply keeps_bind; [keeps_step | intro quantity].
  apply keeps_bind; [keeps_step | intro buy_data].
  destruct (negb (pl_success buy_data)); [keeps_step|].
  apply keeps_bind; [keeps_step | intros _].
  apply keeps_bind.
  - apply (keeps_weaken (order_event (pl_uuid buy_data)));
      [apply order_event_buy_side | apply keeps_get_order].
  - intro o. repeat keeps_step.
Qed.

Lemma keeps_sell (coin_pair : string) (price : option float)
    (stats : sell_stats) (trade_time_limit : Z) :
  keeps (sell_side coin_pair)
    (sell Database Bittrex fuel coin_pair price stats trade_time_limit).
Proof.
  unfold sell.
  apply keeps_bind; [keeps_step | intro quantity].
  apply keeps_bind; [keeps_step | intro sell_data].
  destruct (negb (pl_success sell_data)); [keeps_step|].
  apply keeps_bind.
  - apply (keeps_weaken (order_event (pl_uuid sell_data)));
      [apply order_event_sell_side | apply keeps_get_order].
  - intro o. repeat keeps_step.
Qed.

Lemma keeps_buy_strategy (coin_pair : string) :
  keeps (buy_side coin_pair)
    (buy_strategy Database Bittrex params fuel coin_pair).
Proof.
  unfold buy_strategy.
  apply keeps_bind; [keeps_step | intro pairs].
  destruct (existsb _ pairs); [keeps_step|].
  apply keeps_bind.
  { apply (keeps_weaken (market_read coin_pair));
      [apply market_read_buy_side | apply keeps_calculate_RSI]. }
  intro rsi. apply keeps_bind.
  { apply (keeps_weaken (market_read coin_pair));
      [apply market_read_buy_side | apply keeps_get_current_24hr_volume]. }
  intro day_volume. apply keeps_bind.
  { apply (keeps_weaken (market_read coin_pair));
      [apply market_read_buy_side | apply keeps_get_current_price]. }
  intro price. apply keeps_bind; [keeps_step | intro go].
  destruct go; [apply keeps_buy|].
  destruct rsi as [r|]; [|keeps_step].
  destruct (F64.leb r (F64.of_int 50)); keeps_step.
Qed.

Lemma keeps_sell_strategy (coin_pair : string) :
  keeps (sell_side coin_pair)
    (sell_strategy Database Bittrex params fuel coin_pair).
Proof.
  unfold sell_strategy.
  apply keeps_bind; [keeps_step | intro pairs].
  destruct (negb (existsb _ pairs)); [keeps_step|].
  apply keeps_bind.
  { apply (keeps_weaken (market_read coin_pair));
      [apply market_read_sell_side | apply keeps_calculate_RSI]. }
  intro rsi. apply keeps_bind.
  { apply (keeps_weaken (market_read coin_pair));
      [apply market_read_sell_side | apply keeps_get_current_price]. }
  intro price. apply keeps_bind; [keeps_step | intro margin].
  destruct (check_sell_parameters params rsi margin); [apply keeps_sell|].
  destruct rsi as [r|]; keeps_step.
Qed.

End Footprint.

Section KeepsUntil.

Context {db : Type}.
Variable Bittrex : exchange.
Variables G P : event -> bool.

Lemma keeps_until_bind {A B : Type} (m : M db A) (k : A -> M db B) :
  keeps_until G P m -> (forall a, keeps_until G P (k a)) ->
  keeps_until G P (bind m k).
Proof.
  intros Hm Hk w. destruct (Hm w) as [evs1 [Ht1 [Hp1 [Hn1 Hd1]]]].
  unfold bind. destruct (m w) as [[a | e |] w1]; cbn [snd] in *.
  - destruct (Hk a w1) as [evs2 [Ht2 [Hp2 [Hn2 Hd2]]]].
    exists (evs1 ++ evs2). rewrite Ht2, Ht1, app_assoc.
    split; [reflexivity|]. rewrite forallb_app, Hp1, Hp2.
    split; [reflexivity|]. split; [lia|].
    rewrite existsb_app. intro H. apply orb_false_iff in H.
    destruct H as [H1 H2]. rewrite (Hd2 H2). exact (Hd1 H1).
  - exists evs1. auto.
  - exists evs1. auto.
Qed.

Lemma reading_no_store (evs : list event) :
  forallb (reading P) evs = true ->
  forallb P evs = true /\ existsb is_store evs = false.
Proof.
  induction evs as [|e evs IH]; [auto|].
  cbn [forallb existsb]. intro H. apply andb_true_iff in H.
  destruct H as [He Hevs]. destruct (IH Hevs) as [Hp Hs].
  unfold reading in He. apply andb_true_iff in He. destruct He as [He1 He2].
  rewrite He1, Hp, Hs. destruct (is_store e); [discriminate He2 | auto].
Qed.

Lemma keeps_until_reading {A : Type} (m : M db A) :
  keeps (reading P) m -> keeps_until G P m.
Proof.
  intros Hm w. destruct (Hm w) as [evs [Ht [Hp [Hn Hd]]]].
  destruct (reading_no_store evs Hp) as [Hp' Hs].
  exists evs. repeat split; auto.
Qed.

Lemma keeps_until_trigger {A B : Type} (e : event)
    (answer : list event -> result A) (k : A -> M db B) :
  P e = true -> G e = true -> (forall a, keeps P (k a)) ->
  keeps_until G P (bind (request Bittrex e answer) k).
Proof.
  intros Hp Hg Hk w. unfold bind, request.
  pose proof (N2Z.is_nonneg (bx_request_time Bittrex (trace w))) as Hpos.
  destruct (answer (trace w)) as [a | ex |].
  - match goal with |- context [k a ?w1] =>
      destruct (Hk a w1) as [evs [Ht [Hps [Hn Hd]]]] end.
    cbn [now trace database] in *.
    exists (e :: evs). rewrite Ht, <- app_assoc.
    split; [reflexivity|]. cbn [forallb existsb]. rewrite Hp, Hps, Hg.
    split; [reflexivity|]. split; [lia | discriminate].
  - exists [e]. cbn. rewrite Hp, Hg.
    split; [reflexivity|]. split; [reflexivity|]. split; [lia | discriminate].
  - exists [e]. cbn. rewrite Hp, Hg.
    split; [reflexivity|]. split; [reflexivity|]. split; [lia | discriminate].
Qed.

End KeepsUntil.

Lemma market_read_reading (P : event -> bool) (coin_pair : string) (e : event) :
  (forall e, market_read coin_pair e = true -> P e = true) ->
  market_read coin_pair e = true -> reading P e = true.
Proof.
  intros HP H. unfold reading. rewrite (HP e H).
  destruct e as [| | | | | | | | | | | m | l | |]; cbn in *;
    try discriminate H; reflexivity.
Qed.

Section StrategyFootprint.

Context {db : Type}.
Variable Database : database_class db.
Variable Bittrex : exchange.
Variable params : trade_parameters.
Variable fuel : nat.

(** X5: whatever the exchange and the ledger answer, [buy_strategy] makes
    only calls that belong to buying on its market: it looks at no other
    market, sends no sell order, never writes a sale to the ledger and
    never prints a sale. It never sets the clock back, and it leaves the
    ledger as it was unless it has sent a buy order for the market. *)
Theorem buy_strategy_footprint :
  forall (coin_pair : string) (w : world db),
    exists evs,
      trace (snd (buy_strategy Database Bittrex params fuel coin_pair w))
        = trace w ++ evs /\
      forallb (buy_side coin_pair) evs = true /\
      now w <= now (snd (buy_strategy Database Bittrex params fuel coin_pair w)) /\
      (existsb (is_buy_order coin_pair) evs = false ->
       database (snd (buy_strategy Database Bittrex params fuel coin_pair w))
         = database w).
Proof.
  intro coin_pair.
  change (keeps_until (is_buy_order coin_pair) (buy_side coin_pair)
            (buy_strategy Database Bittrex params fuel coin_pair)).
  unfold buy_strategy.
  apply keeps_until_bind;
    [apply keeps_until_reading, keeps_tracked | intro pairs].
  destruct (existsb _ pairs); [apply keeps_until_reading, keeps_ret|].
  apply keeps_until_bind.
  { apply keeps_until_reading.
    apply (keeps_weaken (market_read coin_pair));
      [intro e; apply market_read_reading, market_read_buy_side
      | apply keeps_calculate_RSI]. }
  intro rsi. apply keeps_until_bind.
  { apply keeps_until_reading.
    apply (keeps_weaken (market_read coin_pair));
      [intro e; apply market_read_reading, market_read_buy_side
      | apply keeps_get_current_24hr_volume]. }
  intro day_volume. apply keeps_until_bind.
  { apply keeps_until_reading.
    apply (keeps_weaken (market_read coin_pair));
      [intro e; apply market_read_reading, market_read_buy_side
      | apply keeps_get_current_price]. }
  intro price.
  apply keeps_until_bind; [apply keeps_until_reading, keeps_lift | intro go].
  destruct go.
  - unfold buy.
    apply keeps_until_bind; [apply keeps_until_reading, keeps_lift | intro p].
    apply keeps_until_bind; [apply keeps_until_reading, keeps_lift | intro q].
    apply keeps_until_trigger; [keeps_event | keeps_event |].
    intro buy_data.
    destruct (negb (pl_success buy_data)); [keeps_step|].
    apply keeps_bind; [keeps_step | intros _].
    apply keeps_bind.
    + apply (keeps_weaken (order_event (pl_uuid buy_data)));
        [apply order_event_buy_side | apply keeps_get_order].
    + intro o. repeat keeps_step.
  - apply keeps_until_reading.
    destruct rsi as [r|]; [|keeps_step].
    destruct (F64.leb r (F64.of_int 50)); keeps_step.
Qed.

(** X6: [sell_strategy] makes only calls that belong to selling on its
    market: it looks at no other market, sends no buy order and never
    writes a buy to the ledger. It never sets the clock back, and it
    leaves the ledger as it was unless it has sent a sell order for the
    market. *)
Theorem sell_strategy_footprint :
  forall (coin_pair : string) (w : world db),
    exists evs,
      trace (snd (sell_strategy Database Bittrex params fuel coin_pair w))
        = trace w ++ evs /\
      forallb (sell_side coin_pair) evs = true /\
      now w <= now (snd (sell_strategy Database Bittrex params fuel coin_pair w)) /\
      (existsb (is_sell_order coin_pair) evs = false ->
       database (snd (sell_strategy Database Bittrex params fuel coin_pair w))
         = database w).
Proof.
  intro coin_pair.
  change (keeps_until (is_sell_order coin_pair) (sell_side coin_pair)
            (sell_strategy Database Bittrex params fuel coin_pair)).
  unfold sell_strategy.
  apply keeps_until_bind;
    [apply keeps_until_reading, keeps_tracked | intro pairs].
  destruct (negb (existsb _ pairs)); [apply keeps_until_reading, keeps_ret|].
  apply keeps_until_bind.
  { apply keeps_until_reading.
    apply (keeps_weaken (market_read coin_pair));
      [intro e; apply market_read_reading, market_read_sell_side
      | apply keeps_calculate_RSI]. }
  intro rsi. apply keeps_until_bind.
  { apply keeps_until_reading.
    apply (keeps_weaken (market_read coin_pair));
      [intro e; apply market_read_reading, market_read_sell_side
      | apply keeps_get_current_price]. }
  intro price.
  apply keeps_until_bind;
    [apply keeps_until_reading; keeps_step | intro margin].
  destruct (check_sell_parameters params rsi margin).
  - unfold sell.
    apply keeps_until_bind;
      [apply keeps_until_reading; keeps_step | intro quantity].
    apply keeps_until_trigger; [keeps_event | keeps_event |].
    intro sell_data.
    destruct (negb (pl_success sell_data)); [keeps_step|].
    apply keeps_bind.
    + apply (keeps_weaken (order_event (pl_uuid sell_data)));
        [apply order_event_sell_side | apply keeps_get_order].
    + intro o. repeat keeps_step.
  - apply keeps_until_reading.
    destruct rsi as [r|]; keeps_step.
Qed.

End StrategyFootprint.

(** *** Settling an order *)

Lemma poll_event_order_event (order_uuid : string) (evs : list event) :
  forallb (is_poll_event order_uuid) evs = true ->
  forallb (order_event order_uuid) evs = true.
Proof.
  induction evs as [|e evs IH]; [reflexivity|].
  cbn [forallb]. intro H. apply andb_true_iff in H. destruct H as [He Hevs].
  rewrite (IH Hevs), andb_true_r.
  destruct e; cbn in *; try discriminate He; exact He.
Qed.

Lemma order_event_no_store (order_uuid : string) (evs : list event) :
  forallb (order_event order_uuid) evs = true ->
  existsb is_store evs = false.
Proof.
  induction evs as [|e evs IH]; [reflexivity|].
  cbn [forallb existsb]. intro H. apply andb_true_iff in H.
  destruct H as [He Hevs]. rewrite (IH Hevs), orb_false_r.
  destruct e; cbn in *; try discriminate He; reflexivity.
Qed.

Section Settlement.

Context {db : Type}.
Variable Database : database_class db.
Variable Bittrex : exchange.
Variable fuel : nat.

(** On an exchange that answers every query and acknowledges every cancel
    request, [get_order] returns the answer to its last query, and has
    cancelled the order if that answer is open. *)
Lemma get_order_settles (order_uuid : string) (trade_time_limit : Z)
    (w : world db) :
  trade_time_limit < 10 * Z.of_nat fuel ->
  (forall h, exists o, bx_get_order Bittrex h order_uuid = Ok o) ->
  (forall h, exists ack, bx_cancel Bittrex h order_uuid = Ok ack) ->
  exists o w' polls h,
    get_order Bittrex fuel order_uuid trade_time_limit w = (Ok o, w') /\
    forallb (is_poll_event order_uuid) polls = true /\
    trace w ++ polls = h ++ [BittrexGetOrder order_uuid] /\
    bx_get_order Bittrex h order_uuid = Ok o /\
    trace w' = trace w ++ polls
               ++ (if IsOpen o
                   then cancellation order_uuid trade_time_limit o else []) /\
    database w' = database w /\
    now w <= now w'.
Proof.
  intros Hfuel Hquery Hcancel.
  assert (Hq : forall h, bx_get_order Bittrex h order_uuid <> OutOfFuel).
  { intro h. destruct (Hquery h) as [o ->]. discriminate. }
  destruct (await_order_ends Bittrex fuel order_uuid trade_time_limit w Hfuel Hq)
    as [r [w1 [polls [h H]]]].
  destruct H as [Hawait [Hr [Hpolls [Hsl [Hdb [Hnow [Htr [Hlast [Hans Hlate]]]]]]]]].
  pose proof (get_order_after_await Bittrex fuel order_uuid trade_time_limit
                w w1 r Hawait) as Hget.
  destruct (Hquery h) as [o Ho]. rewrite Ho in Hans. subst r.
  assert (Hprefix : trace w ++ polls = h ++ [BittrexGetOrder order_uuid])
    by (rewrite <- Htr; exact Hlast).
  destruct (IsOpen o) eqn:Hopen.
  - cbv zeta in Hget.
    set (h2 := trace w1 ++
           [Messenger (print_order_error order_uuid trade_time_limit
                         (Exchange o));
            LoggerError (OrderError order_uuid trade_time_limit
                           (Exchange o))]) in *.
    pose proof (N2Z.is_nonneg (bx_request_time Bittrex h2)) as Hpos2.
    destruct (Hcancel h2) as [ack Hack]. rewrite Hack in Hget.
    eexists o, _, polls, h. split; [exact Hget|].
    split; [exact Hpolls|]. split; [exact Hprefix|]. split; [exact Ho|].
    rewrite Hopen. cbn [trace database now].
    split; [rewrite Htr, <- app_assoc; reflexivity|].
    split; [exact Hdb | lia].
  - exists o, w1, polls, h. split; [exact Hget|].
    split; [exact Hpolls|]. split; [exact Hprefix|]. split; [exact Ho|].
    rewrite Hopen, app_nil_r. auto.
Qed.

(** X7: once the exchange has accepted the buy order, [buy] stores the
    initial buy, waits for the order and then stores whatever snapshot
    [get_order] returns as the buy and announces it by mail, print and
    sound: also when that snapshot is still open, that is when the order
    has timed out and has just been cancelled. *)
Theorem buy_stores_the_returned_snapshot :
  forall (coin_pair : string) (btc_quantity p quantity : float)
         (stats : buy_stats) (limit : Z) (answer : placement) (w : world db),
    F64.truediv btc_quantity p = Ok quantity ->
    bx_buy_limit Bittrex (trace w) coin_pair quantity p = Ok answer ->
    pl_success answer = true ->
    limit * 60 < 10 * Z.of_nat fuel ->
    (forall h, exists o, bx_get_order Bittrex h (pl_uuid answer) = Ok o) ->
    (forall h, exists ack, bx_cancel Bittrex h (pl_uuid answer) = Ok ack) ->
    exists o w' polls h,
      buy Database Bittrex fuel coin_pair btc_quantity (Some p) stats limit w
        = (Ok tt, w') /\
      forallb (is_poll_event (pl_uuid answer)) polls = true /\
      (trace w ++ [BittrexBuyLimit coin_pair quantity p;
                   DatabaseStoreInitialBuy coin_pair (pl_uuid answer)])
        ++ polls = h ++ [BittrexGetOrder (pl_uuid answer)] /\
      bx_get_order Bittrex h (pl_uuid answer) = Ok o /\
      trace w' = trace w
                 ++ [BittrexBuyLimit coin_pair quantity p;
                     DatabaseStoreInitialBuy coin_pair (pl_uuid answer)]
                 ++ polls
                 ++ (if IsOpen o
                     then cancellation (pl_uuid answer) (limit * 60) o else [])
                 ++ [DatabaseStoreBuy o stats;
                     Messenger (send_buy_email coin_pair (Quantity o) p
                                  (bs_rsi stats) (bs_24HrVolume stats));
                     Messenger (print_buy coin_pair p (bs_rsi stats)
                                  (bs_24HrVolume stats));
                     Messenger play_sw_imperial_march] /\
      database w'
      = store_buy Database
          (store_initial_buy Database (database w) coin_pair (pl_uuid answer))
          o stats.
Proof.
  intros coin_pair btc_quantity p quantity stats limit answer w
         Hdiv Hanswer Haccepted Hfuel Hquery Hcancel.
  set (w1 := World (now w + Z.of_N (bx_request_time Bittrex (trace w)))
               ((trace w ++ [BittrexBuyLimit coin_pair quantity p])
                ++ [DatabaseStoreInitialBuy coin_pair (pl_uuid answer)])
               (store_initial_buy Database (database w) coin_pair
                  (pl_uuid answer))).
  destruct (get_order_settles (pl_uuid answer) (limit * 60) w1 Hfuel Hquery
              Hcancel) as [o [w2 [polls [h H]]]].
  destruct H as [Hget [Hpolls [Hprefix [Ho [Htr [Hdb Hnow]]]]]].
  eexists o, _, polls, h. split.
  { unfold buy. cbn [number]. unfold bind at 1. unfold lift at 1.
    unfold bind at 1. unfold lift at 1. rewrite Hdiv.
    unfold bind at 1. unfold request at 1. rewrite Hanswer, Haccepted.
    cbn [negb]. unfold bind at 1. unfold database_write at 1.
    cbn [now trace database]. fold w1.
    unfold bind at 1. rewrite Hget.
    unfold bind, database_write, emit. cbn [now trace database].
    reflexivity. }
  split; [exact Hpolls|].
  split.
  { rewrite <- Hprefix. subst w1. cbn [trace]. rewrite <- !app_assoc.
    reflexivity. }
  split; [exact Ho|]. cbn [trace database].
  split.
  - rewrite Htr. subst w1. cbn [trace]. rewrite <- !app_assoc. reflexivity.
  - rewrite Hdb. reflexivity.
Qed.

(** X8: once the exchange has accepted the sell order, [sell] waits for
    the order and then stores whatever snapshot [get_order] returns as
    the sale and announces it: also when that snapshot is still open,
    that is when the order has timed out and has just been cancelled. The
    quantity offered is the one the ledger holds for the open trade. *)
Theorem sell_stores_the_returned_snapshot :
  forall (coin_pair : string) (price : option float) (quantity : float)
         (stats : sell_stats) (limit : Z) (answer : placement) (w : world db),
    get_open_trade_quantity Database (database w) coin_pair = Ok quantity ->
    bx_sell_limit Bittrex (trace w ++ [DatabaseGetOpenTrade coin_pair])
      coin_pair quantity price = Ok answer ->
    pl_success answer = true ->
    limit * 60 < 10 * Z.of_nat fuel ->
    (forall h, exists o, bx_get_order Bittrex h (pl_uuid answer) = Ok o) ->
    (forall h, exists ack, bx_cancel Bittrex h (pl_uuid answer) = Ok ack) ->
    exists o w' polls h,
      sell Database Bittrex fuel coin_pair price stats limit w = (Ok tt, w') /\
      forallb (is_poll_event (pl_uuid answer)) polls = true /\
      (trace w ++ [DatabaseGetOpenTrade coin_pair;
                   BittrexSellLimit coin_pair quantity price])
        ++ polls = h ++ [BittrexGetOrder (pl_uuid answer)] /\
      bx_get_order Bittrex h (pl_uuid answer) = Ok o /\
      trace w' = trace w
                 ++ [DatabaseGetOpenTrade coin_pair;
                     BittrexSellLimit coin_pair quantity price]
                 ++ polls
                 ++ (if IsOpen o
                     then cancellation (pl_uuid answer) (limit * 60) o else [])
                 ++ [DatabaseStoreSell o stats;
                     Messenger (send_sell_email coin_pair (Quantity o) price
                                  (ss_rsi stats) (ss_profitMargin stats));
                     Messenger (print_sell coin_pair price (ss_rsi stats)
                                  (ss_profitMargin stats));
                     Messenger play_sw_theme] /\
      database w' = store_sell Database (database w) o stats.
Proof.
  intros coin_pair price quantity stats limit answer w
         Hqty Hanswer Haccepted Hfuel Hquery Hcancel.
  set (w1 := World (now w + Z.of_N (bx_request_time Bittrex
                                       (trace w ++ [DatabaseGetOpenTrade coin_pair])))
               ((trace w ++ [DatabaseGetOpenTrade coin_pair])
                ++ [BittrexSellLimit coin_pair quantity price])
               (database w)).
  destruct (get_order_settles (pl_uuid answer) (limit * 60) w1 Hfuel Hquery
              Hcancel) as [o [w2 [polls [h H]]]].
  destruct H as [Hget [Hpolls [Hprefix [Ho [Htr [Hdb Hnow]]]]]].
  eexists o, _, polls, h. split.
  { unfold sell. unfold bind at 1. unfold database_read at 1. rewrite Hqty.
    unfold bind at 1. unfold request at 1. cbn [now trace database].
    rewrite Hanswer, Haccepted. cbn [negb]. fold w1.
    unfold bind at 1. rewrite Hget.
    unfold bind, database_write, emit. cbn [now trace database].
    reflexivity. }
  split; [exact Hpolls|].
  split.
  { rewrite <- Hprefix. subst w1. cbn [trace]. rewrite <- !app_assoc.
    reflexivity. }
  split; [exact Ho|]. cbn [trace database].
  split.
  - rewrite Htr. subst w1. cbn [trace]. rewrite <- !app_assoc. reflexivity.
  - rewrite Hdb. reflexivity.
Qed.

(** X9: when [get_order] raises (a query or the cancel request fails),
    [buy] and [sell] raise the same exception at once. [buy] has then
    stored the initial buy and nothing else; [sell] has left the ledger
    as it was, although the exchange has accepted the order. Neither
    announces a trade. *)
Theorem interrupted_order :
  forall (coin_pair : string) (answer : placement) (e : py_class)
         (limit : Z) (w : world db),
    pl_success answer = true ->
    (forall (btc_quantity p quantity : float) (stats : buy_stats),
        F64.truediv btc_quantity p = Ok quantity ->
        bx_buy_limit Bittrex (trace w) coin_pair quantity p = Ok answer ->
        fst (get_order Bittrex fuel (pl_uuid answer) (limit * 60)
               (World (now w + Z.of_N (bx_request_time Bittrex (trace w)))
                  (trace w ++ [BittrexBuyLimit coin_pair quantity p;
                               DatabaseStoreInitialBuy coin_pair
                                 (pl_uuid answer)])
                  (store_initial_buy Database (database w) coin_pair
                     (pl_uuid answer)))) = Raise e ->
        exists w' evs,
          buy Database Bittrex fuel coin_pair btc_quantity (Some p) stats
            limit w = (Raise e, w') /\
          trace w' = trace w
                     ++ [BittrexBuyLimit coin_pair quantity p;
                         DatabaseStoreInitialBuy coin_pair (pl_uuid answer)]
                     ++ evs /\
          forallb (order_event (pl_uuid answer)) evs = true /\
          database w' = store_initial_buy Database (database w) coin_pair
                          (pl_uuid answer))
    /\
    (forall (price : option float) (quantity : float) (stats : sell_stats),
        get_open_trade_quantity Database (database w) coin_pair = Ok quantity ->
        bx_sell_limit Bittrex (trace w ++ [DatabaseGetOpenTrade coin_pair])
          coin_pair quantity price = Ok answer ->
        fst (get_order Bittrex fuel (pl_uuid answer) (limit * 60)
               (World (now w + Z.of_N (bx_request_time Bittrex
                                         (trace w
                                          ++ [DatabaseGetOpenTrade coin_pair])))
                  (trace w ++ [DatabaseGetOpenTrade coin_pair;
                               BittrexSellLimit coin_pair quantity price])
                  (database w))) = Raise e ->
        exists w' evs,
          sell Database Bittrex fuel coin_pair price stats limit w
            = (Raise e, w') /\
          trace w' = trace w
                     ++ [DatabaseGetOpenTrade coin_pair;
                         BittrexSellLimit coin_pair quantity price]
                     ++ evs /\
          forallb (order_event (pl_uuid answer)) evs = true /\
          database w' = database w).
Proof.
  intros coin_pair answer e limit w Haccepted. split.
  - intros btc_quantity p quantity stats Hdiv Hanswer Hraise.
    set (w1 := World (now w + Z.of_N (bx_request_time Bittrex (trace w)))
                 (trace w ++ [BittrexBuyLimit coin_pair quantity p;
                              DatabaseStoreInitialBuy coin_pair
                                (pl_uuid answer)])
                 (store_initial_buy Database (database w) coin_pair
                    (pl_uuid answer))) in *.
    destruct (keeps_get_order Bittrex fuel (pl_uuid answer) (limit * 60) w1)
      as [evs [Htr [Hevs [Hnow Hdb]]]].
    destruct (get_order Bittrex fuel (pl_uuid answer) (limit * 60) w1)
      as [r w2] eqn:Hget.
    cbn [fst snd] in *. subst r.
    exists w2, evs. split.
    { unfold buy. cbn [number]. unfold bind at 1. unfold lift at 1.
      unfold bind at 1. unfold lift at 1. rewrite Hdiv.
      unfold bind at 1. unfold request at 1. rewrite Hanswer, Haccepted.
      cbn [negb]. unfold bind at 1. unfold database_write at 1.
      cbn [now trace database]. rewrite <- app_assoc. cbn [app]. fold w1.
      unfold bind at 1. rewrite Hget. reflexivity. }
    split; [rewrite Htr; subst w1; cbn [trace]; rewrite <- app_assoc;
            reflexivity|].
    split; [exact Hevs|].
    rewrite (Hdb (order_event_no_store _ _ Hevs)). reflexivity.
  - intros price quantity stats Hqty Hanswer Hraise.
    set (w1 := World (now w + Z.of_N (bx_request_time Bittrex
                                        (trace w
                                         ++ [DatabaseGetOpenTrade coin_pair])))
                 (trace w ++ [DatabaseGetOpenTrade coin_pair;
                              BittrexSellLimit coin_pair quantity price])
                 (database w)) in *.
    destruct (keeps_get_order Bittrex fuel (pl_uuid answer) (limit * 60) w1)
      as [evs [Htr [Hevs [Hnow Hdb]]]].
    destruct (get_order Bittrex fuel (pl_uuid answer) (limit * 60) w1)
      as [r w2] eqn:Hget.
    cbn [fst snd] in *. subst r.
    exists w2, evs. split.
    { unfold sell. unfold bind at 1. unfold database_read at 1. rewrite Hqty.
      unfold bind at 1. unfold request at 1. cbn [now trace database].
      rewrite Hanswer, Haccepted. cbn [negb].
      rewrite <- app_assoc. cbn [app]. fold w1.
      unfold bind at 1. rewrite Hget. reflexivity. }
    split; [rewrite Htr; subst w1; cbn [trace]; rewrite <- app_assoc;
            reflexivity|].
    split; [exact Hevs|].
    rewrite (Hdb (order_event_no_store _ _ Hevs)). reflexivity.
Qed.

End Settlement.

(** An order that stays open is cancelled after 130 seconds, and [buy]
    still opens the position. *)
Lemma buy_stores_the_returned_snapshot_witness :
  exists o w',
    buy spec_ledger stalled_exchange 13 "BTC-ETH" (F64.of_int 1)
      (Some (F64.of_int 1)) (BuyStats None None) 2 empty_world = (Ok tt, w') /\
    database w'
    = store_buy spec_ledger
        (store_initial_buy spec_ledger (database empty_world) "BTC-ETH" "BTC-ETH")
        o (BuyStats None None).
Proof.
  destruct (buy_stores_the_returned_snapshot spec_ledger stalled_exchange 13
              "BTC-ETH" (F64.of_int 1) (F64.of_int 1) (F64.of_int 1)
              (BuyStats None None) 2 (Placement true "BTC-ETH") empty_world)
    as [o [w' [polls [h [Hrun [_ [_ [_ [_ Hdb]]]]]]]]].
  - vm_compute. reflexivity.
  - reflexivity.
  - reflexivity.
  - simpl. lia.
  - intro h. eexists. reflexivity.
  - intro h. eexists. reflexivity.
  - exists o, w'. split; [exact Hrun | exact Hdb].
Defined.

Lemma sell_stores_the_returned_snapshot_witness :
  exists o w',
    sell spec_ledger stalled_exchange 13 "BTC-ETH" (Some (F64.of_int 2))
      (SellStats None (F64.of_int 1)) 2 one_position = (Ok tt, w') /\
    database w'
    = store_sell spec_ledger (database one_position) o
        (SellStats None (F64.of_int 1)).
Proof.
  destruct (sell_stores_the_returned_snapshot spec_ledger stalled_exchange 13
              "BTC-ETH" (Some (F64.of_int 2)) (F64.of_int 1)
              (SellStats None (F64.of_int 1)) 2 (Placement true "BTC-ETH")
              one_position)
    as [o [w' [polls [h [Hrun [_ [_ [_ [_ Hdb]]]]]]]]].
  - vm_compute. reflexivity.
  - reflexivity.
  - reflexivity.
  - simpl. lia.
  - intro h. eexists. reflexivity.
  - intro h. eexists. reflexivity.
  - exists o, w'. split; [exact Hrun | exact Hdb].
Defined.

(** The connection drops at the first query of an accepted buy order. *)
Lemma interrupted_order_witness :
  exists w' evs,
    buy spec_ledger dropping_exchange 13 "BTC-ETH" (F64.of_int 1)
      (Some (F64.of_int 1)) (BuyStats None None) 2 empty_world
      = (Raise ConnectionError, w') /\
    trace w' = trace empty_world
               ++ [BittrexBuyLimit "BTC-ETH" (F64.of_int 1) (F64.of_int 1);
                   DatabaseStoreInitialBuy "BTC-ETH" "BTC-ETH"]
               ++ evs /\
    forallb (order_event "BTC-ETH") evs = true /\
    database w'
    = store_initial_buy spec_ledger (database empty_world) "BTC-ETH" "BTC-ETH".
Proof.
  apply (proj1 (interrupted_order spec_ledger dropping_exchange 13 "BTC-ETH"
                  (Placement true "BTC-ETH") ConnectionError 2 empty_world
                  eq_refl)
           (F64.of_int 1) (F64.of_int 1) (F64.of_int 1) (BuyStats None None)).
  - vm_compute. reflexivity.
  - reflexivity.
  - vm_compute. reflexivity.
Defined.

(** *** One strategy per market *)

Lemma starts_with_request {db A : Type} (Bittrex : exchange) (e : event)
    (answer : list event -> result A) :
  starts_with (db := db) e (request Bittrex e answer).
Proof. intro w. exists []. reflexivity. Qed.

Lemma starts_with_bind {db A B : Type} (e : event) (P : event -> bool)
    (m : M db A) (k : A -> M db B) :
  starts_with e m -> (forall a, keeps P (k a)) -> starts_with e (bind m k).
Proof.
  intros Hm Hk w. destruct (Hm w) as [evs1 Ht1].
  unfold bind. destruct (m w) as [[a | ex |] w1]; cbn [snd] in *.
  - destruct (Hk a w1) as [evs2 [Ht2 _]].
    exists (evs1 ++ evs2). rewrite Ht2, Ht1, <- app_assoc. reflexivity.
  - exists evs1. exact Ht1.
  - exists evs1. exact Ht1.
Qed.

Section OneStrategy.

Context {db : Type}.
Variable Database : database_class db.
Variable Bittrex : exchange.
Variable params : trade_parameters.
Variable fuel : nat.

Lemma untracked_membership (coin_pair : string) (pairs : list string) :
  ~ In coin_pair pairs -> existsb (String.eqb coin_pair) pairs = false.
Proof.
  intro H. destruct (existsb (String.eqb coin_pair) pairs) eqn:E; [|reflexivity].
  apply existsb_exists in E. destruct E as [x [Hx Heq]].
  apply String.eqb_eq in Heq. subst x. contradiction.
Qed.

Lemma starts_with_calculate_RSI (coin_pair : string) (period : Z)
    (unit : string) :
  starts_with (db := db) (BittrexGetHistoricalData coin_pair (period * 3) unit)
    (calculate_RSI Bittrex coin_pair period unit).
Proof.
  unfold calculate_RSI, get_closing_prices.
  apply (starts_with_bind _ (fun _ => true));
    [apply starts_with_request | intro closes; apply keeps_lift].
Qed.

(** X10: a market is the business of exactly one strategy. When its coin
    pair is tracked in the ledger, [buy_strategy] returns at once and
    [sell_strategy] goes to work; when it is not, [sell_strategy] returns
    at once and [buy_strategy] goes to work. The one at work begins by
    asking the exchange for 42 candles of the market, three times the RSI
    period of 14. *)
Theorem one_strategy_per_market :
  forall (coin_pair : string) (w : world db),
    (In coin_pair (trackedCoinPairs Database (database w)) ->
     buy_strategy Database Bittrex params fuel coin_pair w = (Ok tt, w) /\
     exists evs,
       trace (snd (sell_strategy Database Bittrex params fuel coin_pair w))
       = trace w
         ++ BittrexGetHistoricalData coin_pair 42 (tickerInterval params) :: evs)
    /\
    (~ In coin_pair (trackedCoinPairs Database (database w)) ->
     sell_strategy Database Bittrex params fuel coin_pair w = (Ok tt, w) /\
     exists evs,
       trace (snd (buy_strategy Database Bittrex params fuel coin_pair w))
       = trace w
         ++ BittrexGetHistoricalData coin_pair 42 (tickerInterval params) :: evs).
Proof.
  intros coin_pair w. split; intro H.
  - split; [apply buy_strategy_tracked; exact H|].
    unfold sell_strategy. unfold bind at 1. unfold tracked at 1.
    rewrite (tracked_membership _ _ H). cbn [negb].
    match goal with |- exists evs, trace (snd (bind ?m ?k w)) = _ =>
      apply (starts_with_bind
               (BittrexGetHistoricalData coin_pair 42 (tickerInterval params))
               (sell_side coin_pair) m k)
    end; [apply (starts_with_calculate_RSI coin_pair 14)|].
    intro rsi. apply keeps_bind.
    { apply (keeps_weaken (market_read coin_pair));
        [apply market_read_sell_side | apply keeps_get_current_price]. }
    intro price. apply keeps_bind; [keeps_step | intro margin].
    destruct (check_sell_parameters params rsi margin); [apply keeps_sell|].
    destruct rsi as [r|]; keeps_step.
  - split.
    { unfold sell_strategy, bind, tracked.
      rewrite (untracked_membership _ _ H). reflexivity. }
    unfold buy_strategy. unfold bind at 1. unfold tracked at 1.
    rewrite (untracked_membership _ _ H).
    match goal with |- exists evs, trace (snd (bind ?m ?k w)) = _ =>
      apply (starts_with_bind
               (BittrexGetHistoricalData coin_pair 42 (tickerInterval params))
               (buy_side coin_pair) m k)
    end; [apply (starts_with_calculate_RSI coin_pair 14)|].
    intro rsi. apply keeps_bind.
    { apply (keeps_weaken (market_read coin_pair));
        [apply market_read_buy_side | apply keeps_get_current_24hr_volume]. }
    intro day_volume. apply keeps_bind.
    { apply (keeps_weaken (market_read coin_pair));
        [apply market_read_buy_side | apply keeps_get_current_price]. }
    intro price. apply keeps_bind; [keeps_step | intro go].
    destruct go; [apply keeps_buy|].
    destruct rsi as [r|]; [|keeps_step].
    destruct (F64.leb r (F64.of_int 50)); keeps_step.
Qed.

End OneStrategy.

Lemma one_strategy_per_market_witness :
  In "BTC-ETH"%string (trackedCoinPairs spec_ledger (database one_position)) /\
  buy_strategy spec_ledger eager_exchange scenario_parameters 1 "BTC-ETH"
    one_position = (Ok tt, one_position) /\
  exists evs,
    trace (snd (sell_strategy spec_ledger eager_exchange scenario_parameters 1
                  "BTC-ETH" one_position))
    = trace one_position
      ++ BittrexGetHistoricalData "BTC-ETH" 42
           (tickerInterval scenario_parameters) :: evs.
Proof.
  assert (H : In "BTC-ETH"%string
                (trackedCoinPairs spec_ledger (database one_position)))
    by (simpl; left; reflexivity).
  split; [exact H|].
  exact (proj1 (one_strategy_per_market spec_ledger eager_exchange
                  scenario_parameters 1 "BTC-ETH" one_position) H).
Defined.

(** *** IndicatorEngine: the loops as Wilder's smoothing *)

Lemma deltas_length (closes : list float) :
  List.length (deltas closes) = (List.length closes - 1)%nat.
Proof.
  induction closes as [|a [|b rest] IH]; try reflexivity.
  cbn [deltas List.length] in *. rewrite IH. lia.
Qed.

Lemma deltas_nth (closes : list float) :
  forall (k : nat) (a b : float),
    nth_error closes k = Some a -> nth_error closes (S k) = Some b ->
    nth_error (deltas closes) k = Some (F64.sub b a).
Proof.
  induction closes as [|x [|y rest] IH]; intros k a b Ha Hb.
  - destruct k; discriminate Ha.
  - destruct k as [|[|k]]; discriminate Hb.
  - destruct k as [|k].
    + cbn in Ha, Hb. injection Ha as <-. injection Hb as <-. reflexivity.
    + cbn [deltas nth_error]. apply IH; assumption.
Qed.

Lemma deltas_firstn (closes : list float) :
  forall n, deltas (firstn (S n) closes) = firstn n (deltas closes).
Proof.
  induction closes as [|a [|b rest] IH]; intro n.
  - destruct n; reflexivity.
  - destruct n as [|n]; reflexivity.
  - destruct n as [|n]; [reflexivity|].
    specialize (IH n). cbn [firstn deltas] in IH |- *. rewrite IH.
    reflexivity.
Qed.

Lemma skipn_nth {A : Type} (xs : list A) :
  forall (k : nat) (x : A),
    nth_error xs k = Some x -> skipn k xs = x :: skipn (S k) xs.
Proof.
  induction xs as [|y xs IH]; intros k x H.
  - destruct k; discriminate H.
  - destruct k as [|k].
    + cbn in H. injection H as <-. reflexivity.
    + cbn [skipn nth_error] in *. apply IH. exact H.
Qed.

(** The body of the third loop is one Wilder update with the delta at the
    counter. *)
Lemma smooth_step_wilder (closing_prices : list float) (s : smoothing)
    (delta : float) :
  (1 <= sm_count s)%nat ->
  nth_error (deltas closing_prices) (sm_count s - 1) = Some delta ->
  smooth_step closing_prices s = Ok (wilder s delta).
Proof.
  intros Hpos Hdelta.
  assert (Hlen : (sm_count s - 1 < List.length (deltas closing_prices))%nat).
  { apply nth_error_Some. rewrite Hdelta. discriminate. }
  rewrite deltas_length in Hlen.
  unfold smooth_step, item.
  destruct (nth_error closing_prices (sm_count s)) as [close|] eqn:Hclose;
    [|apply nth_error_None in Hclose; lia].
  destruct (nth_error closing_prices (sm_count s - 1)) as [prev|] eqn:Hprev;
    [|apply nth_error_None in Hprev; lia].
  cbn [rbind].
  assert (Hd : nth_error (deltas closing_prices) (sm_count s - 1)
               = Some (F64.sub close prev)).
  { apply deltas_nth; [exact Hprev|].
    replace (S (sm_count s - 1)) with (sm_count s) by lia. exact Hclose. }
  rewrite Hdelta in Hd. injection Hd as <-.
  rewrite !truediv_14. cbn [rbind]. reflexivity.
Qed.

Lemma smooth_wilder (closing_prices : list float) :
  forall (rest : list float) (s : smoothing),
    (14 < sm_count s)%nat ->
    (sm_count s <= List.length closing_prices)%nat ->
    (List.length closing_prices - sm_count s <= List.length rest)%nat ->
    smooth closing_prices rest s
    = Ok (fold_left wilder (skipn (sm_count s - 1) (deltas closing_prices)) s).
Proof.
  induction rest as [|x rest IH]; intros s H14 Hle Hrest.
  - cbn [List.length] in Hrest.
    rewrite skipn_all2 by (rewrite deltas_length; lia). reflexivity.
  - cbn [smooth].
    replace (14 <? sm_count s)%nat with true
      by (symmetry; apply Nat.ltb_lt; exact H14).
    cbn [andb].
    destruct (sm_count s <? List.length closing_prices)%nat eqn:E.
    + apply Nat.ltb_lt in E.
      destruct (nth_error (deltas closing_prices) (sm_count s - 1))
        as [delta|] eqn:Hdelta;
        [|apply nth_error_None in Hdelta; rewrite deltas_length in Hdelta; lia].
      rewrite (smooth_step_wilder closing_prices s delta ltac:(lia) Hdelta).
      cbn [rbind]. rewrite IH.
      * rewrite (skipn_nth _ _ _ Hdelta). cbn [fold_left wilder sm_count].
        replace (S (sm_count s - 1)) with (sm_count s) by lia.
        replace (S (sm_count s) - 1)%nat with (sm_count s) by lia.
        reflexivity.
      * cbn [wilder sm_count]. lia.
      * cbn [wilder sm_count]. lia.
      * cbn [wilder sm_count]. cbn [List.length] in Hrest. lia.
    + apply Nat.ltb_ge in E. apply IH; [exact H14 | exact Hle | lia].
Qed.

Lemma fold_wilder_count (ds : list float) :
  forall s : smoothing,
    sm_count (fold_left wilder ds s) = (sm_count s + List.length ds)%nat.
Proof.
  induction ds as [|d ds IH]; intro s; cbn [fold_left List.length]; [lia|].
  rewrite IH. cbn [wilder sm_count]. lia.
Qed.

Lemma smoothed_averages_wilder_eq (closes : list float) :
  exists g l,
    seed_averages (firstn 14 (deltas closes)) = Ok (g, l) /\
    smoothed_averages closes
    = Ok (fold_left wilder (skipn 14 (deltas closes))
            (Smoothing (Nat.min (List.length closes) 15) g l)).
Proof.
  destruct (seed_averages_ok (firstn 14 (deltas closes))) as [g [l [Hseed _]]].
  exists g, l. split; [exact Hseed|].
  unfold smoothed_averages. rewrite price_changes_deltas. cbn [rbind].
  rewrite deltas_firstn, Hseed. cbn [rbind].
  destruct (Nat.le_gt_cases 15 (List.length closes)) as [Hlong | Hshort].
  - rewrite Nat.min_r by lia.
    rewrite smooth_wilder; cbn [sm_count]; try lia. reflexivity.
  - rewrite Nat.min_l by lia.
    rewrite smooth_idle by (cbn [sm_count]; lia).
    rewrite skipn_all2 by (rewrite deltas_length; lia). reflexivity.
Qed.

(** X11: the three loops of [calculate_RSI] are Wilder's smoothing of the
    deltas of the closes: the averages are seeded with the gains and the
    losses of the first 14 deltas (their sums divided by 14, however many
    there are), and every later delta, in order, makes one update
    [(average * 13 + value) / 14]. No delta is left out or used twice,
    and the counter ends at the number of closes. *)
Theorem smoothed_averages_wilder :
  forall closes : list float,
    exists g l,
      seed_averages (firstn 14 (deltas closes)) = Ok (g, l) /\
      smoothed_averages closes
      = Ok (fold_left wilder (skipn 14 (deltas closes))
              (Smoothing (Nat.min (List.length closes) 15) g l)) /\
      sm_count (fold_left wilder (skipn 14 (deltas closes))
                  (Smoothing (Nat.min (List.length closes) 15) g l))
      = List.length closes.
Proof.
  intro closes.
  destruct (smoothed_averages_wilder_eq closes) as [g [l [Hseed Hsm]]].
  exists g, l. split; [exact Hseed|]. split; [exact Hsm|].
  rewrite fold_wilder_count. cbn [sm_count].
  rewrite length_skipn, deltas_length. lia.
Qed.

(** *** IndicatorEngine: series without a positive delta *)

Lemma no_advances (change : list float) :
  forallb (fun delta => negb (F64.ltb (F64.of_int 0) delta)) change = true ->
  forall advances declines,
    fst (gains_and_losses change advances declines) = advances.
Proof.
  induction change as [|c change IH]; intros H advances declines;
    [reflexivity|].
  cbn [forallb] in H. apply andb_true_iff in H. destruct H as [Hc H].
  apply negb_true_iff in Hc.
  cbn [gains_and_losses]. rewrite Hc. apply IH. exact H.
Qed.

Lemma forallb_firstn {A : Type} (f : A -> bool) (xs : list A) :
  forallb f xs = true -> forall n, forallb f (firstn n xs) = true.
Proof.
  induction xs as [|x xs IH]; intros H n.
  - rewrite firstn_nil. reflexivity.
  - destruct n as [|n]; [reflexivity|].
    cbn [forallb firstn] in *. apply andb_true_iff in H. destruct H as [Hx H].
    rewrite Hx. apply IH. exact H.
Qed.

Lemma forallb_skipn {A : Type} (f : A -> bool) (xs : list A) :
  forallb f xs = true -> forall n, forallb f (skipn n xs) = true.
Proof.
  induction xs as [|x xs IH]; intros H n.
  - rewrite skipn_nil. reflexivity.
  - destruct n as [|n]; [exact H|].
    cbn [forallb skipn] in *. apply andb_true_iff in H. destruct H as [Hx H].
    apply IH. exact H.
Qed.

Lemma wilder_keeps_zero_gain (ds : list float) :
  forallb (fun delta => negb (F64.ltb (F64.of_int 0) delta)) ds = true ->
  forall s : smoothing,
    new_avg_gain s = S754_zero false ->
    new_avg_gain (fold_left wilder ds s) = S754_zero false.
Proof.
  induction ds as [|d ds IH]; intros H s Hs; [exact Hs|].
  cbn [forallb] in H. apply andb_true_iff in H. destruct H as [Hd H].
  apply negb_true_iff in Hd.
  cbn [fold_left]. apply IH; [exact H|].
  cbn [wilder new_avg_gain]. unfold gain_of. rewrite Hd, Hs.
  vm_compute. reflexivity.
Qed.

Lemma rsi_of_zero_gain (l : float) :
  nonneg l ->
  rsi_of_averages (S754_zero false) l = Ok None \/
  rsi_of_averages (S754_zero false) l = Ok (Some (S754_zero false)).
Proof.
  destruct l as [[|] | [|] | | [|] m e]; try contradiction; intros _.
  - left. reflexivity.
  - right. vm_compute. reflexivity.
  - right. vm_compute. reflexivity.
Qed.

(** X12: on a series none of whose deltas is positive, the average gain
    is exactly zero after the seed and after every update, and
    [calculate_RSI] returns [None] (when the average loss is zero too) or
    exactly [0.0]: an RSI that passes every buy threshold that is not
    negative. *)
Theorem no_positive_delta_rsi_zero :
  forall closes : list float,
    no_gain closes = true ->
    (exists s, smoothed_averages closes = Ok s /\
               new_avg_gain s = S754_zero false) /\
    (calculate_RSI_on closes = Ok None \/
     calculate_RSI_on closes = Ok (Some (S754_zero false))) /\
    (forall (p : trade_parameters) (r : float),
        calculate_RSI_on closes = Ok (Some r) ->
        F64.leb (F64.of_int 0) (buy_rsiThreshold p) = true ->
        F64.leb r (buy_rsiThreshold p) = true).
Proof.
  intros closes Hng. unfold no_gain in Hng.
  assert (Hs : exists s, smoothed_averages closes = Ok s /\
                         new_avg_gain s = S754_zero false).
  { destruct (smoothed_averages_wilder_eq closes) as [g [l [Hseed Hsm]]].
    eexists. split; [exact Hsm|].
    apply wilder_keeps_zero_gain; [apply forallb_skipn; exact Hng|].
    cbn [new_avg_gain].
    destruct (seed_averages_ok (firstn 14 (deltas closes)))
      as [g' [l' [Hseed' Hgl]]].
    rewrite Hseed in Hseed'. injection Hseed' as <- <-.
    destruct (gains_and_losses (firstn 14 (deltas closes)) [] [])
      as [advances declines] eqn:E.
    destruct (Hgl advances declines eq_refl) as [-> _].
    pose proof (no_advances (firstn 14 (deltas closes))
                  (forallb_firstn _ _ Hng 14) [] []) as Ha.
    rewrite E in Ha. cbn [fst] in Ha. subst advances.
    vm_compute. reflexivity. }
  assert (Hr : calculate_RSI_on closes = Ok None \/
               calculate_RSI_on closes = Ok (Some (S754_zero false))).
  { destruct Hs as [s [Hsm Hg]].
    destruct (smoothed_averages_nonneg closes s Hsm) as [_ Hl].
    unfold calculate_RSI_on. rewrite Hsm. cbn [rbind]. rewrite Hg.
    apply rsi_of_zero_gain. exact Hl. }
  split; [exact Hs|]. split; [exact Hr|].
  intros p r Hrsi Hthreshold.
  destruct Hr as [Hr | Hr]; rewrite Hr in Hrsi; [discriminate Hrsi|].
  injection Hrsi as <-. exact Hthreshold.
Qed.

Lemma no_positive_delta_rsi_zero_witness :
  calculate_RSI_on falling_closes = Ok None \/
  calculate_RSI_on falling_closes = Ok (Some (S754_zero false)).
Proof.
  destruct (no_positive_delta_rsi_zero falling_closes) as [_ [H _]];
    [vm_compute; reflexivity | exact H].
Defined.

(** *** The strategies and the indicator *)

Section StrategyIndicator.

Context {db : Type}.
Variable Database : database_class db.
Variable Bittrex : exchange.
Variable params : trade_parameters.
Variable fuel : nat.

(** X13: [calculate_RSI] makes one request, for [period * 3] candles, and
    raises only what that request raises: on every list of closes that
    the exchange returns, the empty one included, no index leaves the
    list and no divisor is zero. *)
Theorem calculate_RSI_raises_only_the_request :
  forall (coin_pair : string) (period : Z) (unit : string) (w : world db),
    snd (calculate_RSI Bittrex coin_pair period unit w)
    = World (now w + Z.of_N (bx_request_time Bittrex (trace w)))
        (trace w ++ [BittrexGetHistoricalData coin_pair (period * 3) unit])
        (database w)
    /\
    (forall closes,
        bx_get_historical_data Bittrex (trace w) coin_pair (period * 3) unit
          = Ok closes ->
        exists r,
          calculate_RSI_on closes = Ok r /\
          fst (calculate_RSI Bittrex coin_pair period unit w) = Ok r)
    /\
    (forall e,
        fst (calculate_RSI Bittrex coin_pair period unit w) = Raise e ->
        bx_get_historical_data Bittrex (trace w) coin_pair (period * 3) unit
          = Raise e).
Proof.
  intros coin_pair period unit w.
  unfold calculate_RSI, get_closing_prices, bind, request, lift.
  destruct (bx_get_historical_data Bittrex (trace w) coin_pair (period * 3) unit)
    as [closes | e |] eqn:E; cbn [fst snd].
  - split; [reflexivity|]. split.
    + intros closes' H. injection H as <-.
      destruct (calculate_RSI_total closes) as [r Hr].
      exists r. split; [exact Hr | exact Hr].
    + intros e H. destruct (calculate_RSI_total closes) as [r Hr].
      rewrite Hr in H. discriminate H.
  - split; [reflexivity|]. split.
    + intros closes H. discriminate H.
    + intros e' H. injection H as <-. reflexivity.
  - split; [reflexivity|]. split.
    + intros closes H. discriminate H.
    + intros e' H. discriminate H.
Qed.

(** X14: on a market that is not tracked and none of whose 42 closes is
    below the one before, [buy_strategy] fetches the candles, then the
    market summary for the volume and once more for the ask price,
    logging each fetch that fails, and returns: there is no RSI, so
    whatever the volume and the ask price are, it sends no order, prints
    nothing and leaves the ledger as it was. *)
Theorem buy_strategy_without_decline :
  forall (coin_pair : string) (closes : list float) (w : world db),
    ~ In coin_pair (trackedCoinPairs Database (database w)) ->
    bx_get_historical_data Bittrex (trace w) coin_pair 42
      (tickerInterval params) = Ok closes ->
    nonnegative_deltas closes = true ->
    (forall h, exists s, bx_get_market_summary Bittrex h coin_pair = Ok s) ->
    exists w' evs s1 s2,
      buy_strategy Database Bittrex params fuel coin_pair w = (Ok tt, w') /\
      trace w' = trace w ++ evs /\
      bx_get_market_summary Bittrex
        (trace w ++ [BittrexGetHistoricalData coin_pair 42
                       (tickerInterval params)]) coin_pair = Ok s1 /\
      bx_get_market_summary Bittrex
        (trace w
         ++ [BittrexGetHistoricalData coin_pair 42 (tickerInterval params);
             BittrexGetMarketSummary coin_pair]
         ++ (if ms_success s1 then []
             else [LoggerError (FailedToFetchSummary coin_pair)]))
        coin_pair = Ok s2 /\
      evs = [BittrexGetHistoricalData coin_pair 42 (tickerInterval params);
             BittrexGetMarketSummary coin_pair]
            ++ (if ms_success s1 then []
                else [LoggerError (FailedToFetchSummary coin_pair)])
            ++ [BittrexGetMarketSummary coin_pair]
            ++ (if ms_success s2 then []
                else [LoggerError (FailedToFetchSummary coin_pair)]) /\
      forallb (market_read coin_pair) evs = true /\
      filter is_notification evs = [] /\
      database w' = database w.
Proof.
  intros coin_pair closes w Huntracked Hcandles Hnn Hsummary.
  destruct (zero_loss_averages closes Hnn) as [s [Hs Hloss]].
  assert (Hrsi : calculate_RSI_on closes = Ok None).
  { unfold calculate_RSI_on. rewrite Hs. cbn [rbind].
    unfold rsi_of_averages. rewrite Hloss. reflexivity. }
  destruct (Hsummary (trace w ++ [BittrexGetHistoricalData coin_pair 42
                                    (tickerInterval params)]))
    as [s1 Hs1].
  destruct (Hsummary
              (trace w
               ++ [BittrexGetHistoricalData coin_pair 42 (tickerInterval params);
                   BittrexGetMarketSummary coin_pair]
               ++ (if ms_success s1 then []
                   else [LoggerError (FailedToFetchSummary coin_pair)])))
    as [s2 Hs2].
  unfold buy_strategy. unfold bind at 1. unfold tracked at 1.
  rewrite (untracked_membership _ _ Huntracked).
  unfold bind at 1. unfold calculate_RSI, get_closing_prices.
  unfold bind at 1. unfold request at 1.
  change (14 * 3) with 42. rewrite Hcandles. unfold lift at 1. rewrite Hrsi.
  unfold bind at 1. unfold get_current_24hr_volume.
  unfold bind at 1. unfold request at 1. cbn [now trace database].
  rewrite Hs1.
  destruct (ms_success s1) eqn:E1; cbn [negb].
  - unfold ret at 1. cbn [now trace database].
    unfold bind at 1. unfold get_current_price.
    unfold bind at 1. unfold request at 1. cbn [now trace database].
    rewrite <- app_assoc. cbn [app]. cbn [app] in Hs2. rewrite Hs2.
    destruct (ms_success s2) eqn:E2; cbn [negb].
    + cbn [String.eqb Ascii.eqb Bool.eqb]. unfold ret at 1.
      unfold bind, lift, ret. cbn [check_buy_parameters].
      eexists.
      exists ([BittrexGetHistoricalData coin_pair 42 (tickerInterval params);
               BittrexGetMarketSummary coin_pair]
              ++ (if ms_success s1 then []
                  else [LoggerError (FailedToFetchSummary coin_pair)])
              ++ [BittrexGetMarketSummary coin_pair]
              ++ (if ms_success s2 then []
                  else [LoggerError (FailedToFetchSummary coin_pair)])),
        s1, s2.
      split; [reflexivity|].
      cbn [trace database]. rewrite E1, E2. cbn [app].
      split; [rewrite <- ?app_assoc; reflexivity|].
      split; [reflexivity|]. split; [first [reflexivity | exact Hs2]|].
      split; [reflexivity|].
      cbn. rewrite !String.eqb_refl. auto.
    + unfold bind, emit, lift, ret. cbn [check_buy_parameters now trace database].
      eexists.
      exists ([BittrexGetHistoricalData coin_pair 42 (tickerInterval params);
               BittrexGetMarketSummary coin_pair]
              ++ (if ms_success s1 then []
                  else [LoggerError (FailedToFetchSummary coin_pair)])
              ++ [BittrexGetMarketSummary coin_pair]
              ++ (if ms_success s2 then []
                  else [LoggerError (FailedToFetchSummary coin_pair)])),
        s1, s2.
      split; [reflexivity|].
      cbn [trace database]. rewrite E1, E2. cbn [app].
      split; [rewrite <- ?app_assoc; reflexivity|].
      split; [reflexivity|]. split; [first [reflexivity | exact Hs2]|].
      split; [reflexivity|].
      cbn. rewrite !String.eqb_refl. auto.
  - unfold bind at 1. unfold bind at 1. unfold emit at 1. unfold ret at 1.
    cbn [now trace database].
    unfold bind at 1. unfold get_current_price.
    unfold bind at 1. unfold request at 1. cbn [now trace database].
    rewrite <- !app_assoc. cbn [app]. cbn [app] in Hs2. rewrite Hs2.
    destruct (ms_success s2) eqn:E2; cbn [negb].
    + cbn [String.eqb Ascii.eqb Bool.eqb]. unfold ret at 1.
      unfold bind, lift, ret. cbn [check_buy_parameters].
      eexists.
      exists ([BittrexGetHistoricalData coin_pair 42 (tickerInterval params);
               BittrexGetMarketSummary coin_pair]
              ++ (if ms_success s1 then []
                  else [LoggerError (FailedToFetchSummary coin_pair)])
              ++ [BittrexGetMarketSummary coin_pair]
              ++ (if ms_success s2 then []
                  else [LoggerError (FailedToFetchSummary coin_pair)])),
        s1, s2.
      split; [reflexivity|].
      cbn [trace database]. rewrite E1, E2. cbn [app].
      split; [rewrite <- ?app_assoc; reflexivity|].
      split; [reflexivity|]. split; [first [reflexivity | exact Hs2]|].
      split; [reflexivity|].
      cbn. rewrite !String.eqb_refl. auto.
    + unfold bind, emit, lift, ret. cbn [check_buy_parameters now trace database].
      eexists.
      exists ([BittrexGetHistoricalData coin_pair 42 (tickerInterval params);
               BittrexGetMarketSummary coin_pair]
              ++ (if ms_success s1 then []
                  else [LoggerError (FailedToFetchSummary coin_pair)])
              ++ [BittrexGetMarketSummary coin_pair]
              ++ (if ms_success s2 then []
                  else [LoggerError (FailedToFetchSummary coin_pair)])),
        s1, s2.
      split; [reflexivity|].
      cbn [trace database]. rewrite E1, E2. cbn [app].
      split; [rewrite <- ?app_assoc; reflexivity|].
      split; [reflexivity|]. split; [first [reflexivity | exact Hs2]|].
      split; [reflexivity|].
      cbn. rewrite !String.eqb_refl. auto.
Qed.

End StrategyIndicator.

(** A rising market on the simulated exchange. *)
Lemma buy_strategy_without_decline_witness :
  exists w',
    buy_strategy spec_ledger
      (simulated_exchange rising_closes (Ok good_summary) true false)
      scenario_parameters 1 "BTC-ETH" empty_world = (Ok tt, w') /\
    trace w' = [BittrexGetHistoricalData "BTC-ETH" 42 "fiveMin";
                BittrexGetMarketSummary "BTC-ETH";
                BittrexGetMarketSummary "BTC-ETH"] /\
    database w' = database empty_world.
Proof.
  destruct (buy_strategy_without_decline spec_ledger
              (simulated_exchange rising_closes (Ok good_summary) true false)
              scenario_parameters 1 "BTC-ETH" rising_closes empty_world)
    as [w' [evs [s1 [s2 [Hrun [Htr [Hs1 [Hs2 [Hevs [_ [_ Hdb]]]]]]]]]]].
  - simpl. tauto.
  - reflexivity.
  - vm_compute. reflexivity.
  - intro h. eexists. reflexivity.
  - exists w'. split; [exact Hrun|]. split; [|exact Hdb].
    injection Hs1 as <-. injection Hs2 as <-.
    rewrite Htr, Hevs. reflexivity.
Defined.

(** *** The start of the program *)

Lemma prefix_iff (a s : string) :
  String.prefix a s = true <-> exists post, s = (a ++ post)%string.
Proof.
  revert s. induction a as [|c a IH]; intro s.
  - split; [intros _; exists s; reflexivity|].
    intros _. destruct s; reflexivity.
  - destruct s as [|d s]; cbn [String.prefix].
    + split; [discriminate | intros [post H]; discriminate H].
    + destruct (Ascii.ascii_dec c d) as [-> | Hne].
      * rewrite IH. split; intros [post H]; exists post.
        -- cbn. rewrite H. reflexivity.
        -- cbn in H. injection H as H. exact H.
      * split; [discriminate|].
        intros [post H]. cbn in H. injection H as H _.
        contradiction Hne. symmetry. exact H.
Qed.

Lemma contains_iff (sub s : string) :
  contains sub s = true <->
  exists pre post, s = (pre ++ sub ++ post)%string.
Proof.
  induction s as [|c s IH]; cbn [contains].
  - rewrite orb_false_r, prefix_iff. split.
    + intros [post H]. exists EmptyString, post. exact H.
    + intros [pre [post H]]. destruct pre as [|d pre]; [|discriminate H].
      exists post. exact H.
  - rewrite orb_true_iff, prefix_iff, IH. split.
    + intros [[post H] | [pre [post H]]].
      * exists EmptyString, post. exact H.
      * exists (String c pre), post. cbn. rewrite H. reflexivity.
    + intros [pre [post H]]. destruct pre as [|d pre].
      * left. exists post. exact H.
      * right. cbn in H. injection H as _ H. exists pre, post. exact H.
Qed.

Lemma get_markets_filter_eq (markets : markets_answer) (main_market : string) :
  mk_success markets = true ->
  get_markets (Ok markets) (Some main_market)
  = ([], Ok (filter (contains (main_market ++ "-"))
               (map MarketName (mk_result markets)))) /\
  get_markets (Ok markets) None
  = ([], Ok (map MarketName (mk_result markets))).
Proof.
  intro Hok. unfold get_markets. rewrite Hok. cbn [negb].
  split; [|reflexivity].
  f_equal. f_equal.
  induction (mk_result markets) as [|m ms IH]; [reflexivity|].
  cbn [filter map].
  destruct (contains (main_market ++ "-") (MarketName m));
    cbn [map]; rewrite IH; reflexivity.
Qed.

(** X15: when the exchange reports success, [get_markets] with a filter
    returns, in the order of the exchange, the names of the markets that
    contain the filter followed by a hyphen anywhere in their name (not
    only at its start), and without a filter all names; it logs nothing.
    When the exchange reports failure it logs the error and exits,
    whatever the filter. *)
Theorem get_markets_filter :
  forall (markets : markets_answer) (main_market : string),
    (mk_success markets = true ->
     get_markets (Ok markets) (Some main_market)
     = ([], Ok (filter (contains (main_market ++ "-"))
                  (map MarketName (mk_result markets)))) /\
     (forall name,
         In name (filter (contains (main_market ++ "-"))
                    (map MarketName (mk_result markets))) <->
         In name (map MarketName (mk_result markets)) /\
         exists pre post, name = (pre ++ (main_market ++ "-") ++ post)%string) /\
     get_markets (Ok markets) None
     = ([], Ok (map MarketName (mk_result markets))))
    /\
    (mk_success markets = false ->
     forall main_market_filter,
       get_markets (Ok markets) main_market_filter
       = ([LoggerErrorFailedToFetchMarkets], Raise SystemExit)).
Proof.
  intros markets main_market. split.
  - intro Hok.
    destruct (get_markets_filter_eq markets main_market Hok) as [Hsome Hnone].
    split; [exact Hsome|]. split; [|exact Hnone].
    intro name. rewrite filter_In, contains_iff. reflexivity.
  - intros Hfail main_market_filter. unfold get_markets. rewrite Hfail.
    reflexivity.
Qed.

Lemma get_markets_filter_witness :
  get_markets (Ok four_markets) (Some "BTC"%string)
  = ([], Ok ["BTC-ETH"; "WBTC-ETH"]%string).
Proof.
  destruct (proj1 (get_markets_filter four_markets "BTC") eq_refl)
    as [H _].
  rewrite H. reflexivity.
Defined.

(** X16: the start of the program enters the main loop exactly when the
    exchange answers the market request with success, with the markets
    whose name contains [BTC-] and after printing the header with their
    number. It exits when the exchange reports failure or the request
    raises a [ConnectionError], which is printed and logged first; any
    other exception of the request, a [JSONDecodeError] say, is not
    handled here and ends the program unreported. *)
Theorem startup_outcomes :
  forall answer : result markets_answer,
    (forall btc_coin_pairs,
        snd (startup answer) = Ok btc_coin_pairs <->
        exists markets,
          answer = Ok markets /\ mk_success markets = true /\
          btc_coin_pairs = filter (contains "BTC-")
                             (map MarketName (mk_result markets)))
    /\
    (forall btc_coin_pairs,
        snd (startup answer) = Ok btc_coin_pairs ->
        fst (startup answer)
        = [MessengerPrintHeader (List.length btc_coin_pairs)] /\
        Forall (fun name => exists pre post,
                    name = (pre ++ "BTC-" ++ post)%string) btc_coin_pairs)
    /\
    (forall markets,
        answer = Ok markets -> mk_success markets = false ->
        startup answer = ([LoggerErrorFailedToFetchMarkets], Raise SystemExit))
    /\
    (forall e,
        answer = Raise e ->
        startup answer
        = if issubclass e ConnectionError
          then ([MessengerPrintExceptionError "connection"; LoggerExceptionOf e],
                Raise SystemExit)
          else ([], Raise e)).
Proof.
  intro answer.
  assert (Hrun : forall markets,
             mk_success markets = true ->
             startup (Ok markets)
             = ([MessengerPrintHeader
                   (List.length (filter (contains "BTC-")
                                   (map MarketName (mk_result markets))))],
                Ok (filter (contains "BTC-")
                      (map MarketName (mk_result markets))))).
  { intros markets Hok. unfold startup.
    destruct (get_markets_filter_eq markets "BTC" Hok) as [-> _].
    reflexivity. }
  assert (Hfail : forall markets,
             mk_success markets = false ->
             startup (Ok markets)
             = ([LoggerErrorFailedToFetchMarkets], Raise SystemExit)).
  { intros markets Hf. unfold startup, get_markets. rewrite Hf. reflexivity. }
  assert (Hraise : forall e,
             startup (Raise e)
             = if issubclass e ConnectionError
               then ([MessengerPrintExceptionError "connection";
                      LoggerExceptionOf e], Raise SystemExit)
               else ([], Raise e)).
  { intro e. unfold startup, get_markets.
    destruct (issubclass e ConnectionError); reflexivity. }
  split; [|split; [|split]].
  - intro pairs. split.
    + destruct answer as [markets | e |].
      * destruct (mk_success markets) eqn:Hs.
        -- rewrite (Hrun markets Hs). cbn [snd]. intro H. injection H as <-.
           exists markets. auto.
        -- rewrite (Hfail markets Hs). discriminate.
      * rewrite Hraise. destruct (issubclass e ConnectionError); discriminate.
      * discriminate.
    + intros [markets [-> [Hs ->]]]. rewrite (Hrun markets Hs). reflexivity.
  - intros pairs H.
    destruct answer as [markets | e |].
    + destruct (mk_success markets) eqn:Hs.
      * rewrite (Hrun markets Hs) in *. cbn [fst snd] in *.
        injection H as <-. split; [reflexivity|].
        apply Forall_forall. intros name Hin.
        apply filter_In in Hin. destruct Hin as [_ Hc].
        apply contains_iff. exact Hc.
      * rewrite (Hfail markets Hs) in H. discriminate H.
    + rewrite Hraise in H.
      destruct (issubclass e ConnectionError); discriminate H.
    + discriminate H.
  - intros markets -> Hs. apply Hfail. exact Hs.
  - intros e ->. apply Hraise.
Qed.

Lemma startup_outcomes_witness :
  startup (Raise JSONDecodeError) = ([], Raise JSONDecodeError) /\
  startup (Raise ConnectionResetError)
  = ([MessengerPrintExceptionError "connection";
      LoggerExceptionOf ConnectionResetError], Raise SystemExit).
Proof.
  split.
  - apply (proj2 (proj2 (proj2 (startup_outcomes (Raise JSONDecodeError))))
             JSONDecodeError eq_refl).
  - apply (proj2 (proj2 (proj2 (startup_outcomes (Raise ConnectionResetError))))
             ConnectionResetError eq_refl).
Defined.

(** *** A cycle of the main loop *)

Section Cycle.

Context {db : Type}.
Variable Database : database_class db.
Variable Bittrex : exchange.
Variable params : trade_parameters.
Variable btc_coin_pairs : list string.
Variable fuel : nat.

Lemma buy_side_in_markets (coin_pair : string) (e : event) :
  In coin_pair btc_coin_pairs ->
  buy_side coin_pair e = true -> in_markets btc_coin_pairs e = true.
Proof.
  intros Hin H. destruct e; try reflexivity.
  cbn in H. apply String.eqb_eq in H. subst.
  cbn. apply tracked_membership. exact Hin.
Qed.

Lemma sell_side_in_markets (coin_pair : string) (e : event) :
  sell_side coin_pair e = true -> in_markets btc_coin_pairs e = true.
Proof.
  intro H. destruct e; try reflexivity. discriminate H.
Qed.

Lemma keeps_for_each (P : event -> bool) (body : string -> M db unit) :
  forall xs : list string,
    (forall x, In x xs -> keeps P (body x)) -> keeps P (for_each xs body).
Proof.
  induction xs as [|x xs IH]; intro H; cbn [for_each].
  - apply keeps_ret.
  - apply keeps_bind; [apply H; left; reflexivity | intros _].
    apply IH. intros y Hy. apply H. right. exact Hy.
Qed.

Lemma keeps_analyse_buys :
  keeps (in_markets btc_coin_pairs)
    (analyse_buys Database Bittrex params btc_coin_pairs fuel).
Proof.
  unfold analyse_buys.
  apply keeps_bind; [apply keeps_tracked | intro pairs].
  destruct (List.length pairs <? 1)%nat; [|apply keeps_ret].
  apply keeps_for_each. intros coin_pair Hin.
  apply (keeps_weaken (buy_side coin_pair));
    [intro e; apply buy_side_in_markets; exact Hin
    | apply keeps_buy_strategy].
Qed.

Lemma keeps_analyse_sells_from :
  forall n i : nat,
    keeps (in_markets btc_coin_pairs)
      (analyse_sells_from Database Bittrex params fuel n i).
Proof.
  induction n as [|n IH]; intro i; cbn [analyse_sells_from].
  - apply keeps_bind; [apply keeps_tracked | intro pairs].
    destruct (nth_error pairs i); [apply keeps_lift | apply keeps_ret].
  - apply keeps_bind; [apply keeps_tracked | intro pairs].
    destruct (nth_error pairs i) as [coin_pair|]; [|apply keeps_ret].
    apply keeps_bind; [|intros _; apply IH].
    apply (keeps_weaken (sell_side coin_pair));
      [intro e; apply sell_side_in_markets | apply keeps_sell_strategy].
Qed.

(** X17: in a cycle of the main loop the record of calls only grows and
    the clock never goes back; every buy order sent is for a market of
    [btc_coin_pairs]; and a cycle that completes has slept its ten
    seconds at the end, so that it has taken at least ten seconds,
    whereas one that raises has not reached that sleep. *)
Theorem cycle_pace :
  forall w : world db,
    exists evs,
      trace (snd (cycle Database Bittrex params btc_coin_pairs fuel w))
        = trace w ++ evs /\
      forallb (in_markets btc_coin_pairs) evs = true /\
      now w <= now (snd (cycle Database Bittrex params btc_coin_pairs fuel w)) /\
      (fst (cycle Database Bittrex params btc_coin_pairs fuel w) = Ok tt ->
       now w + 10
       <= now (snd (cycle Database Bittrex params btc_coin_pairs fuel w)) /\
       exists evs', evs = evs' ++ [Sleep 10]) /\
      (forall e,
          fst (cycle Database Bittrex params btc_coin_pairs fuel w) = Raise e ->
          analyse_buys Database Bittrex params btc_coin_pairs fuel w
          = (Raise e, snd (cycle Database Bittrex params btc_coin_pairs fuel w))
          \/
          exists w1,
            analyse_buys Database Bittrex params btc_coin_pairs fuel w
              = (Ok tt, w1) /\
            analyse_sells Database Bittrex params fuel w1
              = (Raise e, snd (cycle Database Bittrex params btc_coin_pairs
                                 fuel w))).
Proof.
  intro w. unfold cycle, bind.
  destruct (keeps_analyse_buys w) as [evs1 [Ht1 [Hp1 [Hn1 _]]]].
  destruct (analyse_buys Database Bittrex params btc_coin_pairs fuel w)
    as [[[] | e |] w1]; cbn [fst snd] in *.
  - destruct (keeps_analyse_sells_from fuel 0 w1) as [evs2 [Ht2 [Hp2 [Hn2 _]]]].
    fold (analyse_sells Database Bittrex params fuel) in *.
    destruct (analyse_sells Database Bittrex params fuel w1)
      as [[[] | e |] w2] eqn:Hsells; cbn [fst snd] in *.
    + exists (evs1 ++ evs2 ++ [Sleep 10]). unfold time_sleep.
      cbn [fst snd now trace].
      split; [rewrite Ht2, Ht1, <- !app_assoc; reflexivity|].
      split; [rewrite !forallb_app, Hp1, Hp2; reflexivity|].
      split; [lia|]. split.
      * intros _. split; [lia|]. exists (evs1 ++ evs2).
        rewrite <- app_assoc. reflexivity.
      * intros e H. discriminate H.
    + exists (evs1 ++ evs2).
      split; [rewrite Ht2, Ht1, <- app_assoc; reflexivity|].
      split; [rewrite forallb_app, Hp1, Hp2; reflexivity|].
      split; [lia|]. split; [intro H; discriminate H|].
      intros e' H. injection H as <-.
      right. exists w1. split; [reflexivity | exact Hsells].
    + exists (evs1 ++ evs2).
      split; [rewrite Ht2, Ht1, <- app_assoc; reflexivity|].
      split; [rewrite forallb_app, Hp1, Hp2; reflexivity|].
      split; [lia|]. split; [intro H; discriminate H|].
      intros e' H. discriminate H.
  - exists evs1. split; [exact Ht1|]. split; [exact Hp1|]. split; [exact Hn1|].
    split; [intro H; discriminate H|].
    intros e' H. injection H as <-. left. reflexivity.
  - exists evs1. split; [exact Ht1|]. split; [exact Hp1|]. split; [exact Hn1|].
    split; [intro H; discriminate H|]. intros e' H. discriminate H.
Qed.

End Cycle.

Lemma cycle_pace_witness :
  now empty_world + 10
  <= now (snd (cycle spec_ledger eager_exchange scenario_parameters two_markets
                 3 empty_world)).
Proof.
  destruct (cycle_pace spec_ledger eager_exchange scenario_parameters
              two_markets 3 empty_world) as [evs [_ [_ [_ [H _]]]]].
  apply H. vm_compute. reflexivity.
Defined.

(** *** From a passing check to the order *)

Lemma leb_ltb_trans (x y z : float) :
  F64.leb x y = true -> F64.ltb y z = true -> F64.ltb x z = true.
Proof.
  rewrite !ltb_rank, leb_rank.
  intros [Hx [_ [Hxy | Hxy]]] [_ [Hz Hyz]]; repeat split; auto.
  - exact (rank_lt_trans _ _ _ Hxy Hyz).
  - rewrite Hxy. exact Hyz.
Qed.

Lemma positive_not_zero (a : float) :
  F64.ltb (F64.of_int 0) a = true -> F64.eqb a (F64.of_int 0) = false.
Proof.
  change (F64.of_int 0) with (S754_zero false).
  destruct a as [[|] | [|] | | [|] m e]; intro H; try discriminate H;
    reflexivity.
Qed.

Section PassingCheck.

Context {db : Type}.
Variable Database : database_class db.
Variable Bittrex : exchange.
Variable params : trade_parameters.
Variable fuel : nat.

(** X18: when the minimum unit price of the configuration is not
    negative, a check that passes leads to the buy request: the ask
    price is present and above zero, so that neither the comparison nor
    the division [btcAmount / price] raises, and the first call of [buy]
    is the buy order for that quotient at the ask price. *)
Theorem passing_check_sends_the_order :
  forall (coin_pair : string) (rsi day_volume price : option float)
         (stats : buy_stats) (limit : Z) (w : world db),
    F64.leb (F64.of_int 0) (buy_minimumUnitPrice params) = true ->
    check_buy_parameters params rsi day_volume price = Ok true ->
    exists a evs,
      price = Some a /\
      F64.ltb (F64.of_int 0) a = true /\
      F64.truediv (buy_btcAmount params) a
      = Ok (F64.div (buy_btcAmount params) a) /\
      trace (snd (buy Database Bittrex fuel coin_pair (buy_btcAmount params)
                    price stats limit w))
      = trace w
        ++ BittrexBuyLimit coin_pair (F64.div (buy_btcAmount params) a) a
           :: evs.
Proof.
  intros coin_pair rsi day_volume price stats limit w Hmin Hcheck.
  apply check_buy_true_iff in Hcheck.
  destruct Hcheck as [r [v [a [-> [-> [-> [_ [_ Hprice]]]]]]]].
  pose proof (leb_ltb_trans _ _ _ Hmin Hprice) as Hpos.
  assert (Hdiv : F64.truediv (buy_btcAmount params) a
                 = Ok (F64.div (buy_btcAmount params) a)).
  { unfold F64.truediv. rewrite (positive_not_zero a Hpos). reflexivity. }
  assert (Hstart : starts_with
                     (BittrexBuyLimit coin_pair
                        (F64.div (buy_btcAmount params) a) a)
                     (buy Database Bittrex fuel coin_pair (buy_btcAmount params)
                        (Some a) stats limit)).
  { unfold buy. cbn [number].
    intro w0. unfold bind at 1. unfold lift at 1.
    unfold bind at 1. unfold lift at 1. rewrite Hdiv.
    match goal with |- exists evs, trace (snd (bind ?m ?k w0)) = _ =>
      apply (starts_with_bind
               (BittrexBuyLimit coin_pair (F64.div (buy_btcAmount params) a) a)
               (buy_side coin_pair) m k)
    end; [apply starts_with_request|].
    intro buy_data.
    destruct (negb (pl_success buy_data)); [keeps_step|].
    apply keeps_bind; [keeps_step | intros _].
    apply keeps_bind.
    - apply (keeps_weaken (order_event (pl_uuid buy_data)));
        [apply order_event_buy_side | apply keeps_get_order].
    - intro o. repeat keeps_step. }
  destruct (Hstart w) as [evs Hevs].
  exists a, evs. auto.
Qed.

End PassingCheck.

Lemma passing_check_sends_the_order_witness :
  exists a evs,
    Some (F64.decimal 1 3) = Some a /\
    F64.ltb (F64.of_int 0) a = true /\
    F64.truediv (buy_btcAmount scenario_parameters) a
    = Ok (F64.div (buy_btcAmount scenario_parameters) a) /\
    trace (snd (buy spec_ledger eager_exchange 1 "BTC-ETH"
                  (buy_btcAmount scenario_parameters) (Some (F64.decimal 1 3))
                  (BuyStats None None) 2 empty_world))
    = trace empty_world
      ++ BittrexBuyLimit "BTC-ETH"
           (F64.div (buy_btcAmount scenario_parameters) a) a :: evs.
Proof.
  apply (passing_check_sends_the_order spec_ledger eager_exchange
           scenario_parameters 1 "BTC-ETH" (Some (F64.of_int 0))
           (Some (F64.of_int 1000)) (Some (F64.decimal 1 3))).
  - vm_compute. reflexivity.
  - vm_compute. reflexivity.
Defined.

(** Instances of the properties stated for all inputs. *)

Lemma check_buy_parameters_cases_witness :
  check_buy_parameters scenario_parameters (Some (F64.of_int 0)) None None
  = Raise TypeError.
Proof.
  apply (proj2 (proj1 (proj2 (check_buy_parameters_cases scenario_parameters
                                (Some (F64.of_int 0)) None None)))).
  exists (F64.of_int 0). split; [reflexivity|].
  split; [vm_compute; reflexivity | left; reflexivity].
Defined.

Lemma calculate_RSI_raises_only_the_request_witness :
  exists r,
    calculate_RSI_on falling_closes = Ok r /\
    fst (calculate_RSI (db := list open_position) eager_exchange "BTC-ETH" 14
           "fiveMin" empty_world) = Ok r.
Proof.
  apply (proj1 (proj2 (calculate_RSI_raises_only_the_request eager_exchange
                         "BTC-ETH" 14 "fiveMin" empty_world))).
  reflexivity.
Defined.

(** A refused buy order leaves the ledger alone. *)
Lemma buy_strategy_footprint_witness :
  exists evs,
    trace (snd (buy_strategy spec_ledger refusing_exchange scenario_parameters 1
                  "BTC-ETH" empty_world))
      = trace empty_world ++ evs /\
    forallb (buy_side "BTC-ETH") evs = true /\
    now empty_world
    <= now (snd (buy_strategy spec_ledger refusing_exchange scenario_parameters
                   1 "BTC-ETH" empty_world)) /\
    (existsb (is_buy_order "BTC-ETH") evs = false ->
     database (snd (buy_strategy spec_ledger refusing_exchange
                      scenario_parameters 1 "BTC-ETH" empty_world))
       = database empty_world).
Proof.
  apply (buy_strategy_footprint spec_ledger refusing_exchange
           scenario_parameters 1 "BTC-ETH" empty_world).
Defined.

Lemma sell_strategy_footprint_witness :
  exists evs,
    trace (snd (sell_strategy spec_ledger refusing_exchange scenario_parameters
                  1 "BTC-ETH" one_position))
      = trace one_position ++ evs /\
    forallb (sell_side "BTC-ETH") evs = true /\
    now one_position
    <= now (snd (sell_strategy spec_ledger refusing_exchange
                   scenario_parameters 1 "BTC-ETH" one_position)) /\
    (existsb (is_sell_order "BTC-ETH") evs = false ->
     database (snd (sell_strategy spec_ledger refusing_exchange
                      scenario_parameters 1 "BTC-ETH" one_position))
       = database one_position).
Proof.
  apply (sell_strategy_footprint spec_ledger refusing_exchange
           scenario_parameters 1 "BTC-ETH" one_position).
Defined.

(** *** SignalPolicy: [check_sell_parameters] *)

(** X19: a [True] answer of [check_sell_parameters] is kept when the
    profit margin goes up and the RSI goes up, or appears where there was
    none: more profit and a stronger market never turn a sale down. *)
Theorem check_sell_parameters_monotone :
  forall (p : trade_parameters) (rsi : option float)
         (r' profit_margin profit_margin' : float),
    check_sell_parameters p rsi profit_margin = true ->
    (forall r, rsi = Some r -> F64.leb r r' = true) ->
    F64.leb profit_margin profit_margin' = true ->
    check_sell_parameters p (Some r') profit_margin' = true.
Proof.
  intros p rsi r' margin margin' Hsell Hr Hm.
  unfold check_sell_parameters in *.
  apply orb_true_iff in Hsell. apply orb_true_iff.
  destruct Hsell as [Hsell | Hsell].
  - destruct rsi as [r|]; [|discriminate Hsell].
    apply andb_true_iff in Hsell. destruct Hsell as [H1 H2].
    left. apply andb_true_iff. split.
    + exact (leb_trans _ _ _ H1 (Hr r eq_refl)).
    + exact (ltb_leb_trans _ _ _ H2 Hm).
  - right. exact (ltb_leb_trans _ _ _ Hsell Hm).
Qed.

Lemma check_sell_parameters_monotone_witness :
  check_sell_parameters scenario_parameters (Some (F64.of_int 70))
    (F64.of_int 1) = true.
Proof.
  apply (check_sell_parameters_monotone scenario_parameters None
           (F64.of_int 70) (F64.decimal 6 2) (F64.of_int 1)).
  - vm_compute. reflexivity.
  - intros r H. discriminate H.
  - vm_compute. reflexivity.
Defined.
